(** * mcpjungle: authentication, authorization and access-control core

    A shallow embedding of the Go sources of the OAuth issuer, the upstream
    OAuth client, the tool-group resolver, the MCP client ACL and the audit
    redaction filter, followed by the properties established about them.

    Conventions.
    - A Go [string] is a Rocq [string] (a sequence of bytes); [==] on strings
      is [String.eqb].
    - A [time.Time] is an instant counted in nanoseconds ([Z]); a
      [time.Duration] is a number of nanoseconds.  [time.Now()] is an input of
      the function that calls it.
    - A Go [(T, error)] result is a [result T]; error texts are the ones the
      source builds with [fmt.Errorf].
    - Functions of libraries outside the repository (sha256, base64, bcrypt,
      url.Parse, strings.TrimSpace) are fields of the [GoLib] class. *)

From Stdlib Require Import ZArith Ascii String List Bool Lia DecimalString.
From stdpp Require Import base option list gmap strings fin_maps.

Open Scope string_scope.
Open Scope Z_scope.

(* ===================================================================== *)
(** * Go results                                                          *)
(* ===================================================================== *)

Inductive result (A : Type) : Type :=
| Ok (a : A)
| Err (msg : string).
Arguments Ok {A} a.
Arguments Err {A} msg.

Definition is_ok {A} (r : result A) : bool :=
  match r with Ok _ => true | Err _ => false end.

(** [fmt.Errorf(prefix + "%w", err)] on failure, the rest of the function
    otherwise *)
Definition wrap {A B} (prefix : string) (r : result A) (k : A -> result B) : result B :=
  match r with
  | Ok a => k a
  | Err msg => Err (prefix ++ msg)
  end.

Notation "x <- r 'onerr' p ;; k" := (wrap p r (fun x => k))
  (at level 100, r at next level, p at next level, right associativity).

(* ===================================================================== *)
(** * Time                                                                *)
(* ===================================================================== *)

Module time.
Definition Time := Z.
Definition Duration := Z.

Definition Second : Duration := 1000000000.
Definition Minute : Duration := 60 * Second.
Definition Hour : Duration := 60 * Minute.

(** [t.Add(d)] *)
Definition Add (t : Time) (d : Duration) : Time := t + d.
(** [t.After(u)]: t is strictly later than u *)
Definition After (t u : Time) : bool := u <? t.

(** A [Duration] is an int64: products wrap around. *)
Definition wrap64 (z : Z) : Z := (z + 2^63) mod 2^64 - 2^63.
(** [time.Duration(n) * time.Second] *)
Definition Seconds (n : Z) : Duration := wrap64 (n * Second).
(** [t.Sub(u)]: the difference, kept within the range of an int64 *)
Definition Sub (t u : Time) : Duration :=
  Z.max (- 2^63) (Z.min (2^63 - 1) (t - u)).
(** [time.Until(t)], given the clock reading *)
Definition Until (now t : Time) : Duration := Sub t now.
(** [int(d.Seconds())]: whole seconds, cut towards zero *)
Definition whole_seconds (d : Duration) : Z := Z.quot d Second.
End time.

(* ===================================================================== *)
(** * Library functions the sources call                                  *)
(* ===================================================================== *)

Class GoLib := {
  (** crypto/sha256: [sha256.Sum256] *)
  sha256_Sum256 : string -> string;
  (** encoding/base64: [base64.RawURLEncoding.EncodeToString] *)
  base64_RawURLEncoding_EncodeToString : string -> string;
  (** encoding/base64: [base64.StdEncoding.DecodeString], [None] on error *)
  base64_StdEncoding_DecodeString : string -> option string;
  (** golang.org/x/crypto/bcrypt: [CompareHashAndPassword(hash, pw) == nil] *)
  bcrypt_CompareHashAndPassword : string -> string -> bool;
  (** net/url: does [url.Parse] accept the string *)
  url_Parse_ok : string -> bool;
  (** strings: [strings.TrimSpace] *)
  strings_TrimSpace : string -> string
}.

(* ===================================================================== *)
(** * internal/util/oauth.go                                              *)
(* ===================================================================== *)

Module util.
Section PKCE.
Context `{GoLib}.

Definition GeneratePKCEChallenge (verifier : string) : string :=
  let hash := sha256_Sum256 verifier in
  base64_RawURLEncoding_EncodeToString hash.

Definition VerifyPKCE (verifier challenge method : string) : bool :=
  if negb (String.eqb method "S256") then
    false
  else
    let expectedChallenge := GeneratePKCEChallenge verifier in
    String.eqb expectedChallenge challenge.
End PKCE.
End util.

(* ===================================================================== *)
(** * internal/model                                                      *)
(* ===================================================================== *)

Module model.

(** ** gorm's datatypes.JSON

    A [datatypes.JSON] column is a byte slice.  The sources observe it in
    two ways only: they compare it with [nil], and they pass it to
    [json.Unmarshal] with a [*[]string] target.  A column is modelled by
    what these two observations give: [JSON_nil] is the nil slice, and
    [JSON_bytes r] is a non-nil slice that [json.Unmarshal] decodes to [r]
    (the JSON text [null] decodes to the empty slice without error). *)
Inductive JSON : Type :=
| JSON_nil
| JSON_bytes (decoded : result (list string)).

Definition json_Unmarshal (data : JSON) : result (list string) :=
  match data with
  | JSON_nil => Err "unexpected end of JSON input"
  | JSON_bytes r => r
  end.

(** ** oauth_token.go *)

Record OAuthAccessToken := {
  at_ID : N;
  at_AccessToken : string;
  at_ClientID : string;
  at_UserID : option N;
  at_Scope : string;
  at_ExpiresAt : time.Time;
  at_RefreshTokenID : option N;
  at_Audience : string;
  at_Revoked : bool
}.

Definition OAuthAccessToken_IsExpired (now : time.Time) (t : OAuthAccessToken) : bool :=
  time.After now (at_ExpiresAt t).

Definition OAuthAccessToken_IsValid (now : time.Time) (t : OAuthAccessToken) : bool :=
  negb (at_Revoked t) && negb (OAuthAccessToken_IsExpired now t).

Record OAuthRefreshToken := {
  rt_ID : N;
  rt_RefreshToken : string;
  rt_ClientID : string;
  rt_UserID : N;
  rt_Scope : string;
  rt_ExpiresAt : time.Time;
  rt_Revoked : bool;
  rt_RotationCount : Z
}.

Definition OAuthRefreshToken_IsExpired (now : time.Time) (t : OAuthRefreshToken) : bool :=
  time.After now (rt_ExpiresAt t).

Definition OAuthRefreshToken_IsValid (now : time.Time) (t : OAuthRefreshToken) : bool :=
  negb (rt_Revoked t) && negb (OAuthRefreshToken_IsExpired now t).

(** ** oauth_authorization_code.go *)

Record OAuthAuthorizationCode := {
  ac_ID : N;
  ac_Code : string;
  ac_ClientID : string;
  ac_UserID : N;
  ac_RedirectURI : string;
  ac_Scope : string;
  ac_ExpiresAt : time.Time;
  ac_CodeChallenge : string;
  ac_CodeChallengeMethod : string;
  ac_Used : bool
}.

Definition OAuthAuthorizationCode_IsExpired (now : time.Time) (c : OAuthAuthorizationCode) : bool :=
  time.After now (ac_ExpiresAt c).

Definition OAuthAuthorizationCode_IsValid (now : time.Time) (c : OAuthAuthorizationCode) : bool :=
  negb (ac_Used c) && negb (OAuthAuthorizationCode_IsExpired now c).

(** ** oauth_upstream_session.go *)

Record OAuthUpstreamSession := {
  us_ID : N;
  us_McpServerName : string;
  us_ClientID : string;
  us_ClientSecret : string;
  us_AccessToken : string;
  us_RefreshToken : string;
  us_TokenType : string;
  us_ExpiresAt : option time.Time;      (* *time.Time, nil when unset *)
  us_Scope : string;
  us_AuthorizationEndpoint : string;
  us_TokenEndpoint : string;
  us_ResourceURI : string;
  us_CodeVerifier : string;
  us_RedirectURI : string
}.

Definition IsAccessTokenExpired (now : time.Time) (s : OAuthUpstreamSession) : bool :=
  match us_ExpiresAt s with
  | None => false
  | Some expiresAt =>
      (* Refresh token 5 minutes before expiry to avoid race conditions *)
      time.After (time.Add now (5 * time.Minute)) expiresAt
  end.

Definition NeedsRefresh (now : time.Time) (s : OAuthUpstreamSession) : bool :=
  negb (String.eqb (us_RefreshToken s) "") && IsAccessTokenExpired now s.

(** ** oauth_client.go *)

Record OAuthClient := {
  oc_ClientID : string;
  oc_ClientSecret : string;            (* bcrypt hash *)
  oc_ClientName : string;
  oc_RedirectURIs : JSON;
  oc_GrantTypes : JSON;
  oc_Scopes : JSON;
  oc_IsConfidential : bool;
  oc_TokenEndpointAuthMethod : string;
  oc_UserID : option N
}.

(** ** tool.go, prompt.go: only the [Name] field is read here *)

Record Tool := { Tool_Name : string }.
Record Prompt := { Prompt_Name : string }.

(** ** tool_group.go *)

Record ToolResolver := {
  ListToolsByServer : string -> result (list Tool)
}.

Record PromptResolver := {
  ListPromptsByServer : string -> result (list Prompt)
}.

(** [ToolGroupResolver] embeds both interfaces. *)
Record ToolGroupResolver := {
  as_ToolResolver :> ToolResolver;
  as_PromptResolver :> PromptResolver
}.

Record ToolGroup := {
  tg_Name : string;
  tg_Description : string;
  tg_IncludedTools : JSON;
  tg_IncludedServers : JSON;
  tg_ExcludedTools : JSON;
  tg_IncludedPrompts : JSON;
  tg_ExcludedPrompts : JSON
}.

(** The five getters share one shape: the empty slice for a nil column,
    otherwise whatever [json.Unmarshal] returns. *)
Definition unmarshal_or_empty (col : JSON) : result (list string) :=
  match col with
  | JSON_nil => Ok []
  | _ => json_Unmarshal col
  end.

Definition GetTools (g : ToolGroup) := unmarshal_or_empty (tg_IncludedTools g).
Definition GetServers (g : ToolGroup) := unmarshal_or_empty (tg_IncludedServers g).
Definition GetExcludedTools (g : ToolGroup) := unmarshal_or_empty (tg_ExcludedTools g).
Definition GetPrompts (g : ToolGroup) := unmarshal_or_empty (tg_IncludedPrompts g).
Definition GetExcludedPrompts (g : ToolGroup) := unmarshal_or_empty (tg_ExcludedPrompts g).

(** [for _, x := range xs { m[x] = true }] *)
Definition set_all (xs : list string) (m : gmap string bool) : gmap string bool :=
  foldl (fun m x => <[x := true]> m) m xs.

(** [for _, x := range xs { delete(m, x) }] *)
Definition delete_all (xs : list string) (m : gmap string bool) : gmap string bool :=
  foldl (fun m x => delete x m) m xs.

(** [for k := range m { result = append(result, k) }]; Go leaves the order
    of the keys unspecified, the model lists them in the map's own order. *)
Definition keys (m : gmap string bool) : list string :=
  (map_to_list m).*1.

(** The loop over [included_servers] of [ResolveEffectiveTools]. *)
Fixpoint add_server_tools (mcpService : ToolResolver) (includedServers : list string)
    (effectiveTools : gmap string bool) : result (gmap string bool) :=
  match includedServers with
  | [] => Ok effectiveTools
  | serverName :: rest =>
      serverTools <- ListToolsByServer mcpService serverName
        onerr ("failed to get tools for server " ++ serverName ++ ": ") ;;
      add_server_tools mcpService rest
        (set_all (Tool_Name <$> serverTools) effectiveTools)
  end.

Definition ResolveEffectiveTools (g : ToolGroup) (mcpService : ToolResolver)
    : result (list string) :=
  let effectiveTools : gmap string bool := ∅ in
  (* Add tools from included_tools *)
  includedTools <- GetTools g onerr "failed to get included tools: " ;;
  let effectiveTools := set_all includedTools effectiveTools in
  (* Add tools from included_servers *)
  includedServers <- GetServers g onerr "failed to get included servers: " ;;
  effectiveTools <- add_server_tools mcpService includedServers effectiveTools onerr "" ;;
  (* Remove tools from excluded_tools *)
  excludedTools <- GetExcludedTools g onerr "failed to get excluded tools: " ;;
  let effectiveTools := delete_all excludedTools effectiveTools in
  (* Convert map to slice *)
  Ok (keys effectiveTools).

(** The loop over [included_servers] of [ResolveEffectivePrompts]. *)
Fixpoint add_server_prompts (resolver : PromptResolver) (includedServers : list string)
    (effectivePrompts : gmap string bool) : result (gmap string bool) :=
  match includedServers with
  | [] => Ok effectivePrompts
  | serverName :: rest =>
      serverPrompts <- ListPromptsByServer resolver serverName
        onerr ("failed to get prompts for server " ++ serverName ++ ": ") ;;
      add_server_prompts resolver rest
        (set_all (Prompt_Name <$> serverPrompts) effectivePrompts)
  end.

Definition ResolveEffectivePrompts (g : ToolGroup) (resolver : PromptResolver)
    : result (list string) :=
  let effectivePrompts : gmap string bool := ∅ in
  includedPrompts <- GetPrompts g onerr "failed to get included prompts: " ;;
  let effectivePrompts := set_all includedPrompts effectivePrompts in
  (* We reuse the IncludedServers field for both tools and prompts *)
  includedServers <- GetServers g onerr "failed to get included servers: " ;;
  effectivePrompts <- add_server_prompts resolver includedServers effectivePrompts onerr "" ;;
  excludedPrompts <- GetExcludedPrompts g onerr "failed to get excluded prompts: " ;;
  let effectivePrompts := delete_all excludedPrompts effectivePrompts in
  Ok (keys effectivePrompts).

(** ** mcp_client.go *)

Record ToolGroupToolChecker := {
  GetToolGroup : string -> result ToolGroup
}.

Record McpClient := {
  mc_Name : string;
  mc_Description : string;
  mc_AccessToken : string;
  mc_AllowList : JSON;
  mc_AllowedToolGroups : JSON
}.

(** [for _, x := range xs { if x == y { return true } }; return false] *)
Fixpoint contains (xs : list string) (y : string) : bool :=
  match xs with
  | [] => false
  | x :: rest => if String.eqb x y then true else contains rest y
  end.

Definition CheckHasServerAccess (c : McpClient) (serverName : string) : bool :=
  match mc_AllowList c with
  | JSON_nil => false
  | col =>
      match json_Unmarshal col with
      | Err _ => false
      | Ok allowedServers => contains allowedServers serverName
      end
  end.

Definition GetAllowedToolGroups (c : McpClient) : result (list string) :=
  unmarshal_or_empty (mc_AllowedToolGroups c).

(** [splitServerToolName]: the loop visits the indices [i < len(name)-1]
    from the left and stops at the first one with [name[i:i+2] == "__"],
    returning [name[:i]] and [name[i+2:]].  The recursion visits the same
    indices: the head of the string is index [i], it is a candidate only
    when a second byte follows, and the bytes already passed are put back
    in front of the server name. *)
Fixpoint splitServerToolName (name : string) : option (string * string) :=
  match name with
  | EmptyString => None
  | String ch rest =>
      match rest with
      | EmptyString => None
      | String ch' rest' =>
          if Ascii.eqb ch "_" && Ascii.eqb ch' "_" then Some ("", rest')
          else
            match splitServerToolName rest with
            | Some (serverName, toolName) => Some (String ch serverName, toolName)
            | None => None
            end
      end
  end.

Fixpoint toolExistsInAllowedGroups (toolName : string) (allowedGroups : list string)
    (checker : ToolGroupToolChecker) (resolver : ToolGroupResolver) : result bool :=
  match allowedGroups with
  | [] => Ok false
  | groupName :: rest =>
      match GetToolGroup checker groupName with
      | Err _ =>
          (* If the group doesn't exist, skip it *)
          toolExistsInAllowedGroups toolName rest checker resolver
      | Ok group =>
          effectiveTools <- ResolveEffectiveTools group resolver
            onerr ("failed to resolve tools for group " ++ groupName ++ ": ") ;;
          if contains effectiveTools toolName then Ok true
          else toolExistsInAllowedGroups toolName rest checker resolver
      end
  end.

Definition CheckHasToolAccess (c : McpClient) (toolName : string)
    (checker : ToolGroupToolChecker) (resolver : ToolGroupResolver) : result bool :=
  allowedGroups <- GetAllowedToolGroups c onerr "failed to get allowed tool groups: " ;;
  (* If tool groups are specified, use tool-level ACL *)
  if (0 <? length allowedGroups)%nat then
    toolExistsInAllowedGroups toolName allowedGroups checker resolver
  else
    (* Fall back to server-level ACL *)
    match splitServerToolName toolName with
    | None => Err ("invalid tool name format: " ++ toolName)
    | Some (serverName, _) => Ok (CheckHasServerAccess c serverName)
    end.

End model.

(* ===================================================================== *)
(** * Effects: database statements, clock, randomness, HTTP, log          *)
(* ===================================================================== *)

(** The services and handlers run statements against the gorm handle, read
    the clock, draw random bytes, call upstream token endpoints and write to
    the log.  Each such action is an [Event]; a function of the source that
    performs them is a [Prog], a tree of events and continuations.  [run]
    executes a [Prog] against a [World], which holds the tables and the
    answers of everything outside the process. *)

Module sys.
Import model.

(** What [db.Where(...).First(&row)] reports. *)
Inductive first_result (A : Type) : Type :=
| Found (row : A)
| ErrRecordNotFound
| FirstError (msg : string).
Arguments Found {A} row.
Arguments ErrRecordNotFound {A}.
Arguments FirstError {A} msg.

(** A Go [error]: [None] is [nil]. *)
Definition error := option string.

Record HTTPRequest := {
  hr_Method : string;
  hr_URL : string;
  hr_Form : list (string * string);
  hr_Header : list (string * string);
  hr_BasicAuth : option (string * string)
}.

(** The token response of an upstream server, json-decoded. *)
Record TokenResponse := {
  tr_AccessToken : string;
  tr_TokenType : string;
  tr_ExpiresIn : Z;
  tr_RefreshToken : string;
  tr_Scope : string
}.

(** What [httpClient.Do] followed by reading the body gives: a transport
    error, or a status, the raw body and what the JSON decoder makes of it. *)
Inductive HTTPOutcome : Type :=
| TransportError (msg : string)
| HTTPResponse (status : Z) (body : string) (decoded : result TokenResponse).

Inductive Event : Type :=
| TimeNow
| RandRead (n : nat)
| Log (level msg : string)
| FirstOAuthClient (client_id : string)
| FirstAuthorizationCode (code : string)
| CreateAuthorizationCode (row : OAuthAuthorizationCode)
| UpdateAuthorizationCodeUsed (code : string)
| CreateAccessToken (row : OAuthAccessToken)
| CreateRefreshToken (row : OAuthRefreshToken)
| UpdateAccessTokenRevoked (token : string)
| UpdateRefreshTokenRevoked (token : string)
| FirstUpstreamSession (mcp_server_name : string)
| SaveUpstreamSession (row : OAuthUpstreamSession)
| HTTPDo (req : HTTPRequest).

Definition Resp (e : Event) : Type :=
  match e with
  | TimeNow => time.Time
  | RandRead _ => result string
  | Log _ _ => unit
  | FirstOAuthClient _ => first_result OAuthClient
  | FirstAuthorizationCode _ => first_result OAuthAuthorizationCode
  | CreateAuthorizationCode _ => result N
  | UpdateAuthorizationCodeUsed _ => error
  | CreateAccessToken _ => result N
  | CreateRefreshToken _ => result N
  | UpdateAccessTokenRevoked _ => error
  | UpdateRefreshTokenRevoked _ => error
  | FirstUpstreamSession _ => first_result OAuthUpstreamSession
  | SaveUpstreamSession _ => error
  | HTTPDo _ => HTTPOutcome
  end.

Inductive Prog (A : Type) : Type :=
| Ret (a : A)
| Do (e : Event) (k : Resp e -> Prog A).
Arguments Ret {A} a.
Arguments Do {A} e k.

Fixpoint bind {A B} (p : Prog A) (f : A -> Prog B) : Prog B :=
  match p with
  | Ret a => f a
  | Do e k => Do e (fun x => bind (k x) f)
  end.

Definition perform (e : Event) : Prog (Resp e) := Do e Ret.

#[export] Instance Prog_ret : MRet Prog := @Ret.
#[export] Instance Prog_bind : MBind Prog := fun A B f p => bind p f.

(** ** The world *)

Record DB := {
  oauth_clients : list OAuthClient;
  oauth_authorization_codes : list OAuthAuthorizationCode;
  oauth_access_tokens : list OAuthAccessToken;
  oauth_refresh_tokens : list OAuthRefreshToken;
  oauth_upstream_sessions : list OAuthUpstreamSession
}.

(** Everything the process does not decide: the [n]-th clock reading, the
    [n]-th draw of random bytes, whether the [n]-th database statement fails
    (and with what error), and the outcome of the [n]-th HTTP call. *)
Record Env := {
  clock : nat -> time.Time;
  random : nat -> nat -> result string;
  db_fault : nat -> error;
  http : nat -> HTTPRequest -> HTTPOutcome
}.

Record World := {
  w_env : Env;
  w_db : DB;
  w_clock_reads : nat;
  w_random_draws : nat;
  w_statements : nat;
  w_http_calls : nat;
  w_trace : list Event                  (* events performed, oldest first *)
}.

(** ** Tables *)

Definition set_ac_ID (id : N) (r : OAuthAuthorizationCode) : OAuthAuthorizationCode :=
  {| ac_ID := id; ac_Code := ac_Code r; ac_ClientID := ac_ClientID r;
     ac_UserID := ac_UserID r; ac_RedirectURI := ac_RedirectURI r;
     ac_Scope := ac_Scope r; ac_ExpiresAt := ac_ExpiresAt r;
     ac_CodeChallenge := ac_CodeChallenge r;
     ac_CodeChallengeMethod := ac_CodeChallengeMethod r; ac_Used := ac_Used r |}.

Definition set_ac_Used (used : bool) (r : OAuthAuthorizationCode) : OAuthAuthorizationCode :=
  {| ac_ID := ac_ID r; ac_Code := ac_Code r; ac_ClientID := ac_ClientID r;
     ac_UserID := ac_UserID r; ac_RedirectURI := ac_RedirectURI r;
     ac_Scope := ac_Scope r; ac_ExpiresAt := ac_ExpiresAt r;
     ac_CodeChallenge := ac_CodeChallenge r;
     ac_CodeChallengeMethod := ac_CodeChallengeMethod r; ac_Used := used |}.

Definition set_at_ID (id : N) (r : OAuthAccessToken) : OAuthAccessToken :=
  {| at_ID := id; at_AccessToken := at_AccessToken r; at_ClientID := at_ClientID r;
     at_UserID := at_UserID r; at_Scope := at_Scope r; at_ExpiresAt := at_ExpiresAt r;
     at_RefreshTokenID := at_RefreshTokenID r; at_Audience := at_Audience r;
     at_Revoked := at_Revoked r |}.

Definition set_at_Revoked (revoked : bool) (r : OAuthAccessToken) : OAuthAccessToken :=
  {| at_ID := at_ID r; at_AccessToken := at_AccessToken r; at_ClientID := at_ClientID r;
     at_UserID := at_UserID r; at_Scope := at_Scope r; at_ExpiresAt := at_ExpiresAt r;
     at_RefreshTokenID := at_RefreshTokenID r; at_Audience := at_Audience r;
     at_Revoked := revoked |}.

Definition set_rt_ID (id : N) (r : OAuthRefreshToken) : OAuthRefreshToken :=
  {| rt_ID := id; rt_RefreshToken := rt_RefreshToken r; rt_ClientID := rt_ClientID r;
     rt_UserID := rt_UserID r; rt_Scope := rt_Scope r; rt_ExpiresAt := rt_ExpiresAt r;
     rt_Revoked := rt_Revoked r; rt_RotationCount := rt_RotationCount r |}.

Definition set_rt_Revoked (revoked : bool) (r : OAuthRefreshToken) : OAuthRefreshToken :=
  {| rt_ID := rt_ID r; rt_RefreshToken := rt_RefreshToken r; rt_ClientID := rt_ClientID r;
     rt_UserID := rt_UserID r; rt_Scope := rt_Scope r; rt_ExpiresAt := rt_ExpiresAt r;
     rt_Revoked := revoked; rt_RotationCount := rt_RotationCount r |}.

Definition set_us_ID (id : N) (r : OAuthUpstreamSession) : OAuthUpstreamSession :=
  {| us_ID := id; us_McpServerName := us_McpServerName r; us_ClientID := us_ClientID r;
     us_ClientSecret := us_ClientSecret r; us_AccessToken := us_AccessToken r;
     us_RefreshToken := us_RefreshToken r; us_TokenType := us_TokenType r;
     us_ExpiresAt := us_ExpiresAt r; us_Scope := us_Scope r;
     us_AuthorizationEndpoint := us_AuthorizationEndpoint r;
     us_TokenEndpoint := us_TokenEndpoint r; us_ResourceURI := us_ResourceURI r;
     us_CodeVerifier := us_CodeVerifier r; us_RedirectURI := us_RedirectURI r |}.

Definition set_codes (db : DB) (t : list OAuthAuthorizationCode) : DB :=
  {| oauth_clients := oauth_clients db; oauth_authorization_codes := t;
     oauth_access_tokens := oauth_access_tokens db;
     oauth_refresh_tokens := oauth_refresh_tokens db;
     oauth_upstream_sessions := oauth_upstream_sessions db |}.

Definition set_access_tokens (db : DB) (t : list OAuthAccessToken) : DB :=
  {| oauth_clients := oauth_clients db;
     oauth_authorization_codes := oauth_authorization_codes db;
     oauth_access_tokens := t;
     oauth_refresh_tokens := oauth_refresh_tokens db;
     oauth_upstream_sessions := oauth_upstream_sessions db |}.

Definition set_refresh_tokens (db : DB) (t : list OAuthRefreshToken) : DB :=
  {| oauth_clients := oauth_clients db;
     oauth_authorization_codes := oauth_authorization_codes db;
     oauth_access_tokens := oauth_access_tokens db;
     oauth_refresh_tokens := t;
     oauth_upstream_sessions := oauth_upstream_sessions db |}.

Definition set_sessions (db : DB) (t : list OAuthUpstreamSession) : DB :=
  {| oauth_clients := oauth_clients db;
     oauth_authorization_codes := oauth_authorization_codes db;
     oauth_access_tokens := oauth_access_tokens db;
     oauth_refresh_tokens := oauth_refresh_tokens db;
     oauth_upstream_sessions := t |}.

(** [WHERE col = ? ... First]: the first matching row. *)
Definition first {A} (key : A -> string) (v : string) (table : list A) : first_result A :=
  match List.find (fun r => String.eqb (key r) v) table with
  | Some r => Found r
  | None => ErrRecordNotFound
  end.

(** [Model(..).Where(col = ?).Update(..)]: every matching row is rewritten;
    matching no row is not an error. *)
Definition update_where {A} (key : A -> string) (v : string) (f : A -> A)
    (table : list A) : list A :=
  List.map (fun r => if String.eqb (key r) v then f r else r) table.

(** [Create]: the row gets the next primary key; a value already present
    under the unique index is refused. *)
Definition next_id {A} (table : list A) : N := N.of_nat (List.length table) + 1.

Definition create {A} (key : A -> string) (set_id : N -> A -> A) (row : A)
    (table : list A) : result N * list A :=
  if List.existsb (fun r => String.eqb (key r) (key row)) table then
    (Err "UNIQUE constraint failed", table)
  else
    let id := next_id table in
    (Ok id, (table ++ [set_id id row])%list).

(** [Save]: rewrites the row with the same primary key, inserts otherwise. *)
Definition save_session (row : OAuthUpstreamSession) (table : list OAuthUpstreamSession)
    : error * list OAuthUpstreamSession :=
  if List.existsb (fun r => N.eqb (us_ID r) (us_ID row)) table then
    (None, List.map (fun r => if N.eqb (us_ID r) (us_ID row) then row else r) table)
  else
    match create us_McpServerName set_us_ID row table with
    | (Ok _, table') => (None, table')
    | (Err msg, table') => (Some msg, table')
    end.

(** ** Executing events *)

Definition record_event (e : Event) (w : World) : World :=
  {| w_env := w_env w; w_db := w_db w;
     w_clock_reads := w_clock_reads w; w_random_draws := w_random_draws w;
     w_statements := w_statements w; w_http_calls := w_http_calls w;
     w_trace := (w_trace w ++ [e])%list |}.

Definition after_statement (db : DB) (w : World) : World :=
  {| w_env := w_env w; w_db := db;
     w_clock_reads := w_clock_reads w; w_random_draws := w_random_draws w;
     w_statements := S (w_statements w); w_http_calls := w_http_calls w;
     w_trace := w_trace w |}.

Definition after_clock_read (w : World) : World :=
  {| w_env := w_env w; w_db := w_db w;
     w_clock_reads := S (w_clock_reads w); w_random_draws := w_random_draws w;
     w_statements := w_statements w; w_http_calls := w_http_calls w;
     w_trace := w_trace w |}.

Definition after_random_draw (w : World) : World :=
  {| w_env := w_env w; w_db := w_db w;
     w_clock_reads := w_clock_reads w; w_random_draws := S (w_random_draws w);
     w_statements := w_statements w; w_http_calls := w_http_calls w;
     w_trace := w_trace w |}.

Definition after_http_call (w : World) : World :=
  {| w_env := w_env w; w_db := w_db w;
     w_clock_reads := w_clock_reads w; w_random_draws := w_random_draws w;
     w_statements := w_statements w; w_http_calls := S (w_http_calls w);
     w_trace := w_trace w |}.

(** A statement either fails as the environment says, leaving the tables as
    they are, or executes. *)
Definition statement {X} (w : World) (failed : string -> X) (exec : DB -> X * DB)
    : X * World :=
  match db_fault (w_env w) (w_statements w) with
  | Some msg => (failed msg, after_statement (w_db w) w)
  | None => let '(x, db) := exec (w_db w) in (x, after_statement db w)
  end.

Definition handle (e : Event) (w0 : World) : Resp e * World :=
  let w := record_event e w0 in
  match e return Resp e * World with
  | TimeNow => (clock (w_env w) (w_clock_reads w), after_clock_read w)
  | RandRead n => (random (w_env w) (w_random_draws w) n, after_random_draw w)
  | Log _ _ => (tt, w)
  | HTTPDo req => (http (w_env w) (w_http_calls w) req, after_http_call w)
  | FirstOAuthClient client_id =>
      statement w FirstError (fun db => (first oc_ClientID client_id (oauth_clients db), db))
  | FirstAuthorizationCode code =>
      statement w FirstError
        (fun db => (first ac_Code code (oauth_authorization_codes db), db))
  | CreateAuthorizationCode row =>
      statement w Err
        (fun db => let '(r, t) := create ac_Code set_ac_ID row (oauth_authorization_codes db)
                   in (r, set_codes db t))
  | UpdateAuthorizationCodeUsed code =>
      statement w Some
        (fun db => (None, set_codes db
                      (update_where ac_Code code (set_ac_Used true)
                         (oauth_authorization_codes db))))
  | CreateAccessToken row =>
      statement w Err
        (fun db => let '(r, t) := create at_AccessToken set_at_ID row (oauth_access_tokens db)
                   in (r, set_access_tokens db t))
  | CreateRefreshToken row =>
      statement w Err
        (fun db => let '(r, t) := create rt_RefreshToken set_rt_ID row (oauth_refresh_tokens db)
                   in (r, set_refresh_tokens db t))
  | UpdateAccessTokenRevoked token =>
      statement w Some
        (fun db => (None, set_access_tokens db
                      (update_where at_AccessToken token (set_at_Revoked true)
                         (oauth_access_tokens db))))
  | UpdateRefreshTokenRevoked token =>
      statement w Some
        (fun db => (None, set_refresh_tokens db
                      (update_where rt_RefreshToken token (set_rt_Revoked true)
                         (oauth_refresh_tokens db))))
  | FirstUpstreamSession name =>
      statement w FirstError
        (fun db => (first us_McpServerName name (oauth_upstream_sessions db), db))
  | SaveUpstreamSession row =>
      statement w Some
        (fun db => let '(r, t) := save_session row (oauth_upstream_sessions db)
                   in (r, set_sessions db t))
  end.

Fixpoint run {A} (p : Prog A) (w : World) : A * World :=
  match p with
  | Ret a => (a, w)
  | Do e k => let '(x, w') := handle e w in run (k x) w'
  end.

Definition initial (env : Env) (db : DB) : World :=
  {| w_env := env; w_db := db; w_clock_reads := 0; w_random_draws := 0;
     w_statements := 0; w_http_calls := 0; w_trace := [] |}.

End sys.

(* ===================================================================== *)
(** * internal/service/oauth: the upstream OAuth client                   *)
(* ===================================================================== *)

(** [%d] *)
Definition itoa (z : Z) : string := NilZero.string_of_int (Z.to_int z).

Module oauth_client.
Import model sys.
Section service.
Context `{GoLib}.

(** The request [RefreshAccessToken] builds. *)
Definition refresh_request
    (tokenEndpoint clientID clientSecret refreshToken resource : string) : HTTPRequest :=
  (* Build refresh request *)
  let data := [ ("grant_type", "refresh_token");
                ("refresh_token", refreshToken);
                ("resource", resource);  (* RFC 8707 *)
                ("client_id", clientID) ] in
  {| hr_Method := "POST"; hr_URL := tokenEndpoint; hr_Form := data;
     hr_Header := [ ("Content-Type", "application/x-www-form-urlencoded");
                    ("Accept", "application/json") ];
     (* Add client authentication if client has a secret *)
     hr_BasicAuth := if negb (String.eqb clientSecret "")
                     then Some (clientID, clientSecret) else None |}.

Definition RefreshAccessToken
    (tokenEndpoint clientID clientSecret refreshToken resource : string)
    : Prog (result TokenResponse) :=
  (* http.NewRequestWithContext refuses a URL that does not parse *)
  if negb (url_Parse_ok tokenEndpoint) then
    mret (Err "failed to create refresh request: invalid URL")
  else
    let req := refresh_request tokenEndpoint clientID clientSecret refreshToken resource in
    resp ← perform (HTTPDo req);
    match resp with
    | TransportError msg => mret (Err ("failed to refresh token: " ++ msg))
    | HTTPResponse status body decoded =>
        if negb (status =? 200) then
          mret (Err ("token refresh failed with status " ++ itoa status ++ ": " ++ body))
        else
          match decoded with
          | Err msg => mret (Err ("failed to decode token response: " ++ msg))
          | Ok tokenResp => mret (Ok tokenResp)
          end
    end.

(** [session.NeedsRefresh()], with the clock read where the source reads it:
    inside [IsAccessTokenExpired], after the nil test, and only when the
    refresh token is not empty. *)
Definition NeedsRefresh_now (session : OAuthUpstreamSession) : Prog bool :=
  if String.eqb (us_RefreshToken session) "" then mret false
  else
    match us_ExpiresAt session with
    | None => mret false
    | Some _ => now ← perform TimeNow; mret (NeedsRefresh now session)
    end.

(** The session after a refresh: token, expiry and type are overwritten, the
    refresh token only when the response carries a new one. *)
Definition refreshed (session : OAuthUpstreamSession) (tokenResp : TokenResponse)
    (expiresAt : time.Time) : OAuthUpstreamSession :=
  {| us_ID := us_ID session;
     us_McpServerName := us_McpServerName session;
     us_ClientID := us_ClientID session;
     us_ClientSecret := us_ClientSecret session;
     us_AccessToken := tr_AccessToken tokenResp;
     us_RefreshToken := if negb (String.eqb (tr_RefreshToken tokenResp) "")
                        then tr_RefreshToken tokenResp
                        else us_RefreshToken session;
     us_TokenType := tr_TokenType tokenResp;
     us_ExpiresAt := Some expiresAt;
     us_Scope := us_Scope session;
     us_AuthorizationEndpoint := us_AuthorizationEndpoint session;
     us_TokenEndpoint := us_TokenEndpoint session;
     us_ResourceURI := us_ResourceURI session;
     us_CodeVerifier := us_CodeVerifier session;
     us_RedirectURI := us_RedirectURI session |}.

Definition GetOrRefreshUpstreamToken (serverName : string) : Prog (result string) :=
  (* Get session from database *)
  found ← perform (FirstUpstreamSession serverName);
  match found with
  | ErrRecordNotFound =>
      mret (Err ("no OAuth session found for server " ++ serverName))
  | FirstError msg =>
      mret (Err ("failed to get OAuth session: " ++ msg))
  | Found session =>
      (* Check if token needs refresh *)
      needsRefresh ← NeedsRefresh_now session;
      if negb needsRefresh then
        mret (Ok (us_AccessToken session))
      else
      (* Refresh the token *)
      if String.eqb (us_RefreshToken session) "" then
        mret (Err "access token expired and no refresh token available")
      else
        tokenResp ← RefreshAccessToken (us_TokenEndpoint session) (us_ClientID session)
                      (us_ClientSecret session) (us_RefreshToken session)
                      (us_ResourceURI session);
        match tokenResp with
        | Err msg => mret (Err ("failed to refresh access token: " ++ msg))
        | Ok tokenResp =>
            (* Update session with new tokens *)
            now ← perform TimeNow;
            let expiresAt := time.Add now (time.Seconds (tr_ExpiresIn tokenResp)) in
            let session := refreshed session tokenResp expiresAt in
            saved ← perform (SaveUpstreamSession session);
            match saved with
            | Some msg => mret (Err ("failed to update OAuth session: " ++ msg))
            | None => mret (Ok (us_AccessToken session))
            end
        end
  end.

End service.
End oauth_client.


(* ===================================================================== *)
(** * Strings                                                             *)
(* ===================================================================== *)

Module strings.

(** [strings.Split(s, sep)] for a one-byte separator: the pieces between
    separators, a single empty piece for the empty string. *)
Fixpoint Split (sep : ascii) (s : string) : list string :=
  match s with
  | EmptyString => [""]
  | String c rest =>
      if Ascii.eqb c sep then "" :: Split sep rest
      else
        match Split sep rest with
        | piece :: pieces => String c piece :: pieces
        | [] => [String c ""]
        end
  end.

(** [strings.Join(xs, sep)] *)
Fixpoint Join (xs : list string) (sep : string) : string :=
  match xs with
  | [] => ""
  | [x] => x
  | x :: rest => x ++ sep ++ Join rest sep
  end.

(** [strings.SplitN(s, sep, 2)] for a one-byte separator: [None] when the
    result has one element (no separator), the two sides of the first
    separator otherwise. *)
Fixpoint SplitN2 (sep : ascii) (s : string) : option (string * string) :=
  match s with
  | EmptyString => None
  | String c rest =>
      if Ascii.eqb c sep then Some ("", rest)
      else
        match SplitN2 sep rest with
        | Some (l, r) => Some (String c l, r)
        | None => None
        end
  end.

(** [strings.TrimPrefix(s, prefix)] when [strings.HasPrefix(s, prefix)] *)
Fixpoint TrimPrefix (s prefix : string) : string :=
  match prefix, s with
  | String _ prefix', String _ s' => TrimPrefix s' prefix'
  | _, _ => s
  end.

End strings.

(* ===================================================================== *)
(** * internal/service/oauth: the issuer                                  *)
(* ===================================================================== *)

Module oauth.
Import model sys.
Section service.
Context `{GoLib}.

(** util.GenerateOAuthToken: 32 random bytes, base64url without padding. *)
Definition GenerateOAuthToken : Prog (result string) :=
  b ← perform (RandRead 32);
  match b with
  | Err msg => mret (Err ("failed to generate random token: " ++ msg))
  | Ok b => mret (Ok (base64_RawURLEncoding_EncodeToString b))
  end.

Definition GenerateAuthorizationCode : Prog (result string) := GenerateOAuthToken.

Definition GetClient (clientID : string) : Prog (result (option OAuthClient)) :=
  found ← perform (FirstOAuthClient clientID);
  match found with
  | Found client => mret (Ok (Some client))
  | ErrRecordNotFound => mret (Ok None)
  | FirstError msg => mret (Err ("failed to get OAuth client: " ++ msg))
  end.

Definition ValidateClientCredentials (clientID clientSecret : string)
    : Prog (result OAuthClient) :=
  client ← GetClient clientID;
  match client with
  | Err msg => mret (Err msg)
  | Ok None => mret (Err "client not found")
  | Ok (Some client) =>
      if oc_IsConfidential client
         && negb (bcrypt_CompareHashAndPassword (oc_ClientSecret client) clientSecret)
      then mret (Err "invalid client secret")
      else mret (Ok client)
  end.

Definition ValidateRedirectURI (client : OAuthClient) (redirectURI : string) : bool :=
  match json_Unmarshal (oc_RedirectURIs client) with
  | Err _ => false
  | Ok redirectURIs => contains redirectURIs redirectURI
  end.

Definition CreateAuthorizationCode (clientID : string) (userID : N)
    (redirectURI scope codeChallenge codeChallengeMethod : string) : Prog (result string) :=
  (* Validate code challenge method (must be S256 per MCP spec) *)
  if negb (String.eqb codeChallengeMethod "S256") then
    mret (Err "invalid code_challenge_method: only S256 is supported")
  else
    code ← GenerateAuthorizationCode;
    match code with
    | Err msg => mret (Err ("failed to generate authorization code: " ++ msg))
    | Ok code =>
        now ← perform TimeNow;
        let authCode :=
          {| ac_ID := 0; ac_Code := code; ac_ClientID := clientID; ac_UserID := userID;
             ac_RedirectURI := redirectURI; ac_Scope := scope;
             ac_ExpiresAt := time.Add now (10 * time.Minute);
             ac_CodeChallenge := codeChallenge;
             ac_CodeChallengeMethod := codeChallengeMethod;
             ac_Used := false |} in
        created ← perform (CreateAuthorizationCode authCode);
        match created with
        | Err msg => mret (Err ("failed to create authorization code: " ++ msg))
        | Ok _ => mret (Ok code)
        end
    end.

Definition GetAuthorizationCode (code : string)
    : Prog (result (option OAuthAuthorizationCode)) :=
  found ← perform (FirstAuthorizationCode code);
  match found with
  | Found authCode => mret (Ok (Some authCode))
  | ErrRecordNotFound => mret (Ok None)
  | FirstError msg => mret (Err ("failed to get authorization code: " ++ msg))
  end.

Definition MarkAuthorizationCodeUsed (code : string) : Prog error :=
  perform (UpdateAuthorizationCodeUsed code).

Definition IssueAccessToken (clientID : string) (userID : option N)
    (scope audience : string) (refreshTokenID : option N)
    : Prog (result OAuthAccessToken) :=
  token ← GenerateOAuthToken;
  match token with
  | Err msg => mret (Err ("failed to generate access token: " ++ msg))
  | Ok token =>
      now ← perform TimeNow;
      let accessToken :=
        {| at_ID := 0; at_AccessToken := token; at_ClientID := clientID;
           at_UserID := userID; at_Scope := scope;
           at_ExpiresAt := time.Add now (1 * time.Hour);   (* 1 hour expiry *)
           at_RefreshTokenID := refreshTokenID; at_Audience := audience;
           at_Revoked := false |} in
      created ← perform (CreateAccessToken accessToken);
      match created with
      | Err msg => mret (Err ("failed to create access token: " ++ msg))
      | Ok id => mret (Ok (set_at_ID id accessToken))
      end
  end.

Definition IssueRefreshToken (clientID : string) (userID : N) (scope : string)
    : Prog (result OAuthRefreshToken) :=
  token ← GenerateOAuthToken;
  match token with
  | Err msg => mret (Err ("failed to generate refresh token: " ++ msg))
  | Ok token =>
      now ← perform TimeNow;
      let refreshToken :=
        {| rt_ID := 0; rt_RefreshToken := token; rt_ClientID := clientID;
           rt_UserID := userID; rt_Scope := scope;
           rt_ExpiresAt := time.Add now (30 * 24 * time.Hour);   (* 30 days expiry *)
           rt_Revoked := false; rt_RotationCount := 0 |} in
      created ← perform (CreateRefreshToken refreshToken);
      match created with
      | Err msg => mret (Err ("failed to create refresh token: " ++ msg))
      | Ok id => mret (Ok (set_rt_ID id refreshToken))
      end
  end.

Definition RevokeAccessToken (token : string) : Prog error :=
  perform (UpdateAccessTokenRevoked token).

Definition RevokeRefreshToken (token : string) : Prog error :=
  perform (UpdateRefreshTokenRevoked token).

(** The loop of [ValidateScopes] over the requested scopes. *)
Fixpoint validate_each (allowedScopes requested validated : list string)
    : result (list string) :=
  match requested with
  | [] => Ok validated
  | scope :: rest =>
      let scope := strings_TrimSpace scope in
      if String.eqb scope "" then validate_each allowedScopes rest validated
      else if contains allowedScopes scope then
        validate_each allowedScopes rest (validated ++ [scope])%list
      else Err ("scope not allowed: " ++ scope)
  end.

Definition ValidateScopes (client : OAuthClient) (requestedScopes : string)
    : result string :=
  allowedScopes <- json_Unmarshal (oc_Scopes client)
    onerr "failed to parse client scopes: " ;;
  (* If no scopes are configured, allow any scope *)
  if (length allowedScopes =? 0)%nat then Ok requestedScopes
  else
    (* Split requested scopes and validate each one *)
    let requested := strings.Split " " requestedScopes in
    validated <- validate_each allowedScopes requested [] onerr "" ;;
    Ok (strings.Join validated " ").

End service.
End oauth.


(* ===================================================================== *)
(** * internal/api: OAuth endpoints                                       *)
(* ===================================================================== *)

Module api.
Import model sys.

(** [http.StatusXxx] *)
Definition StatusOK : Z := 200.
Definition StatusFound : Z := 302.
Definition StatusBadRequest : Z := 400.
Definition StatusUnauthorized : Z := 401.
Definition StatusInternalServerError : Z := 500.

Record OAuthTokenResponse := {
  otr_AccessToken : string;
  otr_TokenType : string;
  otr_ExpiresIn : Z;
  otr_RefreshToken : string;
  otr_Scope : string
}.

(** What a handler writes.  A redirect names the URI that was parsed and the
    query parameters set on it, in the order of the [query.Set] calls. *)
Inductive Response : Type :=
| JSON (status : Z) (body : list (string * string))
| TokenJSON (status : Z) (body : OAuthTokenResponse)
| Redirect (status : Z) (uri : string) (query_set : list (string * string))
| Status (status : Z)
| Panic (msg : string).

(** [gin.H{"error": e, "error_description": d}] *)
Definition oauth_error (e d : string) : list (string * string) :=
  [("error", e); ("error_description", d)].

(** What [c.Get("user_id")] followed by the [.(uint)] assertion can see. *)
Inductive ContextValue : Type :=
| Absent
| NotUint
| Uint (n : N).

Record AuthorizeRequest := {
  q_client_id : string;
  q_redirect_uri : string;
  q_response_type : string;
  q_scope : string;
  q_state : string;
  q_code_challenge : string;
  q_code_challenge_method : string;
  ctx_user_id : ContextValue
}.

Record OAuthTokenRequest := {
  f_GrantType : string;
  f_Code : string;
  f_RedirectURI : string;
  f_CodeVerifier : string;
  f_RefreshToken : string;
  f_ClientID : string;
  f_ClientSecret : string;
  f_Scope : string;
  f_Resource : string;
  (** [getServerURL(c)]: scheme and host of the request *)
  f_ServerURL : string
}.

Record RevokeRequest := {
  r_Token : string;                    (* form field "token", "" when absent *)
  r_TokenTypeHint : string;
  r_Authorization : string;            (* the Authorization header *)
  (** the form values "client_id" and "client_secret" of the request, ""
      when absent; [OAuthRevokeRequest] does not bind them and the handler
      does not read them *)
  r_client_id : string;
  r_client_secret : string
}.

Section handlers.
Context `{GoLib}.

Definition redirectError (redirectURI state errorCode errorDescription : string)
    : Response :=
  if negb (url_Parse_ok redirectURI) then
    JSON StatusBadRequest (oauth_error "invalid_request" "Invalid redirect_uri")
  else
    let query := [("error", errorCode)] in
    let query := if negb (String.eqb errorDescription "")
                 then (query ++ [("error_description", errorDescription)])%list
                 else query in
    let query := if negb (String.eqb state "")
                 then (query ++ [("state", state)])%list
                 else query in
    Redirect StatusFound redirectURI query.

Definition OAuthAuthorizeHandler (c : AuthorizeRequest) : Prog Response :=
  let clientID := q_client_id c in
  let redirectURI := q_redirect_uri c in
  let responseType := q_response_type c in
  let scope := q_scope c in
  let state := q_state c in
  let codeChallenge := q_code_challenge c in
  let codeChallengeMethod := q_code_challenge_method c in
  (* Validate required parameters *)
  if String.eqb clientID "" || String.eqb redirectURI "" || String.eqb responseType "" then
    mret (JSON StatusBadRequest (oauth_error "invalid_request" "Missing required parameters"))
  (* Only authorization_code response type is supported *)
  else if negb (String.eqb responseType "code") then
    mret (redirectError redirectURI state "unsupported_response_type"
            "Only authorization_code flow is supported")
  (* PKCE is REQUIRED per MCP spec *)
  else if String.eqb codeChallenge "" || String.eqb codeChallengeMethod "" then
    mret (redirectError redirectURI state "invalid_request"
            "PKCE is required: code_challenge and code_challenge_method must be provided")
  (* Only S256 method is supported per MCP spec *)
  else if negb (String.eqb codeChallengeMethod "S256") then
    mret (redirectError redirectURI state "invalid_request"
            "Only S256 code_challenge_method is supported")
  else
    (* Validate client *)
    client ← oauth.GetClient clientID;
    match client with
    | Err _ | Ok None =>
        mret (redirectError redirectURI state "invalid_client" "Client not found")
    | Ok (Some client) =>
        (* Validate redirect URI *)
        if negb (oauth.ValidateRedirectURI client redirectURI) then
          mret (JSON StatusBadRequest (oauth_error "invalid_request" "Invalid redirect_uri"))
        else
          (* Validate scopes *)
          match oauth.ValidateScopes client scope with
          | Err msg => mret (redirectError redirectURI state "invalid_scope" msg)
          | Ok validatedScope =>
              (* Get authenticated user from context (set by auth middleware) *)
              match ctx_user_id c with
              | Absent =>
                  mret (redirectError redirectURI state "access_denied"
                          "User authentication required")
              | NotUint =>
                  mret (redirectError redirectURI state "server_error"
                          "Invalid user session")
              | Uint userID =>
                  (* Generate authorization code *)
                  code ← oauth.CreateAuthorizationCode clientID userID redirectURI
                           validatedScope codeChallenge codeChallengeMethod;
                  match code with
                  | Err msg =>
                      _ ← perform (Log "error"
                                     ("Failed to create authorization code: " ++ msg));
                      mret (redirectError redirectURI state "server_error"
                              "Failed to generate authorization code")
                  | Ok code =>
                      (* Redirect back to client with authorization code;
                         the error of url.Parse is dropped and a nil URL is
                         dereferenced when the URI does not parse *)
                      if negb (url_Parse_ok redirectURI) then
                        mret (Panic "nil pointer dereference")
                      else
                        let query := [("code", code)] in
                        let query := if negb (String.eqb state "")
                                     then (query ++ [("state", state)])%list
                                     else query in
                        mret (Redirect StatusFound redirectURI query)
                  end
              end
          end
    end.

(** [extractClientCredentials]: HTTP Basic first, the given body values
    otherwise. *)
Definition extractClientCredentials (authorization bodyClientID bodyClientSecret : string)
    : string * string :=
  let fallback := (bodyClientID, bodyClientSecret) in
  if String.prefix "Basic " authorization then
    match base64_StdEncoding_DecodeString (strings.TrimPrefix authorization "Basic ") with
    | Some decoded =>
        match strings.SplitN2 ":" decoded with
        | Some parts => parts
        | None => fallback
        end
    | None => fallback
    end
  else fallback.

Definition OAuthRevokeHandler (c : RevokeRequest) : Prog Response :=
  (* c.ShouldBind: the token field is required; the description is the
     validator's text *)
  if String.eqb (r_Token c) "" then
    mret (JSON StatusBadRequest
            (oauth_error "invalid_request" "Key: 'OAuthRevokeRequest.Token' Error:Field validation for 'Token' failed on the 'required' tag"))
  else
    (* Extract client credentials *)
    let '(clientID, clientSecret) := extractClientCredentials (r_Authorization c) "" "" in
    if String.eqb clientID "" then
      mret (JSON StatusBadRequest
              (oauth_error "invalid_client" "Client authentication required"))
    else
      (* Validate client *)
      valid ← oauth.ValidateClientCredentials clientID clientSecret;
      match valid with
      | Err _ =>
          mret (JSON StatusUnauthorized
                  (oauth_error "invalid_client" "Invalid client credentials"))
      | Ok _ =>
          (* Attempt to revoke as access token or refresh token *)
          err ← oauth.RevokeAccessToken (r_Token c);
          _ ← match err with
              | Some _ =>
                  (* If not an access token, try refresh token *)
                  err ← oauth.RevokeRefreshToken (r_Token c);
                  match err with
                  | Some _ =>
                      perform (Log "debug"
                                 "Token revocation attempted for non-existent token")
                  | None => mret tt
                  end
              | None => mret tt
              end;
          (* Per RFC 7009, always return 200 OK even if token doesn't exist *)
          mret (Status StatusOK)
      end.

(** [handleAuthorizationCodeGrant], entered once [OAuthTokenHandler] has
    authenticated [client]. *)
Definition handleAuthorizationCodeGrant (client : OAuthClient) (req : OAuthTokenRequest)
    : Prog Response :=
  (* Validate required parameters *)
  if String.eqb (f_Code req) "" || String.eqb (f_RedirectURI req) ""
     || String.eqb (f_CodeVerifier req) "" then
    mret (JSON StatusBadRequest
            (oauth_error "invalid_request"
               "code, redirect_uri, and code_verifier are required"))
  else
    (* Get authorization code *)
    authCode ← oauth.GetAuthorizationCode (f_Code req);
    match authCode with
    | Err _ | Ok None =>
        mret (JSON StatusBadRequest
                (oauth_error "invalid_grant" "Invalid authorization code"))
    | Ok (Some authCode) =>
        (* Validate authorization code; [IsValid] is [!Used && !IsExpired()],
           so the clock is read only for a code that is not used *)
        now ← (if ac_Used authCode then mret 0 else perform TimeNow);
        if negb (OAuthAuthorizationCode_IsValid now authCode) then
          mret (JSON StatusBadRequest
                  (oauth_error "invalid_grant"
                     "Authorization code expired or already used"))
        (* Validate client ID matches *)
        else if negb (String.eqb (ac_ClientID authCode) (oc_ClientID client)) then
          mret (JSON StatusBadRequest
                  (oauth_error "invalid_grant"
                     "Authorization code was issued to a different client"))
        (* Validate redirect URI matches *)
        else if negb (String.eqb (ac_RedirectURI authCode) (f_RedirectURI req)) then
          mret (JSON StatusBadRequest
                  (oauth_error "invalid_grant" "redirect_uri does not match"))
        (* Verify PKCE (REQUIRED per MCP spec) *)
        else if negb (util.VerifyPKCE (f_CodeVerifier req) (ac_CodeChallenge authCode)
                        (ac_CodeChallengeMethod authCode)) then
          mret (JSON StatusBadRequest
                  (oauth_error "invalid_grant" "Invalid code_verifier"))
        else
          (* Mark authorization code as used *)
          err ← oauth.MarkAuthorizationCodeUsed (f_Code req);
          _ ← match err with
              | Some msg =>
                  perform (Log "error"
                             ("Failed to mark authorization code as used: " ++ msg))
              | None => mret tt
              end;
          (* Determine audience (resource server) *)
          let audience := if String.eqb (f_Resource req) ""
                          then f_ServerURL req   (* the MCPJungle server itself *)
                          else f_Resource req in
          (* Issue refresh token *)
          refreshToken ← oauth.IssueRefreshToken (oc_ClientID client)
                           (ac_UserID authCode) (ac_Scope authCode);
          match refreshToken with
          | Err msg =>
              _ ← perform (Log "error" ("Failed to issue refresh token: " ++ msg));
              mret (JSON StatusInternalServerError
                      (oauth_error "server_error" "Failed to issue tokens"))
          | Ok refreshToken =>
              (* Issue access token *)
              accessToken ← oauth.IssueAccessToken (oc_ClientID client)
                              (Some (ac_UserID authCode)) (ac_Scope authCode) audience
                              (Some (rt_ID refreshToken));
              match accessToken with
              | Err msg =>
                  _ ← perform (Log "error" ("Failed to issue access token: " ++ msg));
                  mret (JSON StatusInternalServerError
                          (oauth_error "server_error" "Failed to issue tokens"))
              | Ok accessToken =>
                  (* Return token response *)
                  now ← perform TimeNow;
                  mret (TokenJSON StatusOK
                          {| otr_AccessToken := at_AccessToken accessToken;
                             otr_TokenType := "Bearer";
                             otr_ExpiresIn :=
                               time.whole_seconds
                                 (time.Until now (at_ExpiresAt accessToken));
                             otr_RefreshToken := rt_RefreshToken refreshToken;
                             otr_Scope := at_Scope accessToken |})
              end
          end
    end.

End handlers.
End api.

(* ===================================================================== *)
(** * Concurrent requests                                                 *)
(* ===================================================================== *)

(** Requests are served in parallel; what they share is the world.  Two
    handlers are interleaved event by event: the schedule says which of the
    two performs its next event ([true]: the first one); when the schedule is
    exhausted the first runs to its end, then the second. *)
Module concurrent.
Import sys.

Fixpoint interleave {A B} (schedule : list bool) (p : Prog A) (q : Prog B) (w : World)
    : (A * B) * World :=
  match schedule with
  | [] =>
      let '(a, w) := run p w in
      let '(b, w) := run q w in
      ((a, b), w)
  | true :: schedule =>
      match p with
      | Ret a => let '(b, w) := run q w in ((a, b), w)
      | Do e k => let '(x, w) := handle e w in interleave schedule (k x) q w
      end
  | false :: schedule =>
      match q with
      | Ret b => let '(a, w) := run p w in ((a, b), w)
      | Do e k => let '(x, w) := handle e w in interleave schedule p (k x) w
      end
  end.

End concurrent.


(* ===================================================================== *)
(** * internal/service/audit                                              *)
(* ===================================================================== *)

Module audit.

(** ** Payloads

    An audit payload is a [map[string]interface{}].  A value held in an
    [interface{}] is told apart by its dynamic type: [filterSensitiveData]
    asks whether it is a [map[string]interface{}] and nothing else.  [VMap]
    is that type (the entries in the order the runtime happens to range over
    them), [VSlice] is a slice, [VObject] stands for every other value that
    json renders as an object (a struct with json tags, a [map[string]string],
    ...), [VUnsupported] for a value [json.Marshal] rejects. *)
#[local] Unset Elimination Schemes.

Inductive Value : Type :=
| VNil
| VBool (b : bool)
| VNumber (n : Z)
| VString (s : string)
| VSlice (xs : list Value)
| VMap (entries : list (string * Value))
| VObject (fields : list (string * Value))
| VUnsupported.

(** The JSON document that is stored. *)
Inductive Doc : Type :=
| DNull
| DBool (b : bool)
| DNumber (n : Z)
| DString (s : string)
| DArray (xs : list Doc)
| DObject (members : list (string * Doc)).

#[local] Set Elimination Schemes.

Fixpoint all_some {A} (xs : list (option A)) : option (list A) :=
  match xs with
  | [] => Some []
  | Some x :: rest => option_map (cons x) (all_some rest)
  | None :: _ => None
  end.

(** [json.Marshal]: [None] when some value inside cannot be rendered. *)
Fixpoint json_Marshal (v : Value) : option Doc :=
  let member (kv : string * Value) :=
    match kv with (k, x) => option_map (pair k) (json_Marshal x) end in
  match v with
  | VNil => Some DNull
  | VBool b => Some (DBool b)
  | VNumber n => Some (DNumber n)
  | VString s => Some (DString s)
  | VSlice xs => option_map DArray (all_some (List.map json_Marshal xs))
  | VMap entries => option_map DObject (all_some (List.map member entries))
  | VObject fields => option_map DObject (all_some (List.map member fields))
  | VUnsupported => None
  end.

(** List of sensitive field names to exclude *)
Definition sensitiveFields (key : string) : bool :=
  String.eqb key "access_token"
  || String.eqb key "bearer_token"
  || String.eqb key "password"
  || String.eqb key "secret"
  || String.eqb key "token".

(** What the loop of [filterSensitiveData] stores for a key that is not
    sensitive: the filtered map when the value is a [map[string]interface{}],
    the value itself otherwise. *)
Fixpoint filter_value (value : Value) : Value :=
  match value with
  | VMap nestedMap =>
      VMap (List.map
              (fun kv => match kv with
                         | (key, value) =>
                             if sensitiveFields key then (key, VString "[REDACTED]")
                             else (key, filter_value value)
                         end) nestedMap)
  | _ => value
  end.

Definition filterSensitiveData (data : list (string * Value)) : list (string * Value) :=
  List.map (fun kv => match kv with
                      | (key, value) =>
                          (* Skip sensitive fields *)
                          if sensitiveFields key then (key, VString "[REDACTED]")
                          (* Recursively filter nested maps *)
                          else (key, filter_value value)
                      end) data.

Definition marshalChanges (changes : list (string * Value)) : Doc :=
  (* Filter out sensitive fields *)
  let filtered := filterSensitiveData changes in
  match json_Marshal (VMap filtered) with
  | Some data => data
  | None => DObject []                  (* Return empty JSON on error *)
  end.

(** ** util.AuditContext and model.AuditLog *)

Record AuditContext := {
  ActorType : string;
  ActorID : string;
  IPAddress : string;
  UserAgent : string
}.

Record AuditLog := {
  al_EntityType : string;
  al_EntityID : string;
  al_EntityName : string;
  al_Operation : string;
  al_Changes : Doc;
  al_ActorType : string;
  al_ActorID : string;
  al_IPAddress : string;
  al_UserAgent : string;
  al_Success : bool;
  al_ErrorMsg : string
}.

Definition AuditOpCreate := "CREATE".
Definition AuditOpUpdate := "UPDATE".
Definition AuditOpDelete := "DELETE".
Definition AuditOpEnable := "ENABLE".
Definition AuditOpDisable := "DISABLE".
Definition AuditActorSystem := "system".

(** [logAsync] fills in the actor and hands the row to a goroutine that
    inserts it; the function below is the row that is handed over. *)
Definition logAsync (ctx : option AuditContext) (entityType entityID entityName
    operation : string) (changes : Doc) (success : bool) (errorMsg : string) : AuditLog :=
  match ctx with
  | Some auditCtx =>
      {| al_EntityType := entityType; al_EntityID := entityID;
         al_EntityName := entityName; al_Operation := operation;
         al_Changes := changes;
         al_ActorType := ActorType auditCtx; al_ActorID := ActorID auditCtx;
         al_IPAddress := IPAddress auditCtx; al_UserAgent := UserAgent auditCtx;
         al_Success := success; al_ErrorMsg := errorMsg |}
  | None =>
      (* Default to system if no context is available (e.g., CLI operations) *)
      {| al_EntityType := entityType; al_EntityID := entityID;
         al_EntityName := entityName; al_Operation := operation;
         al_Changes := changes;
         al_ActorType := AuditActorSystem; al_ActorID := "system";
         al_IPAddress := ""; al_UserAgent := "";
         al_Success := success; al_ErrorMsg := errorMsg |}
  end.

Definition LogCreate (ctx : option AuditContext) (entityType entityID entityName : string)
    (data : Value) : AuditLog :=
  let changes := marshalChanges [("created", data)] in
  logAsync ctx entityType entityID entityName AuditOpCreate changes true "".

Definition LogUpdate (ctx : option AuditContext) (entityType entityID entityName : string)
    (changes : list (string * Value)) : AuditLog :=
  let changesJSON := marshalChanges changes in
  logAsync ctx entityType entityID entityName AuditOpUpdate changesJSON true "".

Definition LogDelete (ctx : option AuditContext) (entityType entityID entityName : string)
    : AuditLog :=
  logAsync ctx entityType entityID entityName AuditOpDelete (marshalChanges []) true "".

Definition LogEnable (ctx : option AuditContext) (entityType entityID entityName : string)
    (details : list (string * Value)) : AuditLog :=
  let changesJSON := marshalChanges details in
  logAsync ctx entityType entityID entityName AuditOpEnable changesJSON true "".

Definition LogDisable (ctx : option AuditContext) (entityType entityID entityName : string)
    (details : list (string * Value)) : AuditLog :=
  let changesJSON := marshalChanges details in
  logAsync ctx entityType entityID entityName AuditOpDisable changesJSON true "".

Definition LogError (ctx : option AuditContext) (entityType entityID entityName
    operation : string) (err : string) : AuditLog :=
  logAsync ctx entityType entityID entityName operation (marshalChanges []) false err.

End audit.
(* ===================================================================== *)
(** * Inputs for examples                                                 *)
(* ===================================================================== *)

(** The fixtures of the repository's unit tests for the ACL. *)

Module model_tests.
Import model.

Definition no_prompts : PromptResolver :=
  {| ListPromptsByServer := fun _ => Ok [] |}.

Definition mk_group (tools servers : JSON) : ToolGroup :=
  {| tg_Name := ""; tg_Description := "";
     tg_IncludedTools := tools; tg_IncludedServers := servers;
     tg_ExcludedTools := JSON_nil;
     tg_IncludedPrompts := JSON_nil; tg_ExcludedPrompts := JSON_nil |}.

Definition arr (xs : list string) : JSON := JSON_bytes (Ok xs).

Definition checker : ToolGroupToolChecker :=
  {| GetToolGroup := fun name =>
       if String.eqb name "group1" then
         Ok (mk_group (arr ["server1__tool1"; "server1__tool2"]) JSON_nil)
       else if String.eqb name "group2" then
         Ok (mk_group JSON_nil (arr ["server2"]))
       else Err "tool group not found" |}.

Definition resolver : ToolGroupResolver :=
  {| as_ToolResolver :=
       {| ListToolsByServer := fun serverName =>
            if String.eqb serverName "server2" then
              Ok [ {| Tool_Name := "server2__tool1" |};
                   {| Tool_Name := "server2__tool2" |} ]
            else Ok [] |};
     as_PromptResolver := no_prompts |}.

Definition client (groups allow : list string) : McpClient :=
  {| mc_Name := ""; mc_Description := ""; mc_AccessToken := "";
     mc_AllowList := arr allow; mc_AllowedToolGroups := arr groups |}.

(** A group that uses every column. *)
Definition mixed_group : ToolGroup :=
  {| tg_Name := "mixed"; tg_Description := "";
     tg_IncludedTools := arr ["a__x"; "a__y"];
     tg_IncludedServers := arr ["b"];
     tg_ExcludedTools := arr ["a__y"; "b__z"];
     tg_IncludedPrompts := arr ["a__p"];
     tg_ExcludedPrompts := arr ["b__q"] |}.

Definition server_b : ToolGroupResolver :=
  {| as_ToolResolver :=
       {| ListToolsByServer := fun serverName =>
            if String.eqb serverName "b" then
              Ok [ {| Tool_Name := "b__z" |}; {| Tool_Name := "b__w" |} ]
            else Err "server not found" |};
     as_PromptResolver :=
       {| ListPromptsByServer := fun serverName =>
            if String.eqb serverName "b" then
              Ok [ {| Prompt_Name := "b__q" |}; {| Prompt_Name := "b__r" |} ]
            else Err "server not found" |} |}.

(** Two listed groups: the first includes a server whose tools cannot be
    listed, the second includes the tool by name. *)
Definition checker_down : ToolGroupToolChecker :=
  {| GetToolGroup := fun name =>
       if String.eqb name "g1" then Ok (mk_group JSON_nil (arr ["down"]))
       else if String.eqb name "g2" then Ok (mk_group (arr ["s__t"]) JSON_nil)
       else Err "tool group not found" |}.

Definition resolver_down : ToolGroupResolver :=
  {| as_ToolResolver :=
       {| ListToolsByServer := fun serverName =>
            if String.eqb serverName "down" then Err "server not found"
            else Ok [] |};
     as_PromptResolver := no_prompts |}.

End model_tests.

(** ** Stand-ins used to evaluate the services on concrete inputs

    The theorems below hold for every [GoLib] and every [Env]; examples need
    one of each.  [toy_lib] replaces the hash and the encodings by the
    identity and bcrypt by string equality; [calm] is an environment whose
    clock stands still, whose database statements all execute and whose
    upstream always answers with [fresh_tokens]. *)

Module examples.
Import model sys.

Definition toy_lib : GoLib :=
  {| sha256_Sum256 := fun s => s;
     base64_RawURLEncoding_EncodeToString := fun s => s;
     base64_StdEncoding_DecodeString := fun s => Some s;
     bcrypt_CompareHashAndPassword := String.eqb;
     url_Parse_ok := fun _ => true;
     strings_TrimSpace := fun s => s |}.

Definition fresh_tokens : TokenResponse :=
  {| tr_AccessToken := "new-access"; tr_TokenType := "Bearer"; tr_ExpiresIn := 3600;
     tr_RefreshToken := ""; tr_Scope := "" |}.

Definition calm (now : time.Time) : Env :=
  {| clock := fun _ => now;
     random := fun i _ => Ok ("random-" ++ itoa (Z.of_nat i));
     db_fault := fun _ => None;
     http := fun _ _ => HTTPResponse 200 "" (Ok fresh_tokens) |}.

Definition no_tables : DB :=
  {| oauth_clients := []; oauth_authorization_codes := [];
     oauth_access_tokens := []; oauth_refresh_tokens := [];
     oauth_upstream_sessions := [] |}.

Definition session (refresh_token : string) (expires_at : option time.Time)
    : OAuthUpstreamSession :=
  {| us_ID := 1; us_McpServerName := "up"; us_ClientID := "cid"; us_ClientSecret := "";
     us_AccessToken := "old-access"; us_RefreshToken := refresh_token;
     us_TokenType := "Bearer"; us_ExpiresAt := expires_at; us_Scope := "";
     us_AuthorizationEndpoint := "http://up/authorize";
     us_TokenEndpoint := "http://up/token"; us_ResourceURI := "http://up";
     us_CodeVerifier := ""; us_RedirectURI := "http://me/callback" |}.

Definition one_session (s : OAuthUpstreamSession) : DB :=
  set_sessions no_tables [s].

Definition get_token (now : time.Time) (db : DB) : result string :=
  fst (run (oauth_client.GetOrRefreshUpstreamToken (H:=toy_lib) "up")
         (initial (calm now) db)).

(** ** The issuer's endpoints *)

Import api.

(** A confidential client; with [toy_lib] the stored hash is the secret. *)
Definition client_A : OAuthClient :=
  {| oc_ClientID := "A"; oc_ClientSecret := "s3cret"; oc_ClientName := "A";
     oc_RedirectURIs := JSON_bytes (Ok ["http://x/cb"]);
     oc_GrantTypes := JSON_bytes (Ok ["authorization_code"; "refresh_token"]);
     oc_Scopes := JSON_bytes (Ok ["mcp:read"; "mcp:write"]);
     oc_IsConfidential := true;
     oc_TokenEndpointAuthMethod := "client_secret_basic";
     oc_UserID := None |}.

Definition registered : DB :=
  {| oauth_clients := [client_A]; oauth_authorization_codes := [];
     oauth_access_tokens := []; oauth_refresh_tokens := [];
     oauth_upstream_sessions := [] |}.

Definition authorize (response_type challenge method scope state : string)
    (user : ContextValue) : AuthorizeRequest :=
  {| q_client_id := "A"; q_redirect_uri := "http://x/cb";
     q_response_type := response_type; q_scope := scope; q_state := state;
     q_code_challenge := challenge; q_code_challenge_method := method;
     ctx_user_id := user |}.

Definition exchange (code verifier : string) : OAuthTokenRequest :=
  {| f_GrantType := "authorization_code"; f_Code := code;
     f_RedirectURI := "http://x/cb"; f_CodeVerifier := verifier;
     f_RefreshToken := ""; f_ClientID := ""; f_ClientSecret := "";
     f_Scope := ""; f_Resource := ""; f_ServerURL := "http://jungle" |}.

Definition revoke (token authorization : string) : RevokeRequest :=
  {| r_Token := token; r_TokenTypeHint := ""; r_Authorization := authorization;
     r_client_id := ""; r_client_secret := "" |}.

(** A revocation request with the client's credentials in the form body. *)
Definition revoke_post (token client_id client_secret : string) : RevokeRequest :=
  {| r_Token := token; r_TokenTypeHint := ""; r_Authorization := "";
     r_client_id := client_id; r_client_secret := client_secret |}.

Definition serve {A} (p : Prog A) (w : World) : A * World := run p w.

Definition world0 : World := initial (calm 0) registered.

(** Scenario S2: authorize, exchange, replay. *)
Definition after_authorize :=
  serve (OAuthAuthorizeHandler (H:=toy_lib)
           (authorize "code" "V" "S256" "mcp:read" "xyz" (Uint 7))) world0.
Definition after_exchange :=
  serve (handleAuthorizationCodeGrant (H:=toy_lib) client_A (exchange "random-0" "V"))
    (snd after_authorize).
Definition after_replay :=
  serve (handleAuthorizationCodeGrant (H:=toy_lib) client_A (exchange "random-0" "V"))
    (snd after_exchange).

End examples.

(* ===================================================================== *)
(** * Vocabulary of the properties                                        *)
(* ===================================================================== *)

Section vocabulary.
Import model sys api audit oauth_client concurrent model_tests examples.

(** An unrevoked token that expires one hour after the epoch. *)
Definition token_at_expiry : model.OAuthAccessToken :=
  {| model.at_ID := 1; model.at_AccessToken := "tok"; model.at_ClientID := "cid";
     model.at_UserID := None; model.at_Scope := "mcp:read";
     model.at_ExpiresAt := 3600 * time.Second;
     model.at_RefreshTokenID := None; model.at_Audience := "http://x";
     model.at_Revoked := false |}.

(** The resolution rule in the specification's words:
    [(included ∪ ⋃ per-server names) ∖ excluded]. *)
Definition spec_effective (included : list string) (per_server : list (list string))
    (excluded : list string) : gset string :=
  (list_to_set included ∪ ⋃ (list_to_set <$> per_server)) ∖ list_to_set excluded.

(** [server_tools(s)] for each included server, as lists of names. *)
Definition tool_names (tls : list (list model.Tool)) : list (list string) :=
  map (map model.Tool_Name) tls.
Definition prompt_names (pls : list (list model.Prompt)) : list (list string) :=
  map (map model.Prompt_Name) pls.

(** A listed group offers a tool when it exists, resolves, and its effective
    tool set has the tool. *)
Definition group_offers (checker : ToolGroupToolChecker) (resolver : ToolGroupResolver)
    (toolName groupName : string) : Prop :=
  exists group effectiveTools,
    GetToolGroup checker groupName = Ok group
    /\ ResolveEffectiveTools group resolver = Ok effectiveTools
    /\ toolName ∈ effectiveTools.

(** A listed group is passable when it is missing or resolves without error. *)
Definition group_passable (checker : ToolGroupToolChecker) (resolver : ToolGroupResolver)
    (groupName : string) : Prop :=
  match GetToolGroup checker groupName with
  | Err _ => True
  | Ok group => exists effectiveTools, ResolveEffectiveTools group resolver = Ok effectiveTools
  end.

(** The client with another allow list. *)
Definition with_AllowList (c : McpClient) (allow : model.JSON) : McpClient :=
  {| mc_Name := mc_Name c; mc_Description := mc_Description c;
     mc_AccessToken := mc_AccessToken c;
     mc_AllowList := allow; mc_AllowedToolGroups := mc_AllowedToolGroups c |}.

(** The request a refresh sends for a stored session. *)
Definition session_refresh_request (s : OAuthUpstreamSession) : HTTPRequest :=
  refresh_request (us_TokenEndpoint s) (us_ClientID s) (us_ClientSecret s)
    (us_RefreshToken s) (us_ResourceURI s).

Definition minutes (n : Z) : time.Time := n * time.Minute.

(** Four minutes before expiry, with a refresh token. *)
Definition world_due : World :=
  initial (calm (minutes 996)) (one_session (session "rt" (Some (minutes 1000)))).

(** A stored refresh token. *)
Definition refresh_R : OAuthRefreshToken :=
  {| rt_ID := 1; rt_RefreshToken := "R"; rt_ClientID := "A"; rt_UserID := 7;
     rt_Scope := "mcp:read"; rt_ExpiresAt := 30 * 24 * time.Hour;
     rt_Revoked := false; rt_RotationCount := 0 |}.

Definition missing_parameters (c : AuthorizeRequest) : bool :=
  String.eqb (q_client_id c) "" || String.eqb (q_redirect_uri c) ""
  || String.eqb (q_response_type c) "".

(** The request passes every check made before the client is looked up. *)
Definition parameters_ok (c : AuthorizeRequest) : bool :=
  negb (missing_parameters c)
  && String.eqb (q_response_type c) "code"
  && negb (String.eqb (q_code_challenge c) "")
  && String.eqb (q_code_challenge_method c) "S256".

Definition exchange_K : Prog Response :=
  handleAuthorizationCodeGrant (H:=toy_lib) client_A (exchange "random-0" "V").

Definition tokens (access refresh : string) : Response :=
  TokenJSON 200 {| otr_AccessToken := access; otr_TokenType := "Bearer";
                   otr_ExpiresIn := 3600; otr_RefreshToken := refresh;
                   otr_Scope := "mcp:read" |}.

(** The world of scenario S2 after [/authorize], with a database whose fourth
    statement (the update that marks the code) fails. *)
Definition mark_fails : Env :=
  {| clock := fun _ => 0;
     random := fun i _ => Ok ("random-" ++ itoa (Z.of_nat i));
     db_fault := fun n => if (n =? 3)%nat then Some "database is locked" else None;
     http := fun _ _ => TransportError "no upstream" |}.

Definition authorized_then (env : Env) : World :=
  snd (run (OAuthAuthorizeHandler (H:=toy_lib)
              (authorize "code" "V" "S256" "mcp:read" "xyz" (Uint 7)))
         (initial env registered)).

Definition is_redacted (d : Doc) : bool :=
  match d with
  | DString s => String.eqb s "[REDACTED]"
  | _ => false
  end.

(** A stored document is clean when, anywhere in it, a member under one of
    the sensitive keys is the string "[REDACTED]". *)
Fixpoint clean (d : Doc) : bool :=
  match d with
  | DArray xs => forallb clean xs
  | DObject members =>
      forallb (fun kv => match kv with
                         | (key, x) =>
                             (if sensitiveFields key then is_redacted x else true)
                             && clean x
                         end) members
  | _ => true
  end.

(** The same, looking only where [filterSensitiveData] looks: through
    [map[string]interface{}] values. *)
Fixpoint redacted_in_maps (v : Value) : bool :=
  match v with
  | VMap entries =>
      forallb (fun kv => match kv with
                         | (key, x) =>
                             if sensitiveFields key
                             then match x with
                                  | VString s => String.eqb s "[REDACTED]"
                                  | _ => false
                                  end
                             else redacted_in_maps x
                         end) entries
  | _ => true
  end.

(** The places [filterSensitiveData] does not look into, slices and values of
    other types, render to clean documents already. *)
Fixpoint elsewhere_clean (v : Value) : bool :=
  match v with
  | VMap entries =>
      forallb (fun kv => match kv with
                         | (key, x) => sensitiveFields key || elsewhere_clean x
                         end) entries
  | VSlice _ | VObject _ =>
      match json_Marshal v with
      | Some d => clean d
      | None => true
      end
  | _ => true
  end.

(** The payloads of [TestFilterSensitiveDataNested] and of a server list. *)
Definition nested_payload : list (string * Value) :=
  [ ("config", VMap [("name", VString "test"); ("access_token", VString "secret")]);
    ("description", VString "test") ].

Definition listed_payload : list (string * Value) :=
  [ ("servers", VSlice [VMap [("name", VString "s1"); ("password", VString "hunter2")]]) ].

End vocabulary.

(* ===================================================================== *)
(** * Further functions of the same files                                 *)
(* ===================================================================== *)

(** ** internal/api/oauth_client_handlers.go: joinScopes *)

Module api_upstream.

(** The loop of [joinScopes]: [i] is the index of the element at the head. *)
Fixpoint joinScopes_from (i : nat) (scopes : list string) (result : string) : string :=
  match scopes with
  | [] => result
  | scope :: rest =>
      let result := if (0 <? i)%nat then result ++ " " else result in
      joinScopes_from (S i) rest (result ++ scope)
  end.

Definition joinScopes (scopes : list string) : string :=
  if (length scopes =? 0)%nat then "" else joinScopes_from 0 scopes "".

End api_upstream.

(** ** Vocabulary *)

(** A byte does not occur in a string. *)
Fixpoint free_of (c : ascii) (s : string) : bool :=
  match s with
  | EmptyString => true
  | String a rest => negb (Ascii.eqb a c) && free_of c rest
  end.

(** The requested scopes as [ValidateScopes] reads them: the pieces between
    single spaces, trimmed, the empty ones dropped. *)
Definition requested_scopes `{GoLib} (requestedScopes : string) : list string :=
  List.filter (fun s => negb (String.eqb s ""))
    (List.map strings_TrimSpace (strings.Split " " requestedScopes)).

(** ** Answers that do not depend on the world

    [always P p]: whatever the world answers to the events of [p], the value
    [p] returns satisfies [P]. *)

Fixpoint always {A} (P : A -> Prop) (p : sys.Prog A) : Prop :=
  match p with
  | sys.Ret a => P a
  | sys.Do e k => forall x, always P (k x)
  end.

(* ===================================================================== *)
(** * The rest of the issuer, the proxy gate and the upstream callback    *)
(* ===================================================================== *)

(** ** Further statements

    The functions below run statements that [sys] has no event for.  [sysx]
    adds them on top of the events of [sys]: a program of [sys] runs
    unchanged inside a program of [sysx] ([lift]), on the same tables,
    counters and environment.  The table of MCP clients is new.  The trace
    of a world keeps recording the events of [sys] only. *)

Module sysx.
Import model sys.

Inductive Event : Type :=
| Base (e : sys.Event)
| FirstAccessToken (token : string)
| FirstRefreshToken (token : string)
| UpdateRefreshTokenRotation (id : N)
| CreateUpstreamSession (row : OAuthUpstreamSession)
| FirstMcpClient (access_token : string).

Definition Resp (e : Event) : Type :=
  match e with
  | Base e => sys.Resp e
  | FirstAccessToken _ => first_result OAuthAccessToken
  | FirstRefreshToken _ => first_result OAuthRefreshToken
  | UpdateRefreshTokenRotation _ => error
  | CreateUpstreamSession _ => result N
  | FirstMcpClient _ => first_result McpClient
  end.

Inductive Prog (A : Type) : Type :=
| Ret (a : A)
| Do (e : Event) (k : Resp e -> Prog A).
Arguments Ret {A} a.
Arguments Do {A} e k.

Fixpoint bind {A B} (p : Prog A) (f : A -> Prog B) : Prog B :=
  match p with
  | Ret a => f a
  | Do e k => Do e (fun x => bind (k x) f)
  end.

Definition perform (e : Event) : Prog (Resp e) := Do e Ret.

#[global] Instance Prog_ret : MRet Prog := @Ret.
#[global] Instance Prog_bind : MBind Prog := fun A B f p => bind p f.

(** A program of [sys], run as it is. *)
Fixpoint lift {A} (p : sys.Prog A) : Prog A :=
  match p with
  | sys.Ret a => Ret a
  | sys.Do e k => Do (Base e) (fun x => lift (k x))
  end.

Record World := {
  base : sys.World;
  mcp_clients : list McpClient
}.

Definition on_base {X} (w : World) (r : X * sys.World) : X * World :=
  (fst r, {| base := snd r; mcp_clients := mcp_clients w |}).

Definition set_rt_RotationCount (n : Z) (r : OAuthRefreshToken) : OAuthRefreshToken :=
  {| rt_ID := rt_ID r; rt_RefreshToken := rt_RefreshToken r; rt_ClientID := rt_ClientID r;
     rt_UserID := rt_UserID r; rt_Scope := rt_Scope r; rt_ExpiresAt := rt_ExpiresAt r;
     rt_Revoked := rt_Revoked r; rt_RotationCount := n |}.

(** [Model(..).Where("id = ?", id).UpdateColumn("rotation_count",
    gorm.Expr("rotation_count + ?", 1))].  The sum is the database's; it is
    modelled for counts below the largest value of the column. *)
Definition increment_rotation (id : N) (table : list OAuthRefreshToken)
    : list OAuthRefreshToken :=
  List.map (fun r => if N.eqb (rt_ID r) id
                     then set_rt_RotationCount (rt_RotationCount r + 1) r
                     else r) table.

(** [Create] of a session: a zero primary key is assigned by the table, any
    other is inserted as given and refused when taken; the server name is
    unique. *)
Definition create_session (row : OAuthUpstreamSession) (table : list OAuthUpstreamSession)
    : result N * list OAuthUpstreamSession :=
  if N.eqb (us_ID row) 0 then create us_McpServerName set_us_ID row table
  else if List.existsb (fun r => N.eqb (us_ID r) (us_ID row)) table
          || List.existsb (fun r => String.eqb (us_McpServerName r) (us_McpServerName row))
               table
  then (Err "UNIQUE constraint failed", table)
  else (Ok (us_ID row), (table ++ [row])%list).

Definition handle (e : Event) (w : World) : Resp e * World :=
  match e return Resp e * World with
  | Base e => on_base w (sys.handle e (base w))
  | FirstAccessToken token =>
      on_base w (statement (base w) FirstError
                   (fun db => (first at_AccessToken token (oauth_access_tokens db), db)))
  | FirstRefreshToken token =>
      on_base w (statement (base w) FirstError
                   (fun db => (first rt_RefreshToken token (oauth_refresh_tokens db), db)))
  | UpdateRefreshTokenRotation id =>
      on_base w (statement (base w) Some
                   (fun db => (None, set_refresh_tokens db
                                       (increment_rotation id (oauth_refresh_tokens db)))))
  | CreateUpstreamSession row =>
      on_base w (statement (base w) Err
                   (fun db => let '(r, t) := create_session row (oauth_upstream_sessions db)
                              in (r, set_sessions db t)))
  | FirstMcpClient token =>
      on_base w (statement (base w) FirstError
                   (fun db => (first mc_AccessToken token (mcp_clients w), db)))
  end.

Fixpoint run {A} (p : Prog A) (w : World) : A * World :=
  match p with
  | Ret a => (a, w)
  | Do e k => let '(x, w') := handle e w in run (k x) w'
  end.

Definition initial (env : Env) (db : DB) (clients : list McpClient) : World :=
  {| base := sys.initial env db; mcp_clients := clients |}.

End sysx.

(** ** internal/service/oauth/oauth_service.go: validation and rotation *)

Module oauth_tokens.
Import model sys.

Definition ValidateAccessToken (token : string) : sysx.Prog (result OAuthAccessToken) :=
  found ← sysx.perform (sysx.FirstAccessToken token);
  match found with
  | ErrRecordNotFound => mret (Err "token not found")
  | FirstError msg => mret (Err ("failed to get access token: " ++ msg))
  | Found accessToken =>
      (* [IsValid] is [!t.Revoked && !t.IsExpired()]: the clock is read only
         for a token that is not revoked *)
      now ← (if at_Revoked accessToken then mret 0
             else sysx.lift (sys.perform TimeNow));
      if negb (OAuthAccessToken_IsValid now accessToken) then
        mret (Err "token is invalid or expired")
      else mret (Ok accessToken)
  end.

Definition ValidateRefreshToken (token : string) : sysx.Prog (result OAuthRefreshToken) :=
  found ← sysx.perform (sysx.FirstRefreshToken token);
  match found with
  | ErrRecordNotFound => mret (Err "token not found")
  | FirstError msg => mret (Err ("failed to get refresh token: " ++ msg))
  | Found refreshToken =>
      now ← (if rt_Revoked refreshToken then mret 0
             else sysx.lift (sys.perform TimeNow));
      if negb (OAuthRefreshToken_IsValid now refreshToken) then
        mret (Err "token is invalid or expired")
      else mret (Ok refreshToken)
  end.

Definition IncrementRefreshTokenRotation (tokenID : N) : sysx.Prog error :=
  sysx.perform (sysx.UpdateRefreshTokenRotation tokenID).

End oauth_tokens.

(** ** internal/api/oauth_handlers.go: the token endpoint and introspection *)

Module api_token.
Import model sys api.

(** A call of [/oauth/token]: the Authorization header and the bound form. *)
Record TokenCall := {
  tc_Authorization : string;
  tc_Form : OAuthTokenRequest
}.

(** A call of [/oauth/introspect]: the header and the three form values
    ([c.PostForm] gives "" for a missing one). *)
Record IntrospectCall := {
  ic_Authorization : string;
  ic_token : string;
  ic_client_id : string;
  ic_client_secret : string
}.

(** What [OAuthIntrospectHandler] writes: a status and a [gin.H]. *)
Record Introspection := {
  in_status : Z;
  in_body : list (string * audit.Value)
}.

Definition introspect_error (status : Z) (e d : string) : Introspection :=
  {| in_status := status;
     in_body := [("error", audit.VString e); ("error_description", audit.VString d)] |}.

Section handlers.
Context `{GoLib}.

Definition handleRefreshTokenGrant (client : OAuthClient) (req : OAuthTokenRequest)
    : sysx.Prog Response :=
  if String.eqb (f_RefreshToken req) "" then
    mret (JSON StatusBadRequest
            (oauth_error "invalid_request" "refresh_token is required"))
  else
    (* Validate refresh token *)
    refreshToken ← oauth_tokens.ValidateRefreshToken (f_RefreshToken req);
    match refreshToken with
    | Err _ =>
        mret (JSON StatusBadRequest (oauth_error "invalid_grant" "Invalid refresh token"))
    | Ok refreshToken =>
        (* Validate client ID matches *)
        if negb (String.eqb (rt_ClientID refreshToken) (oc_ClientID client)) then
          mret (JSON StatusBadRequest
                  (oauth_error "invalid_grant"
                     "Refresh token was issued to a different client"))
        else
          let issue (scope : string) : sysx.Prog Response :=
            (* Determine audience *)
            let audience := if String.eqb (f_Resource req) ""
                            then f_ServerURL req
                            else f_Resource req in
            (* Issue new access token *)
            accessToken ← sysx.lift
                            (oauth.IssueAccessToken (oc_ClientID client)
                               (Some (rt_UserID refreshToken)) scope audience
                               (Some (rt_ID refreshToken)));
            match accessToken with
            | Err msg =>
                _ ← sysx.lift (sys.perform
                                 (Log "error" ("Failed to issue access token: " ++ msg)));
                mret (JSON StatusInternalServerError
                        (oauth_error "server_error" "Failed to issue token"))
            | Ok accessToken =>
                (* Increment rotation count *)
                err ← oauth_tokens.IncrementRefreshTokenRotation (rt_ID refreshToken);
                _ ← match err with
                    | Some msg =>
                        sysx.lift
                          (sys.perform
                             (Log "warn"
                                ("Failed to increment refresh token rotation count: "
                                 ++ msg)))
                    | None => mret tt
                    end;
                (* Return token response *)
                now ← sysx.lift (sys.perform TimeNow);
                mret (TokenJSON StatusOK
                        {| otr_AccessToken := at_AccessToken accessToken;
                           otr_TokenType := "Bearer";
                           otr_ExpiresIn :=
                             time.whole_seconds
                               (time.Until now (at_ExpiresAt accessToken));
                           otr_RefreshToken := rt_RefreshToken refreshToken;
                           otr_Scope := at_Scope accessToken |})
            end in
          (* Determine scope (can request narrower scope) *)
          if negb (String.eqb (f_Scope req) "") then
            match oauth.ValidateScopes client (f_Scope req) with
            | Err msg => mret (JSON StatusBadRequest (oauth_error "invalid_scope" msg))
            | Ok validatedScope => issue validatedScope
            end
          else issue (rt_Scope refreshToken)
    end.

Definition handleClientCredentialsGrant (client : OAuthClient) (req : OAuthTokenRequest)
    : sysx.Prog Response :=
  let issue (scope : string) : sysx.Prog Response :=
    (* Determine audience *)
    let audience := if String.eqb (f_Resource req) ""
                    then f_ServerURL req
                    else f_Resource req in
    (* Issue access token (no user, no refresh token) *)
    accessToken ← sysx.lift
                    (oauth.IssueAccessToken (oc_ClientID client) None scope audience None);
    match accessToken with
    | Err msg =>
        _ ← sysx.lift (sys.perform
                         (Log "error" ("Failed to issue access token: " ++ msg)));
        mret (JSON StatusInternalServerError
                (oauth_error "server_error" "Failed to issue token"))
    | Ok accessToken =>
        now ← sysx.lift (sys.perform TimeNow);
        mret (TokenJSON StatusOK
                {| otr_AccessToken := at_AccessToken accessToken;
                   otr_TokenType := "Bearer";
                   otr_ExpiresIn :=
                     time.whole_seconds (time.Until now (at_ExpiresAt accessToken));
                   otr_RefreshToken := "";
                   otr_Scope := at_Scope accessToken |})
    end in
  (* Client credentials grant doesn't involve a user *)
  if String.eqb (f_Scope req) "" then
    (* Use client's default scopes *)
    match json_Unmarshal (oc_Scopes client) with
    | Ok scopes =>
        if (0 <? length scopes)%nat then issue (strings.Join scopes " ")
        else issue (f_Scope req)
    | Err _ => issue (f_Scope req)
    end
  else
    (* Validate requested scopes *)
    match oauth.ValidateScopes client (f_Scope req) with
    | Err msg => mret (JSON StatusBadRequest (oauth_error "invalid_scope" msg))
    | Ok validatedScope => issue validatedScope
    end.

Definition OAuthTokenHandler (c : TokenCall) : sysx.Prog Response :=
  let req := tc_Form c in
  (* c.ShouldBind: the grant_type field is required; the description is the
     validator's text *)
  if String.eqb (f_GrantType req) "" then
    mret (JSON StatusBadRequest
            (oauth_error "invalid_request" "Key: 'OAuthTokenRequest.GrantType' Error:Field validation for 'GrantType' failed on the 'required' tag"))
  else
    (* Extract client credentials from Authorization header or request body *)
    let '(clientID, clientSecret) :=
      extractClientCredentials (tc_Authorization c) (f_ClientID req) (f_ClientSecret req) in
    if String.eqb clientID "" then
      mret (JSON StatusBadRequest
              (oauth_error "invalid_client" "Client authentication required"))
    else
      (* Validate client (may not have secret for public clients) *)
      client ← sysx.lift (oauth.GetClient clientID);
      match client with
      | Err _ | Ok None =>
          mret (JSON StatusUnauthorized (oauth_error "invalid_client" "Client not found"))
      | Ok (Some client) =>
          let dispatch : sysx.Prog Response :=
            if String.eqb (f_GrantType req) "authorization_code" then
              sysx.lift (handleAuthorizationCodeGrant client req)
            else if String.eqb (f_GrantType req) "refresh_token" then
              handleRefreshTokenGrant client req
            else if String.eqb (f_GrantType req) "client_credentials" then
              handleClientCredentialsGrant client req
            else
              mret (JSON StatusBadRequest
                      (oauth_error "unsupported_grant_type" "Grant type not supported")) in
          (* Validate client secret if confidential client *)
          if oc_IsConfidential client then
            valid ← sysx.lift (oauth.ValidateClientCredentials clientID clientSecret);
            match valid with
            | Err _ =>
                mret (JSON StatusUnauthorized
                        (oauth_error "invalid_client" "Invalid client credentials"))
            | Ok _ => dispatch
            end
          else dispatch
      end.

(** The [gin.H] of an active token. *)
Definition token_info (accessToken : OAuthAccessToken) : list (string * audit.Value) :=
  let response :=
    [ ("active", audit.VBool true);
      ("client_id", audit.VString (at_ClientID accessToken));
      ("scope", audit.VString (at_Scope accessToken));
      ("exp", audit.VNumber (at_ExpiresAt accessToken / time.Second));   (* Unix() *)
      ("aud", audit.VString (at_Audience accessToken)) ] in
  match at_UserID accessToken with
  | Some userID => (response ++ [("sub", audit.VString (itoa (Z.of_N userID)))])%list
  | None => response
  end.

Definition OAuthIntrospectHandler (c : IntrospectCall) : sysx.Prog Introspection :=
  (* Extract token from request *)
  let token := ic_token c in
  if String.eqb token "" then
    mret (introspect_error StatusBadRequest "invalid_request" "token parameter is required")
  else
    (* Authenticate client *)
    let '(clientID, clientSecret) :=
      extractClientCredentials (ic_Authorization c) (ic_client_id c) (ic_client_secret c) in
    if String.eqb clientID "" then
      mret (introspect_error StatusUnauthorized "invalid_client"
              "Client authentication required")
    else
      valid ← sysx.lift (oauth.ValidateClientCredentials clientID clientSecret);
      match valid with
      | Err _ =>
          mret (introspect_error StatusUnauthorized "invalid_client"
                  "Invalid client credentials")
      | Ok _ =>
          (* Validate token *)
          accessToken ← oauth_tokens.ValidateAccessToken token;
          match accessToken with
          | Err _ =>
              (* Token is not active *)
              mret {| in_status := StatusOK; in_body := [("active", audit.VBool false)] |}
          | Ok accessToken =>
              (* Return token info *)
              mret {| in_status := StatusOK; in_body := token_info accessToken |}
          end
      end.

End handlers.
End api_token.

(** ** internal/service/mcpclient: GetClientByToken *)

Module mcpclient.
Import model sys.

Definition GetClientByToken (token : string) : sysx.Prog (result McpClient) :=
  found ← sysx.perform (sysx.FirstMcpClient token);
  match found with
  | ErrRecordNotFound => mret (Err "client not found")
  | FirstError msg => mret (Err msg)
  | Found client => mret (Ok client)
  end.

End mcpclient.

(** ** internal/api/middleware.go: checkAuthForMcpProxyAccess *)

Module middleware.
Import model sys.

Definition StatusUnauthorized : Z := 401.
Definition StatusInternalServerError : Z := 500.
Definition AuditActorMcpClient := "mcp_client".

(** What [c.Get("mode")] followed by the [.(model.ServerMode)] assertion can
    see. *)
Inductive ModeValue : Type :=
| NoMode
| NotServerMode
| Mode (m : string).

Record ProxyCall := {
  pc_mode : ModeValue;
  pc_Authorization : string;           (* the Authorization header *)
  pc_ClientIP : string;
  pc_UserAgent : string
}.

(** The values the middleware has put into the request context when it calls
    [c.Next()]; [None] is a key that was not set. *)
Record ProxyContext := {
  px_mode : string;
  px_client : option McpClient;
  px_oauth_scopes : option (list string);
  px_oauth_token : option OAuthAccessToken;
  px_toolGroupChecker : bool;          (* the tool group service was injected *)
  px_audit : option audit.AuditContext
}.

Inductive Outcome : Type :=
| Abort (status : Z) (error : string)   (* AbortWithStatusJSON, gin.H{"error": ..} *)
| Next (ctx : ProxyContext).

(** [strings.TrimPrefix(s, prefix)] *)
Definition TrimPrefix (s prefix : string) : string :=
  if String.prefix prefix s then strings.TrimPrefix s prefix else s.

Section proxy.
(** [model.ModeDev], declared outside the files at hand. *)
Variable ModeDev : string.

Definition checkAuthForMcpProxyAccess (c : ProxyCall) : sysx.Prog Outcome :=
  match pc_mode c with
  | NoMode => mret (Abort StatusInternalServerError "server mode not found in context")
  | NotServerMode => mret (Abort StatusInternalServerError "invalid server mode in context")
  | Mode m =>
      if String.eqb m ModeDev then
        (* no auth is required in case of dev mode *)
        mret (Next {| px_mode := m; px_client := None; px_oauth_scopes := None;
                      px_oauth_token := None; px_toolGroupChecker := false;
                      px_audit := None |})
      else
        let authHeader := pc_Authorization c in
        let token := TrimPrefix authHeader "Bearer " in
        if String.eqb token "" then
          mret (Abort StatusUnauthorized "missing MCP client access token")
        else
          (* Try OAuth token first *)
          oauthToken ← oauth_tokens.ValidateAccessToken token;
          match oauthToken with
          | Ok oauthToken =>
              (* Valid OAuth token - get the OAuth client *)
              oauthClient ← sysx.lift (oauth.GetClient (at_ClientID oauthToken));
              match oauthClient with
              | Err _ | Ok None => mret (Abort StatusUnauthorized "OAuth client not found")
              | Ok (Some oauthClient) =>
                  (* Create a pseudo MCP client for context compatibility *)
                  let scopes := if negb (String.eqb (at_Scope oauthToken) "")
                                then strings.Split " " (at_Scope oauthToken)
                                else [] in
                  let pseudoClient :=
                    {| mc_Name := oc_ClientName oauthClient;
                       mc_Description := "OAuth client: " ++ oc_ClientID oauthClient;
                       mc_AccessToken := token;
                       mc_AllowList := JSON_nil;
                       mc_AllowedToolGroups := JSON_nil |} in
                  let auditCtx :=
                    {| audit.ActorType := AuditActorMcpClient;
                       audit.ActorID := oc_ClientName oauthClient;
                       audit.IPAddress := pc_ClientIP c;
                       audit.UserAgent := pc_UserAgent c |} in
                  mret (Next {| px_mode := m; px_client := Some pseudoClient;
                                px_oauth_scopes := Some scopes;
                                px_oauth_token := Some oauthToken;
                                px_toolGroupChecker := true;
                                px_audit := Some auditCtx |})
              end
          | Err _ =>
              (* Fall back to traditional MCP client token *)
              client ← mcpclient.GetClientByToken token;
              match client with
              | Err _ => mret (Abort StatusUnauthorized "invalid MCP client token")
              | Ok client =>
                  let auditCtx :=
                    {| audit.ActorType := AuditActorMcpClient;
                       audit.ActorID := mc_Name client;
                       audit.IPAddress := pc_ClientIP c;
                       audit.UserAgent := pc_UserAgent c |} in
                  mret (Next {| px_mode := m; px_client := Some client;
                                px_oauth_scopes := None; px_oauth_token := None;
                                px_toolGroupChecker := true;
                                px_audit := Some auditCtx |})
              end
          end
  end.

End proxy.
End middleware.

(** ** The upstream authorization-code exchange

    internal/service/oauth/oauth_client.go: [ExchangeAuthorizationCode],
    [StoreUpstreamSession]; internal/api/oauth_client_handlers.go:
    [OAuthClientCallbackHandler]. *)

Module upstream.
Import model sys.

Definition StatusOK : Z := 200.
Definition StatusBadRequest : Z := 400.
Definition StatusInternalServerError : Z := 500.
Definition StatusBadGateway : Z := 502.

Record OAuthClientCallbackRequest := {
  cb_ServerName : string;
  cb_Code : string;
  cb_State : string
}.

Inductive CallbackAnswer : Type :=
| CallbackError (status : Z) (error : string)                 (* gin.H{"error": ..} *)
| CallbackResponse (status : Z) (success : bool) (message : string).

Definition newline : string := String (Ascii.ascii_of_nat 10) "".

(** The validator's text for the fields that are required and empty, in the
    order of the struct. *)
Definition required_errors (type : string) (fields : list (string * string)) : string :=
  strings.Join
    (List.map (fun f => "Key: '" ++ type ++ "." ++ fst f ++ "' Error:Field validation for '"
                        ++ fst f ++ "' failed on the 'required' tag")
       (List.filter (fun f => String.eqb (snd f) "") fields))
    newline.

(** The session after the exchange: tokens, type and scope are those of the
    response, the code verifier is cleared. *)
Definition exchanged (session : OAuthUpstreamSession) (tokenResp : TokenResponse)
    (expiresAt : option time.Time) : OAuthUpstreamSession :=
  {| us_ID := us_ID session;
     us_McpServerName := us_McpServerName session;
     us_ClientID := us_ClientID session;
     us_ClientSecret := us_ClientSecret session;
     us_AccessToken := tr_AccessToken tokenResp;
     us_RefreshToken := tr_RefreshToken tokenResp;
     us_TokenType := tr_TokenType tokenResp;
     us_ExpiresAt := expiresAt;
     us_Scope := tr_Scope tokenResp;
     us_AuthorizationEndpoint := us_AuthorizationEndpoint session;
     us_TokenEndpoint := us_TokenEndpoint session;
     us_ResourceURI := us_ResourceURI session;
     us_CodeVerifier := "";               (* Clear after use *)
     us_RedirectURI := us_RedirectURI session |}.

Section service.
Context `{GoLib}.

(** The request [ExchangeAuthorizationCode] builds. *)
Definition exchange_request
    (tokenEndpoint clientID clientSecret code codeVerifier redirectURI resource : string)
    : HTTPRequest :=
  (* Build token request *)
  let data := [ ("grant_type", "authorization_code");
                ("code", code);
                ("redirect_uri", redirectURI);
                ("code_verifier", codeVerifier);   (* PKCE verifier (REQUIRED) *)
                ("resource", resource);            (* RFC 8707 *)
                ("client_id", clientID) ] in
  {| hr_Method := "POST"; hr_URL := tokenEndpoint; hr_Form := data;
     hr_Header := [ ("Content-Type", "application/x-www-form-urlencoded");
                    ("Accept", "application/json") ];
     (* Add client authentication if client has a secret *)
     hr_BasicAuth := if negb (String.eqb clientSecret "")
                     then Some (clientID, clientSecret) else None |}.

Definition ExchangeAuthorizationCode
    (tokenEndpoint clientID clientSecret code codeVerifier redirectURI resource : string)
    : sys.Prog (result TokenResponse) :=
  (* http.NewRequestWithContext refuses a URL that does not parse *)
  if negb (url_Parse_ok tokenEndpoint) then
    mret (Err "failed to create token request: invalid URL")
  else
    let req := exchange_request tokenEndpoint clientID clientSecret code codeVerifier
                 redirectURI resource in
    resp ← sys.perform (HTTPDo req);
    match resp with
    | TransportError msg => mret (Err ("failed to exchange code: " ++ msg))
    | HTTPResponse status body decoded =>
        if negb (status =? 200) then
          mret (Err ("token exchange failed with status " ++ itoa status ++ ": " ++ body))
        else
          match decoded with
          | Err msg => mret (Err ("failed to decode token response: " ++ msg))
          | Ok tokenResp => mret (Ok tokenResp)
          end
    end.

Definition StoreUpstreamSession (session : OAuthUpstreamSession) : sysx.Prog error :=
  (* Check if session already exists *)
  found ← sysx.lift (sys.perform (FirstUpstreamSession (us_McpServerName session)));
  match found with
  | ErrRecordNotFound =>
      (* Create new session *)
      created ← sysx.perform (sysx.CreateUpstreamSession session);
      match created with
      | Ok _ => mret None
      | Err msg => mret (Some msg)
      end
  | FirstError msg => mret (Some ("failed to check existing session: " ++ msg))
  | Found existing =>
      (* Update existing session *)
      sysx.lift (sys.perform (SaveUpstreamSession (set_us_ID (us_ID existing) session)))
  end.

Definition OAuthClientCallbackHandler (req : OAuthClientCallbackRequest)
    : sysx.Prog CallbackAnswer :=
  (* c.ShouldBindQuery: the three parameters are required *)
  if String.eqb (cb_ServerName req) "" || String.eqb (cb_Code req) ""
     || String.eqb (cb_State req) "" then
    mret (CallbackError StatusBadRequest
            ("invalid callback parameters: "
             ++ required_errors "OAuthClientCallbackRequest"
                  [ ("ServerName", cb_ServerName req); ("Code", cb_Code req);
                    ("State", cb_State req) ]))
  else
    (* Get the stored session to retrieve PKCE verifier and endpoints *)
    found ← sysx.lift (sys.perform (FirstUpstreamSession (cb_ServerName req)));
    let not_found (err : string) : sysx.Prog CallbackAnswer :=
      _ ← sysx.lift (sys.perform
                       (Log "error" ("Failed to get OAuth session for server "
                                     ++ cb_ServerName req ++ ": " ++ err)));
      mret (CallbackError StatusBadRequest "no OAuth session found for this server") in
    match found with
    | ErrRecordNotFound => not_found "record not found"
    | FirstError msg => not_found msg
    | Found session =>
        (* Exchange authorization code for tokens *)
        _ ← sysx.lift (sys.perform
                         (Log "info" ("Exchanging authorization code for tokens (server: "
                                      ++ cb_ServerName req ++ ")")));
        tokenResp ← sysx.lift
                      (ExchangeAuthorizationCode (us_TokenEndpoint session)
                         (us_ClientID session) (us_ClientSecret session) (cb_Code req)
                         (us_CodeVerifier session) (us_RedirectURI session)
                         (us_ResourceURI session));
        match tokenResp with
        | Err msg =>
            _ ← sysx.lift (sys.perform
                             (Log "error"
                                ("Failed to exchange authorization code: " ++ msg)));
            mret (CallbackError StatusBadGateway
                    ("failed to exchange authorization code: " ++ msg))
        | Ok tokenResp =>
            (* Calculate expiration time *)
            expiresAt ← (if 0 <? tr_ExpiresIn tokenResp then
                           now ← sysx.lift (sys.perform TimeNow);
                           mret (Some (time.Add now
                                         (time.Seconds (tr_ExpiresIn tokenResp))))
                         else mret (us_ExpiresAt session));
            (* Update session with tokens and clear code verifier *)
            let session := exchanged session tokenResp expiresAt in
            err ← StoreUpstreamSession session;
            match err with
            | Some msg =>
                _ ← sysx.lift (sys.perform
                                 (Log "error" ("Failed to update OAuth session: " ++ msg)));
                mret (CallbackError StatusInternalServerError
                        ("failed to store OAuth tokens: " ++ msg))
            | None =>
                _ ← sysx.lift (sys.perform
                                 (Log "info" ("Successfully completed OAuth flow for server "
                                              ++ cb_ServerName req)));
                mret (CallbackResponse StatusOK true
                        ("Successfully authenticated with " ++ cb_ServerName req))
            end
        end
    end.

End service.
End upstream.

(** ** Rows and worlds the properties speak of *)

(** The row [IssueAccessToken] builds, with the primary key it was given. *)
Definition access_token_row (id : N) (token clientID : string) (userID : option N)
    (scope audience : string) (refreshTokenID : option N) (issuedAt : time.Time)
    : model.OAuthAccessToken :=
  {| model.at_ID := id; model.at_AccessToken := token; model.at_ClientID := clientID;
     model.at_UserID := userID; model.at_Scope := scope;
     model.at_ExpiresAt := time.Add issuedAt (1 * time.Hour);
     model.at_RefreshTokenID := refreshTokenID; model.at_Audience := audience;
     model.at_Revoked := false |}.

(** The row [IssueRefreshToken] builds, with the primary key it was given. *)
Definition refresh_token_row (id : N) (token clientID : string) (userID : N)
    (scope : string) (issuedAt : time.Time) : model.OAuthRefreshToken :=
  {| model.rt_ID := id; model.rt_RefreshToken := token; model.rt_ClientID := clientID;
     model.rt_UserID := userID; model.rt_Scope := scope;
     model.rt_ExpiresAt := time.Add issuedAt (30 * 24 * time.Hour);
     model.rt_Revoked := false; model.rt_RotationCount := 0 |}.

(** The world is as [w], up to its counters and its trace, with the tables
    [db]: what a run leaves behind, as far as later runs can tell from the
    tables and the environment. *)
Definition follows (w : sys.World) (db : sys.DB) (clock_reads random_draws statements
    http_calls : nat) (w' : sys.World) : Prop :=
  sys.w_env w' = sys.w_env w
  /\ sys.w_db w' = db
  /\ sys.w_clock_reads w' = (sys.w_clock_reads w + clock_reads)%nat
  /\ sys.w_random_draws w' = (sys.w_random_draws w + random_draws)%nat
  /\ sys.w_statements w' = (sys.w_statements w + statements)%nat
  /\ sys.w_http_calls w' = (sys.w_http_calls w + http_calls)%nat.

(** The token is stored and the row that carries it is revoked. *)
Definition found_revoked (token : string) (table : list model.OAuthAccessToken) : Prop :=
  exists r, sys.first model.at_AccessToken token table = sys.Found r
            /\ model.at_Revoked r = true.

(** [always], for programs over the further statements. *)
Fixpoint always_x {A} (P : A -> Prop) (p : sysx.Prog A) : Prop :=
  match p with
  | sysx.Ret a => P a
  | sysx.Do e k => forall x, always_x P (k x)
  end.

(** The answer is a refusal: a JSON error with status 400 or 401. *)
Definition refusal (r : api.Response) : Prop :=
  exists body, r = api.JSON api.StatusBadRequest body
               \/ r = api.JSON api.StatusUnauthorized body.

(** ** internal/service/search/search.go: sortByScore

    The scores are float64 values; [sortByScore] reads them only through
    the comparison [results[j].Score < results[j+1].Score].  The score type
    and its [<] are parameters of the section. *)

Module search.
Section ranking.
Variable float64 : Type.
Variable float64_lt : float64 -> float64 -> bool.

Record SearchResult := {
  sr_ToolName : string;
  sr_ServerName : string;
  sr_Description : string;
  sr_Score : float64;
  sr_Enabled : bool
}.

(** [for j := 0; j < bound; j++ { if results[j].Score < results[j+1].Score
    { swap } }], walking the slice from its head; [bound] never exceeds the
    number of adjacent pairs. *)
Fixpoint inner_loop (bound : nat) (results : list SearchResult) : list SearchResult :=
  match bound, results with
  | S bound', a :: b :: rest =>
      if float64_lt (sr_Score a) (sr_Score b)
      then b :: inner_loop bound' (a :: rest)
      else a :: inner_loop bound' (b :: rest)
  | _, _ => results
  end.

(** [for i := ..; i < n-1; i++ { inner loop with bound n-i-1 }], with the
    number of rounds that are left. *)
Fixpoint outer_loop (rounds i n : nat) (results : list SearchResult) : list SearchResult :=
  match rounds with
  | O => results
  | S rounds' => outer_loop rounds' (S i) n (inner_loop (n - i - 1) results)
  end.

Definition sortByScore (results : list SearchResult) : list SearchResult :=
  let n := length results in
  outer_loop (n - 1) 0 n results.

(** Two results have scores of which neither is below the other. *)
Definition same_rank (a b : SearchResult) : bool :=
  negb (float64_lt (sr_Score a) (sr_Score b))
  && negb (float64_lt (sr_Score b) (sr_Score a)).

(** [a] does not rank below [b]. *)
Definition not_below (a b : SearchResult) : Prop :=
  float64_lt (sr_Score a) (sr_Score b) = false.

(** Highest first: no result ranks below one that comes after it. *)
Fixpoint descending (results : list SearchResult) : Prop :=
  match results with
  | [] => True
  | a :: rest => Forall (not_below a) rest /\ descending rest
  end.

End ranking.
Arguments sr_Score {float64} _.
Arguments inner_loop {float64} float64_lt bound results.
Arguments outer_loop {float64} float64_lt rounds i n results.
Arguments sortByScore {float64} float64_lt results.
Arguments same_rank {float64} float64_lt a b.
Arguments not_below {float64} float64_lt a b.
Arguments descending {float64} float64_lt results.
End search.

(** ** Example inputs *)

Module examples_x.
Import model sys api examples.

(** An access token of client A, issued at the epoch. *)
Definition token_T : OAuthAccessToken :=
  access_token_row 1 "T" "A" (Some 7%N) "mcp:read" "http://jungle" None 0.

(** A refresh token of client A. *)
Definition token_R : OAuthRefreshToken :=
  refresh_token_row 1 "R" "A" 7 "mcp:read" 0.

(** Client A registered, nothing else stored. *)
Definition gate0 : sysx.World := sysx.initial (calm 0) registered [].

Definition with_token_T : sysx.World :=
  sysx.initial (calm 0) (set_access_tokens registered [token_T]) [].

Definition with_token_R : sysx.World :=
  sysx.initial (calm 0) (set_refresh_tokens registered [token_R]) [].

(** A session for which the authorization was started. *)
Definition pending : OAuthUpstreamSession :=
  {| us_ID := 1; us_McpServerName := "up"; us_ClientID := "cid"; us_ClientSecret := "";
     us_AccessToken := ""; us_RefreshToken := "";
     us_TokenType := ""; us_ExpiresAt := None; us_Scope := "";
     us_AuthorizationEndpoint := "http://up/authorize";
     us_TokenEndpoint := "http://up/token"; us_ResourceURI := "http://up";
     us_CodeVerifier := "verifier"; us_RedirectURI := "http://me/callback" |}.

Definition with_pending : sysx.World :=
  sysx.initial (calm 0) (one_session pending) [].

Definition token_request (grant_type refresh_token scope : string) : OAuthTokenRequest :=
  {| f_GrantType := grant_type; f_Code := ""; f_RedirectURI := ""; f_CodeVerifier := "";
     f_RefreshToken := refresh_token; f_ClientID := ""; f_ClientSecret := "";
     f_Scope := scope; f_Resource := ""; f_ServerURL := "http://jungle" |}.

Definition token_call (grant_type : string) : api_token.TokenCall :=
  {| api_token.tc_Authorization := "Basic A:s3cret";
     api_token.tc_Form := token_request grant_type "" "" |}.

Definition introspect_T : api_token.IntrospectCall :=
  {| api_token.ic_Authorization := "Basic A:s3cret"; api_token.ic_token := "T";
     api_token.ic_client_id := ""; api_token.ic_client_secret := "" |}.

Definition proxy_call (authorization : string) : middleware.ProxyCall :=
  {| middleware.pc_mode := middleware.Mode "enterprise";
     middleware.pc_Authorization := authorization;
     middleware.pc_ClientIP := "10.0.0.1"; middleware.pc_UserAgent := "agent" |}.

Definition callback : upstream.OAuthClientCallbackRequest :=
  {| upstream.cb_ServerName := "up"; upstream.cb_Code := "code";
     upstream.cb_State := "state" |}.

(** The slice of [TestSearchService_SortByScore], with whole scores. *)
Definition scored (name : string) (score : Z) : search.SearchResult Z :=
  {| search.sr_ToolName := name; search.sr_ServerName := "";
     search.sr_Description := ""; search.sr_Score := score;
     search.sr_Enabled := false |}.

Definition unsorted : list (search.SearchResult Z) :=
  [ scored "tool1" 2; scored "tool2" 5; scored "tool3" 1; scored "tool4" 8;
    scored "tool5" 3 ].

End examples_x.

(* ===================================================================== *)
(** * The repository's tests and the scenarios, replayed                  *)
(* ===================================================================== *)

Section replayed_tests.
Import model model_tests.

Example TestCheckHasToolAccess :
  CheckHasToolAccess (client ["group1"] []) "server1__tool1" checker resolver = Ok true
  /\ CheckHasToolAccess (client ["group1"] []) "server1__tool3" checker resolver = Ok false
  /\ CheckHasToolAccess (client ["group2"] []) "server2__tool1" checker resolver = Ok true
  /\ CheckHasToolAccess (client ["group1"; "group2"] []) "server2__tool2" checker resolver = Ok true
  /\ CheckHasToolAccess (client [] ["server3"]) "server3__tool1" checker resolver = Ok true
  /\ CheckHasToolAccess (client [] ["server3"]) "server4__tool1" checker resolver = Ok false
  /\ CheckHasToolAccess (client ["group1"] ["server2"]) "server2__tool1" checker resolver = Ok false
  /\ is_ok (CheckHasToolAccess (client [] ["server1"]) "invalid-tool-name" checker resolver) = false
  /\ CheckHasToolAccess (client ["nonexistent"] []) "server1__tool1" checker resolver = Ok false.
Proof. repeat split; vm_compute; reflexivity. Qed.

Example TestSplitServerToolName :
  splitServerToolName "server1__tool1" = Some ("server1", "tool1")
  /\ splitServerToolName "my_server__my_tool" = Some ("my_server", "my_tool")
  /\ splitServerToolName "server_tool" = None
  /\ splitServerToolName "servertool" = None
  /\ splitServerToolName "" = None
  /\ splitServerToolName "server__tool__extra" = Some ("server", "tool__extra").
Proof. repeat split; reflexivity. Qed.

Example resolve_mixed_group :
  (exists eff, ResolveEffectiveTools mixed_group server_b = Ok eff
               /\ eff ≡ₚ ["a__x"; "b__w"])
  /\ (exists eff, ResolveEffectivePrompts mixed_group server_b = Ok eff
                  /\ eff ≡ₚ ["a__p"; "b__r"]).
Proof.
  split; eexists; (split; [vm_compute; reflexivity|]);
    solve [reflexivity | apply perm_swap].
Qed.

Example second_group_unreachable_after_failure :
  CheckHasToolAccess (client ["g1"; "g2"] []) "s__t" checker_down resolver_down
  = Err "failed to resolve tools for group g1: failed to get tools for server down: server not found"
  /\ CheckHasToolAccess (client ["g2"; "g1"] []) "s__t" checker_down resolver_down
     = Ok true.
Proof. split; vm_compute; reflexivity. Qed.

End replayed_tests.

Section replayed_scenarios.
Import model sys api examples.

(** Scenario S6: past [expires_at - 5 min] the supplier refreshes. *)
Example supplier_scenarios :
  let expiry := 1000 * time.Minute in
  get_token 0 no_tables = Err "no OAuth session found for server up"
  /\ get_token 0 (one_session (session "rt" (Some expiry))) = Ok "old-access"
  /\ get_token (expiry - 4 * time.Minute) (one_session (session "rt" (Some expiry)))
     = Ok "new-access"
  /\ get_token (expiry + 1) (one_session (session "" (Some expiry))) = Ok "old-access"
  /\ get_token (expiry + 1) (one_session (session "rt" None)) = Ok "old-access".
Proof. repeat split; vm_compute; reflexivity. Qed.

Example scenario_S2 :
  fst after_authorize
  = Redirect 302 "http://x/cb" [("code", "random-0"); ("state", "xyz")]
  /\ fst after_exchange
     = TokenJSON 200 {| otr_AccessToken := "random-2"; otr_TokenType := "Bearer";
                        otr_ExpiresIn := 3600; otr_RefreshToken := "random-1";
                        otr_Scope := "mcp:read" |}
  /\ fst after_replay
     = JSON 400 (oauth_error "invalid_grant" "Authorization code expired or already used").
Proof. repeat split; vm_compute; reflexivity. Qed.

(** Scenario S3: a wrong verifier. *)
Example scenario_S3 :
  fst (serve (handleAuthorizationCodeGrant (H:=toy_lib) client_A
                (exchange "random-0" "W")) (snd after_authorize))
  = JSON 400 (oauth_error "invalid_grant" "Invalid code_verifier").
Proof. vm_compute. reflexivity. Qed.

(** Scenario S5: revoking a token nobody issued, twice. *)
Example scenario_S5 :
  let once := serve (OAuthRevokeHandler (H:=toy_lib) (revoke "bogus" "Basic A:s3cret"))
                world0 in
  let twice := serve (OAuthRevokeHandler (H:=toy_lib) (revoke "bogus" "Basic A:s3cret"))
                 (snd once) in
  fst once = Status 200 /\ fst twice = Status 200.
Proof. split; vm_compute; reflexivity. Qed.

End replayed_scenarios.

(* ===================================================================== *)
(** * Properties                                                          *)
(* ===================================================================== *)

Section PKCE_properties.
Context `{GoLib}.

(** C7. A verifier checked against its own S256 challenge verifies; with
    method "plain", and with any method other than "S256", verification
    returns false whatever the verifier and the challenge are. *)
Theorem C7_verify_pkce_roundtrip (v : string) :
  util.VerifyPKCE v (util.GeneratePKCEChallenge v) "S256" = true
  /\ util.GeneratePKCEChallenge v
     = base64_RawURLEncoding_EncodeToString (sha256_Sum256 v)
  /\ (forall c, util.VerifyPKCE v c "plain" = false)
  /\ (forall c m, String.eqb m "S256" = false -> util.VerifyPKCE v c m = false).
Proof.
  unfold util.VerifyPKCE. split; [|split; [|split]].
  - cbn. apply String.eqb_refl.
  - reflexivity.
  - intros c. reflexivity.
  - intros c m Hm. rewrite Hm. reflexivity.
Qed.
End PKCE_properties.

Lemma C7_verify_pkce_roundtrip_witness :
  util.VerifyPKCE (H:=examples.toy_lib) "verifier" "challenge" "S512" = false.
Proof.
  destruct (C7_verify_pkce_roundtrip (H:=examples.toy_lib) "verifier")
    as (_ & _ & _ & other_methods).
  apply other_methods. reflexivity.
Defined.

(* ===================================================================== *)
(** ** Token validity                                                     *)
(* ===================================================================== *)

(** C5 (as the code has it). An access token is valid exactly when it is
    not revoked and the current instant is not later than [expires_at]; at
    the instant [now = expires_at] an unrevoked token is still valid. *)
Theorem C5_access_token_valid_iff (now : time.Time) (t : model.OAuthAccessToken) :
  (model.OAuthAccessToken_IsValid now t = true
     <-> model.at_Revoked t = false /\ now <= model.at_ExpiresAt t)
  /\ (now = model.at_ExpiresAt t ->
      model.OAuthAccessToken_IsValid now t = negb (model.at_Revoked t)).
Proof.
  unfold model.OAuthAccessToken_IsValid, model.OAuthAccessToken_IsExpired, time.After.
  split.
  - rewrite andb_true_iff, !negb_true_iff, Z.ltb_ge. tauto.
  - intros ->. rewrite Z.ltb_irrefl. cbn. apply andb_true_r.
Qed.

Lemma C5_access_token_valid_iff_witness :
  model.OAuthAccessToken_IsValid (3600 * time.Second) token_at_expiry
  = negb (model.at_Revoked token_at_expiry).
Proof.
  apply (proj2 (C5_access_token_valid_iff (3600 * time.Second) token_at_expiry)).
  reflexivity.
Defined.

(** The claim as written (valid iff not revoked and [now < expires_at]) fails
    for an unrevoked token observed at the very instant it expires. *)
Lemma C5_counterexample_valid_at_expiry :
  ~ (forall (now : time.Time) (t : model.OAuthAccessToken),
       model.OAuthAccessToken_IsValid now t = true
       <-> model.at_Revoked t = false /\ now < model.at_ExpiresAt t).
Proof.
  intros claim.
  destruct (claim (3600 * time.Second) token_at_expiry) as [valid_lt _].
  assert (Hv : model.OAuthAccessToken_IsValid (3600 * time.Second) token_at_expiry = true)
    by reflexivity.
  destruct (valid_lt Hv) as [_ Hlt]. cbn in Hlt. lia.
Qed.

(* ===================================================================== *)
(** ** Tool groups                                                        *)
(* ===================================================================== *)

Section resolve.
Import model.

Lemma dom_set_all (xs : list string) (m : gmap string bool) :
  dom (set_all xs m) = list_to_set xs ∪ dom m.
Proof.
  unfold set_all. revert m.
  induction xs as [|x xs IH]; intros m; cbn.
  - set_solver.
  - rewrite IH, dom_insert_L. set_solver.
Qed.

Lemma dom_delete_all (xs : list string) (m : gmap string bool) :
  dom (delete_all xs m) = dom m ∖ list_to_set xs.
Proof.
  unfold delete_all. revert m.
  induction xs as [|x xs IH]; intros m; cbn.
  - set_solver.
  - rewrite IH, dom_delete_L. set_solver.
Qed.

Lemma keys_NoDup (m : gmap string bool) : NoDup (keys m).
Proof. apply NoDup_fst_map_to_list. Qed.

Lemma keys_dom (m : gmap string bool) : list_to_set (keys m) = dom m.
Proof.
  apply set_eq. intros k. unfold keys.
  rewrite elem_of_list_to_set, elem_of_dom, list_elem_of_fmap.
  split.
  - intros [[k' v] [-> Hin]]. apply elem_of_map_to_list in Hin. eauto.
  - intros [v Hv]. exists (k, v). split; [done|]. by apply elem_of_map_to_list.
Qed.

Lemma add_server_tools_ok (r : ToolResolver) (srv : list string) (tls : list (list Tool)) :
  Forall2 (fun s l => ListToolsByServer r s = Ok l) srv tls ->
  forall m, exists m',
    add_server_tools r srv m = Ok m'
    /\ dom m' = dom m ∪ ⋃ (list_to_set <$> (tool_names tls)).
Proof.
  induction 1 as [|s l srv tls Hs _ IH]; intros m; cbn.
  - exists m. split; [done|]. set_solver.
  - rewrite Hs. cbn. destruct (IH (set_all (Tool_Name <$> l) m)) as (m' & -> & Hd).
    exists m'. split; [done|]. rewrite Hd, dom_set_all. cbn. set_solver.
Qed.

Lemma add_server_prompts_ok (r : PromptResolver) (srv : list string) (pls : list (list Prompt)) :
  Forall2 (fun s l => ListPromptsByServer r s = Ok l) srv pls ->
  forall m, exists m',
    add_server_prompts r srv m = Ok m'
    /\ dom m' = dom m ∪ ⋃ (list_to_set <$> (prompt_names pls)).
Proof.
  induction 1 as [|s l srv pls Hs _ IH]; intros m; cbn.
  - exists m. split; [done|]. set_solver.
  - rewrite Hs. cbn. destruct (IH (set_all (Prompt_Name <$> l) m)) as (m' & -> & Hd).
    exists m'. split; [done|]. rewrite Hd, dom_set_all. cbn. set_solver.
Qed.

(** [ResolveEffectiveTools] succeeds only when the three columns decode and
    every included server lists its tools. *)
Lemma add_server_tools_inv (r : ToolResolver) (srv : list string) :
  forall m m', add_server_tools r srv m = Ok m' ->
  exists tls, Forall2 (fun s l => ListToolsByServer r s = Ok l) srv tls.
Proof.
  induction srv as [|s srv IH]; intros m m'; cbn.
  - intros _. exists []. constructor.
  - destruct (ListToolsByServer r s) as [l|msg] eqn:Hs; cbn; [|discriminate].
    intros Hrest. destruct (IH _ _ Hrest) as [tls Htls].
    exists (l :: tls). by constructor.
Qed.

Lemma ResolveEffectiveTools_ok_inv (g : ToolGroup) (r : ToolResolver) (eff : list string) :
  ResolveEffectiveTools g r = Ok eff ->
  exists inc srv exc tls,
    GetTools g = Ok inc /\ GetServers g = Ok srv /\ GetExcludedTools g = Ok exc
    /\ Forall2 (fun s l => ListToolsByServer r s = Ok l) srv tls.
Proof.
  unfold ResolveEffectiveTools, wrap.
  destruct (GetTools g) as [inc|]; [|discriminate].
  destruct (GetServers g) as [srv|]; [|discriminate].
  destruct (add_server_tools r srv _) as [m'|] eqn:Hadd; [|discriminate].
  destruct (GetExcludedTools g) as [exc|]; [|discriminate].
  intros _. destruct (add_server_tools_inv r srv _ _ Hadd) as [tls Htls].
  by exists inc, srv, exc, tls.
Qed.

(** C8. When the three columns of a group decode and every included server
    lists its tools, [ResolveEffectiveTools] returns a duplicate-free slice
    whose elements are exactly
    [(included_tools ∪ ⋃ server_tools(included_servers)) ∖ excluded_tools];
    a name that is both included and excluded is absent.  The same holds
    for [ResolveEffectivePrompts] over the prompt columns. *)
Theorem C8_resolve_effective_equation (g : ToolGroup) (r : ToolGroupResolver) :
  (forall inc srv exc (tls : list (list Tool)),
      GetTools g = Ok inc -> GetServers g = Ok srv -> GetExcludedTools g = Ok exc ->
      Forall2 (fun s l => ListToolsByServer r s = Ok l) srv tls ->
      exists eff,
        ResolveEffectiveTools g r = Ok eff
        /\ NoDup eff
        /\ list_to_set eff = spec_effective inc (tool_names tls) exc
        /\ (forall t, t ∈ exc -> t ∉ eff))
  /\ (forall inc srv exc (pls : list (list Prompt)),
      GetPrompts g = Ok inc -> GetServers g = Ok srv -> GetExcludedPrompts g = Ok exc ->
      Forall2 (fun s l => ListPromptsByServer r s = Ok l) srv pls ->
      exists eff,
        ResolveEffectivePrompts g r = Ok eff
        /\ NoDup eff
        /\ list_to_set eff = spec_effective inc (prompt_names pls) exc
        /\ (forall p, p ∈ exc -> p ∉ eff)).
Proof.
  split.
  - intros inc srv exc tls Hinc Hsrv Hexc Hall.
    unfold ResolveEffectiveTools. rewrite Hinc, Hsrv, Hexc. cbn.
    destruct (add_server_tools_ok r srv tls Hall (set_all inc ∅)) as (m' & -> & Hd).
    cbn. eexists. split; [reflexivity|].
    assert (Heq : list_to_set (keys (delete_all exc m'))
                  =@{gset string} spec_effective inc (tool_names tls) exc).
    { rewrite keys_dom, dom_delete_all, Hd, dom_set_all, dom_empty_L.
      unfold spec_effective. set_solver. }
    split; [apply keys_NoDup|]. split; [exact Heq|].
    intros t Ht Hin.
    assert (Hin' : t ∈@{gset string} list_to_set (keys (delete_all exc m')))
      by (by apply elem_of_list_to_set).
    rewrite Heq in Hin'. unfold spec_effective in Hin'. set_solver.
  - intros inc srv exc pls Hinc Hsrv Hexc Hall.
    unfold ResolveEffectivePrompts. rewrite Hinc, Hsrv, Hexc. cbn.
    destruct (add_server_prompts_ok r srv pls Hall (set_all inc ∅)) as (m' & -> & Hd).
    cbn. eexists. split; [reflexivity|].
    assert (Heq : list_to_set (keys (delete_all exc m'))
                  =@{gset string} spec_effective inc (prompt_names pls) exc).
    { rewrite keys_dom, dom_delete_all, Hd, dom_set_all, dom_empty_L.
      unfold spec_effective. set_solver. }
    split; [apply keys_NoDup|]. split; [exact Heq|].
    intros t Ht Hin.
    assert (Hin' : t ∈@{gset string} list_to_set (keys (delete_all exc m')))
      by (by apply elem_of_list_to_set).
    rewrite Heq in Hin'. unfold spec_effective in Hin'. set_solver.
Qed.
Import model_tests.

Lemma C8_resolve_effective_equation_witness :
  (exists eff,
      ResolveEffectiveTools mixed_group server_b = Ok eff
      /\ NoDup eff
      /\ list_to_set eff
         = spec_effective ["a__x"; "a__y"] [["b__z"; "b__w"]] ["a__y"; "b__z"]
      /\ (forall t, t ∈ ["a__y"; "b__z"] -> t ∉ eff))
  /\ (exists eff,
      ResolveEffectivePrompts mixed_group server_b = Ok eff
      /\ NoDup eff
      /\ list_to_set eff = spec_effective ["a__p"] [["b__q"; "b__r"]] ["b__q"]
      /\ (forall p, p ∈ ["b__q"] -> p ∉ eff)).
Proof.
  destruct (C8_resolve_effective_equation mixed_group server_b)
    as [tools prompts].
  split.
  - apply (tools ["a__x"; "a__y"] ["b"] ["a__y"; "b__z"]
             [[ {| Tool_Name := "b__z" |}; {| Tool_Name := "b__w" |} ]]);
      try reflexivity.
    repeat constructor.
  - apply (prompts ["a__p"] ["b"] ["b__q"]
             [[ {| Prompt_Name := "b__q" |}; {| Prompt_Name := "b__r" |} ]]);
      try reflexivity.
    repeat constructor.
Defined.
End resolve.

(* ===================================================================== *)
(** ** Access control of MCP clients                                      *)
(* ===================================================================== *)

Section acl.
Import model.

Lemma contains_elem_of (xs : list string) (y : string) :
  contains xs y = true <-> y ∈ xs.
Proof.
  induction xs as [|x xs IH]; cbn.
  - split; [discriminate | intros Hin; inversion Hin].
  - destruct (String.eqb_spec x y) as [->|Hne].
    + split; [intros _; left | done].
    + rewrite IH. split; [by right|].
      intros Hin. apply elem_of_cons in Hin as [->|]; [contradiction | done].
Qed.

(** What [splitServerToolName] returns are the two sides of a ["__"]. *)
Lemma splitServerToolName_sound (name serverName toolName : string) :
  splitServerToolName name = Some (serverName, toolName) ->
  name = serverName ++ "__" ++ toolName.
Proof.
  revert serverName.
  induction name as [|ch rest IH]; intros serverName; cbn; [discriminate|].
  destruct rest as [|ch' rest']; [discriminate|].
  destruct (Ascii.eqb_spec ch "_") as [->|_]; cbn [andb];
    [destruct (Ascii.eqb_spec ch' "_") as [->|_]; [intros [= <- <-]; reflexivity|]|];
    (destruct (splitServerToolName (String ch' rest')) as [[s t]|]; [|discriminate];
     intros [= <- <-];
     change (String ?c s ++ ?x) with (String c (s ++ x));
     f_equal; by apply IH).
Qed.

(** Every name of the form [s ++ "__" ++ t] is accepted. *)
Lemma splitServerToolName_canonical (s t : string) :
  is_Some (splitServerToolName (s ++ "__" ++ t)).
Proof.
  induction s as [|ch s IH]; [by eexists|].
  change (String ch s ++ "__" ++ t) with (String ch (s ++ "__" ++ t)).
  cbn [splitServerToolName].
  destruct (s ++ "__" ++ t) as [|ch' rest'] eqn:Hrest.
  { destruct s; cbv in Hrest; discriminate. }
  destruct (Ascii.eqb ch "_" && Ascii.eqb ch' "_"); [by eexists|].
  destruct IH as [[srv tl] ->]. by eexists.
Qed.

Lemma toolExistsInAllowedGroups_true_iff toolName groups checker resolver :
  toolExistsInAllowedGroups toolName groups checker resolver = Ok true
  <-> exists (before : list string) g after,
        groups = (before ++ g :: after)%list
        /\ Forall (group_passable checker resolver) before
        /\ group_offers checker resolver toolName g.
Proof.
  induction groups as [|g0 groups IH]; cbn.
  - split; [discriminate|]. intros (before & g & after & Heq & _).
    destruct before; discriminate.
  - destruct (GetToolGroup checker g0) as [grp|msg] eqn:Hg.
    + destruct (ResolveEffectiveTools grp resolver) as [eff|msg] eqn:Hr; cbn.
      * destruct (contains eff toolName) eqn:Hc.
        -- split; [intros _|done].
           exists [], g0, groups. split; [done|]. split; [constructor|].
           exists grp, eff. by rewrite <- contains_elem_of.
        -- rewrite IH. split.
           ++ intros (before & g & after & -> & Hpass & Hoff).
              exists (g0 :: before), g, after. split; [done|]. split; [|done].
              constructor; [|done]. unfold group_passable. rewrite Hg. eauto.
           ++ intros (before & g & after & Heq & Hpass & Hoff).
              destruct before as [|b before]; cbn in Heq.
              ** injection Heq as <- <-. destruct Hoff as (grp' & eff' & Hg' & Hr' & Hin).
                 rewrite Hg in Hg'. injection Hg' as <-. rewrite Hr in Hr'.
                 injection Hr' as <-. apply contains_elem_of in Hin. congruence.
              ** injection Heq as <- ->. inversion Hpass; subst.
                 exists before, g, after. done.
      * split; [discriminate|].
        intros (before & g & after & Heq & Hpass & Hoff).
        destruct before as [|b before]; cbn in Heq.
        -- injection Heq as <- <-. destruct Hoff as (grp' & eff' & Hg' & Hr' & _).
           rewrite Hg in Hg'. injection Hg' as <-. congruence.
        -- injection Heq as <- ->. inversion Hpass as [|? ? Hb _]; subst.
           unfold group_passable in Hb. rewrite Hg in Hb. destruct Hb as [eff' Hr'].
           congruence.
    + rewrite IH. split.
      * intros (before & g & after & -> & Hpass & Hoff).
        exists (g0 :: before), g, after. split; [done|]. split; [|done].
        constructor; [|done]. unfold group_passable. by rewrite Hg.
      * intros (before & g & after & Heq & Hpass & Hoff).
        destruct before as [|b before]; cbn in Heq.
        -- injection Heq as <- <-. destruct Hoff as (grp' & eff' & Hg' & _). congruence.
        -- injection Heq as <- ->. inversion Hpass; subst.
           exists before, g, after. done.
Qed.


Lemma CheckHasServerAccess_true_iff (c : McpClient) (serverName : string) :
  CheckHasServerAccess c serverName = true
  <-> exists allowed, mc_AllowList c = JSON_bytes (Ok allowed) /\ serverName ∈ allowed.
Proof.
  unfold CheckHasServerAccess.
  destruct (mc_AllowList c) as [|[allowed|msg]]; cbn.
  - split; [discriminate | intros (? & [=] & _)].
  - rewrite contains_elem_of. split; [eauto|]. by intros (? & [= <-] & ?).
  - split; [discriminate | intros (? & [=] & _)].
Qed.

(** C1 (as the code has it). With a non-empty [allowed_tool_groups] list,
    access to a tool is granted exactly when some listed group exists,
    resolves and has the tool in its effective set, and every listed group
    before it is missing or resolves without error (a listed group that
    exists but fails to resolve ends the check with an error); when all
    listed groups are missing or resolve, this is membership in the effective
    set of some listed existing group.  The allow list plays no part.  With
    an empty list, access to a name that splits at ["__"] is granted exactly
    when the server part is in the allow list. *)
Theorem C1_tool_access_groups_then_allow_list
    (c : McpClient) (toolName : string)
    (checker : ToolGroupToolChecker) (resolver : ToolGroupResolver)
    (groups : list string) :
  GetAllowedToolGroups c = Ok groups ->
  (groups <> [] ->
     (CheckHasToolAccess c toolName checker resolver = Ok true
      <-> exists (before : list string) g after,
            groups = (before ++ g :: after)%list
            /\ Forall (group_passable checker resolver) before
            /\ group_offers checker resolver toolName g)
     /\ (Forall (group_passable checker resolver) groups ->
         (CheckHasToolAccess c toolName checker resolver = Ok true
          <-> exists g, g ∈ groups /\ group_offers checker resolver toolName g))
     /\ (forall allow,
           CheckHasToolAccess (with_AllowList c allow) toolName checker resolver
           = CheckHasToolAccess c toolName checker resolver))
  /\ (groups = [] ->
      forall serverName rest,
        splitServerToolName toolName = Some (serverName, rest) ->
        (CheckHasToolAccess c toolName checker resolver = Ok true
         <-> exists allowed,
               mc_AllowList c = JSON_bytes (Ok allowed) /\ serverName ∈ allowed)).
Proof.
  intros Hgroups. split.
  - intros Hne.
    assert (Hcheck : forall c', GetAllowedToolGroups c' = Ok groups ->
              CheckHasToolAccess c' toolName checker resolver
              = toolExistsInAllowedGroups toolName groups checker resolver).
    { intros c' Hc'. unfold CheckHasToolAccess. rewrite Hc'. cbn.
      destruct groups; [contradiction | reflexivity]. }
    rewrite (Hcheck c Hgroups). split; [apply toolExistsInAllowedGroups_true_iff|].
    split.
    + intros Hall. rewrite toolExistsInAllowedGroups_true_iff. split.
      * intros (before & g & after & -> & _ & Hoff). exists g. split; [|done].
        apply elem_of_app. right. left.
      * intros (g & Hin & Hoff).
        apply list_elem_of_split in Hin as (before & after & ->).
        exists before, g, after. split; [done|]. split; [|done].
        by apply Forall_app in Hall as [? _].
    + intros allow. apply Hcheck. exact Hgroups.
  - intros -> serverName rest Hsplit.
    unfold CheckHasToolAccess. rewrite Hgroups. cbn. rewrite Hsplit.
    rewrite <- CheckHasServerAccess_true_iff.
    split; [by intros [= ->] | by intros ->].
Qed.

Import model_tests.

(** The precedence scenario: allow list [server2], groups [group1]. *)
Lemma C1_tool_access_groups_then_allow_list_witness :
  (CheckHasToolAccess (client ["group1"] ["server2"]) "server2__tool1" checker resolver
     = Ok true
   <-> exists g, g ∈ ["group1"] /\ group_offers checker resolver "server2__tool1" g)
  /\ (CheckHasToolAccess (client [] ["server3"]) "server3__tool1" checker resolver
        = Ok true
      <-> exists allowed,
            mc_AllowList (client [] ["server3"]) = JSON_bytes (Ok allowed)
            /\ "server3" ∈ allowed).
Proof.
  split.
  - apply (C1_tool_access_groups_then_allow_list
             (client ["group1"] ["server2"]) "server2__tool1" checker resolver ["group1"]).
    + reflexivity.
    + discriminate.
    + repeat constructor. unfold group_passable. cbn. eexists. reflexivity.
  - apply (C1_tool_access_groups_then_allow_list
             (client [] ["server3"]) "server3__tool1" checker resolver [] eq_refl)
      with (rest := "tool1"); reflexivity.
Defined.

(** The claim as written (with a non-empty list, access iff some listed
    existing group has the tool in its effective set) fails when an earlier
    listed group exists but cannot be resolved. *)
Lemma C1_counterexample_failed_group_blocks_later_groups :
  ~ (forall (c : McpClient) (toolName : string)
            (checker : ToolGroupToolChecker) (resolver : ToolGroupResolver)
            (groups : list string),
       GetAllowedToolGroups c = Ok groups -> groups <> [] ->
       (CheckHasToolAccess c toolName checker resolver = Ok true
        <-> exists g, g ∈ groups /\ group_offers checker resolver toolName g)).
Proof.
  intros claim.
  destruct (claim (client ["g1"; "g2"] []) "s__t" checker_down resolver_down ["g1"; "g2"]
              eq_refl ltac:(discriminate)) as [_ granted].
  assert (Hoff : exists g, g ∈ ["g1"; "g2"]
                           /\ group_offers checker_down resolver_down "s__t" g).
  { exists "g2". split; [right; left|].
    eexists _, _. split; [reflexivity|]. split; [vm_compute; reflexivity|]. left. }
  specialize (granted Hoff). vm_compute in granted. discriminate.
Qed.
End acl.

(* ===================================================================== *)
(** ** The upstream token supplier                                        *)
(* ===================================================================== *)

Section supplier.
Import model sys oauth_client.
Context `{GoLib}.

Lemma run_bind {A B} (p : Prog A) (f : A -> Prog B) (w : World) :
  run (bind p f) w = let '(a, w') := run p w in run (f a) w'.
Proof.
  revert w. induction p as [a|e k IH]; intros w; cbn; [reflexivity|].
  destruct (handle e w) as [x w']. apply IH.
Qed.

Lemma run_mbind {A B} (p : Prog A) (f : A -> Prog B) (w : World) :
  run (p ≫= f) w = let '(a, w') := run p w in run (f a) w'.
Proof. apply run_bind. Qed.

(** When the code refreshes. *)
Lemma NeedsRefresh_true_iff (now : time.Time) (s : OAuthUpstreamSession) :
  NeedsRefresh now s = true
  <-> us_RefreshToken s <> ""
      /\ exists expiresAt, us_ExpiresAt s = Some expiresAt
                           /\ expiresAt - now < 5 * time.Minute.
Proof.
  unfold NeedsRefresh, IsAccessTokenExpired, time.After, time.Add.
  rewrite andb_true_iff, negb_true_iff.
  destruct (String.eqb_spec (us_RefreshToken s) "") as [->|Hne].
  - split; [intros [[=] _] | intros [Hc _]; contradiction].
  - destruct (us_ExpiresAt s) as [e|].
    + rewrite Z.ltb_lt. split.
      * intros [_ Hlt]. split; [done|]. exists e. split; [done|]. lia.
      * intros [_ (e' & [= <-] & Hlt)]. split; [done|]. lia.
    + split; [intros [_ [=]] | intros [_ (e' & [=] & _)]].
Qed.

Lemma run_NeedsRefresh_now (s : OAuthUpstreamSession) (w : World) :
  fst (run (NeedsRefresh_now s) w)
  = NeedsRefresh (clock (w_env w) (w_clock_reads w)) s
  /\ w_db (snd (run (NeedsRefresh_now s) w)) = w_db w
  /\ w_env (snd (run (NeedsRefresh_now s) w)) = w_env w
  /\ w_statements (snd (run (NeedsRefresh_now s) w)) = w_statements w
  /\ w_http_calls (snd (run (NeedsRefresh_now s) w)) = w_http_calls w
  /\ Forall (fun e => e = TimeNow)
       (drop (length (w_trace w)) (w_trace (snd (run (NeedsRefresh_now s) w)))).
Proof.
  unfold NeedsRefresh_now, NeedsRefresh, IsAccessTokenExpired.
  destruct (String.eqb (us_RefreshToken s) ""); cbn.
  - rewrite drop_all. repeat split; constructor.
  - destruct (us_ExpiresAt s); cbn.
    + rewrite drop_app_length. repeat split. repeat constructor.
    + rewrite drop_all. repeat split; constructor.
Qed.

Lemma first_key {A} (key : A -> string) (v : string) (table : list A) (r : A) :
  first key v table = Found r -> key r = v.
Proof.
  unfold first. destruct (find _ table) as [r'|] eqn:Hf; [|discriminate].
  intros [= ->]. apply find_some in Hf as [_ Heq]. by apply String.eqb_eq.
Qed.

(** Saving a session that was just read puts it where lookups by name find it. *)
Lemma first_after_save (s s' : OAuthUpstreamSession) (name : string)
    (table : list OAuthUpstreamSession) :
  first us_McpServerName name table = Found s ->
  us_ID s' = us_ID s -> us_McpServerName s' = name ->
  exists table', save_session s' table = (None, table')
                 /\ first us_McpServerName name table' = Found s'.
Proof.
  intros Hfirst Hid Hname. unfold save_session.
  assert (Hin : In s table /\ us_McpServerName s = name).
  { unfold first in Hfirst. destruct (find _ table) as [r|] eqn:Hf; [|discriminate].
    injection Hfirst as ->. apply find_some in Hf as [Hin Heq].
    split; [done|]. by apply String.eqb_eq. }
  destruct Hin as [Hin Hsname].
  assert (Hex : existsb (fun r => N.eqb (us_ID r) (us_ID s')) table = true).
  { apply existsb_exists. exists s. split; [done|]. rewrite Hid. apply N.eqb_refl. }
  rewrite Hex. eexists. split; [reflexivity|].
  clear Hex. unfold first in *.
  induction table as [|r table IH]; cbn in *; [contradiction|].
  destruct (N.eqb (us_ID r) (us_ID s')) eqn:Hr.
  - rewrite Hname, String.eqb_refl. reflexivity.
  - destruct (String.eqb (us_McpServerName r) name) eqn:Hrn.
    + injection Hfirst as ->. rewrite Hid, N.eqb_refl in Hr. discriminate.
    + destruct Hin as [->|Hin].
      * rewrite Hsname, String.eqb_refl in Hrn. discriminate.
      * apply IH; assumption.
Qed.

Lemma supplier_found (serverName : string) (w : World) (s : OAuthUpstreamSession) :
  db_fault (w_env w) (w_statements w) = None ->
  first us_McpServerName serverName (oauth_upstream_sessions (w_db w)) = Found s ->
  run (GetOrRefreshUpstreamToken serverName) w
  = run (needsRefresh ← NeedsRefresh_now s;
         if negb needsRefresh then mret (Ok (us_AccessToken s))
         else if String.eqb (us_RefreshToken s) "" then
           mret (Err "access token expired and no refresh token available")
         else
           tokenResp ← RefreshAccessToken (us_TokenEndpoint s) (us_ClientID s)
                         (us_ClientSecret s) (us_RefreshToken s) (us_ResourceURI s);
           match tokenResp with
           | Err msg => mret (Err ("failed to refresh access token: " ++ msg))
           | Ok tokenResp =>
               now ← perform TimeNow;
               let expiresAt := time.Add now (time.Seconds (tr_ExpiresIn tokenResp)) in
               let session := refreshed s tokenResp expiresAt in
               saved ← perform (SaveUpstreamSession session);
               match saved with
               | Some msg => mret (Err ("failed to update OAuth session: " ++ msg))
               | None => mret (Ok (us_AccessToken session))
               end
           end)
      (after_statement (w_db w) (record_event (FirstUpstreamSession serverName) w)).
Proof.
  intros Hok Hfound. unfold GetOrRefreshUpstreamToken.
  cbn [mbind Prog_bind perform bind run handle]. unfold statement.
  cbn [record_event w_env w_statements w_db]. rewrite Hok, Hfound. reflexivity.
Qed.

Lemma supplier_never_reports_missing_refresh_token (serverName : string) (w : World) :
  fst (run (GetOrRefreshUpstreamToken serverName) w)
  <> Err "access token expired and no refresh token available".
Proof.
  unfold GetOrRefreshUpstreamToken.
  cbn [mbind Prog_bind perform bind run handle]. unfold statement.
  destruct (db_fault _ _) as [msg|]; [cbn; discriminate|].
  destruct (first _ _ _) as [s| |msg]; [|cbn; discriminate..].
  unfold NeedsRefresh_now.
  destruct (String.eqb (us_RefreshToken s) "") eqn:Hrt; [cbn; discriminate|].
  destruct (us_ExpiresAt s) as [e|] eqn:He; [|cbn; discriminate].
  cbn [mbind Prog_bind perform bind run handle mret Prog_ret].
  destruct (negb (NeedsRefresh _ s)); [cbn; discriminate|].
  unfold RefreshAccessToken.
  destruct (negb (url_Parse_ok _)); [cbn; discriminate|].
  cbn [mbind Prog_bind perform bind run handle mret Prog_ret].
  destruct (http _ _ _) as [msg|status body [tr|msg]];
    cbn [mbind Prog_bind perform bind run handle mret Prog_ret fst];
    [discriminate| |destruct (negb (status =? 200)); cbn; discriminate].
  destruct (negb (status =? 200)); [cbn; discriminate|].
  cbn [mbind Prog_bind perform bind run handle mret Prog_ret]. unfold statement.
  destruct (db_fault _ _) as [msg|]; [cbn; discriminate|].
  destruct (save_session _ _) as [[msg|] table]; cbn; discriminate.
Qed.

(** C4 (as the code has it).  Provided the lookup statement executes:
    without a stored session the supplier fails with "no OAuth session found
    for server X"; with a session that does not need refresh it returns the
    stored access token and leaves the tables alone; with a session that
    needs refresh, when the upstream answers 200 with a decodable body and
    the save executes, it returns the new access token and the session found
    under that name afterwards is the refreshed one.  A session needs refresh
    exactly when its refresh token is not empty, an expiry is recorded, and
    [expires_at - now] is strictly less than five minutes.  The error "access
    token expired and no refresh token available" is never returned. *)
Theorem C4_get_or_refresh_contract (serverName : string) (w : World) :
  let now := clock (w_env w) (w_clock_reads w) in
  let stored := first us_McpServerName serverName (oauth_upstream_sessions (w_db w)) in
  let out := run (GetOrRefreshUpstreamToken serverName) w in
  (db_fault (w_env w) (w_statements w) = None ->
   (stored = ErrRecordNotFound ->
      fst out = Err ("no OAuth session found for server " ++ serverName))
   /\ (forall s, stored = Found s -> NeedsRefresh now s = false ->
         fst out = Ok (us_AccessToken s) /\ w_db (snd out) = w_db w)
   /\ (forall s body tokenResp,
         stored = Found s -> NeedsRefresh now s = true ->
         url_Parse_ok (us_TokenEndpoint s) = true ->
         http (w_env w) (w_http_calls w) (session_refresh_request s)
           = HTTPResponse 200 body (Ok tokenResp) ->
         db_fault (w_env w) (S (w_statements w)) = None ->
         fst out = Ok (tr_AccessToken tokenResp)
         /\ first us_McpServerName serverName (oauth_upstream_sessions (w_db (snd out)))
            = Found (refreshed s tokenResp
                       (time.Add (clock (w_env w) (S (w_clock_reads w)))
                                 (time.Seconds (tr_ExpiresIn tokenResp))))))
  /\ (forall t s,
        NeedsRefresh t s = true
        <-> us_RefreshToken s <> ""
            /\ exists expiresAt, us_ExpiresAt s = Some expiresAt
                                 /\ expiresAt - t < 5 * time.Minute)
  /\ fst out <> Err "access token expired and no refresh token available".
Proof.
  intros now stored out.
  split; [|split; [intros; apply NeedsRefresh_true_iff
                  |apply supplier_never_reports_missing_refresh_token]].
  intros Hok. split; [|split].
  - intros Hnone. subst out. unfold GetOrRefreshUpstreamToken.
    cbn [mbind Prog_bind perform bind run handle]. unfold statement.
    cbn [record_event w_env w_statements w_db]. rewrite Hok.
    fold stored. rewrite Hnone. reflexivity.
  - intros s Hs Hno. subst out. rewrite (supplier_found serverName w s Hok Hs).
    set (w1 := after_statement _ _).
    change (run (_ ← NeedsRefresh_now s; _) w1)
      with (run (bind (NeedsRefresh_now s) (fun needsRefresh =>
              if negb needsRefresh then mret (Ok (us_AccessToken s)) else
              if String.eqb (us_RefreshToken s) "" then
                mret (Err "access token expired and no refresh token available")
              else
                tokenResp ← RefreshAccessToken (us_TokenEndpoint s) (us_ClientID s)
                              (us_ClientSecret s) (us_RefreshToken s) (us_ResourceURI s);
                match tokenResp with
                | Err msg => mret (Err ("failed to refresh access token: " ++ msg))
                | Ok tokenResp =>
                    now ← perform TimeNow;
                    let expiresAt := time.Add now (time.Seconds (tr_ExpiresIn tokenResp)) in
                    let session := refreshed s tokenResp expiresAt in
                    saved ← perform (SaveUpstreamSession session);
                    match saved with
                    | Some msg => mret (Err ("failed to update OAuth session: " ++ msg))
                    | None => mret (Ok (us_AccessToken session))
                    end
                end)) w1).
    rewrite run_bind.
    destruct (run_NeedsRefresh_now s w1) as (Hfst & Hdb & _).
    destruct (run (NeedsRefresh_now s) w1) as [needs w2]. cbn [fst snd] in *.
    subst needs. subst w1. cbn [after_statement record_event w_env w_clock_reads] in *.
    fold now. rewrite Hno. cbn. split; [reflexivity | exact Hdb].
  - intros s body tokenResp Hs Hyes Hurl Hhttp Hsave. subst out.
    rewrite (supplier_found serverName w s Hok Hs).
    pose proof Hyes as Hyes'. apply NeedsRefresh_true_iff in Hyes' as [Hrt (e & He & _)].
    apply String.eqb_neq in Hrt.
    unfold NeedsRefresh_now. rewrite Hrt, He.
    cbn [mbind Prog_bind perform bind run handle mret Prog_ret
         after_statement record_event after_clock_read w_env w_clock_reads].
    fold now. rewrite Hyes. cbn [negb].
    unfold RefreshAccessToken. rewrite Hurl. cbn [negb].
    cbn [mbind Prog_bind perform bind run handle mret Prog_ret
         after_statement record_event after_clock_read after_http_call
         w_env w_clock_reads w_http_calls].
    unfold session_refresh_request in Hhttp. rewrite Hhttp.
    cbn [negb Z.eqb Pos.eqb].
    cbn [mbind Prog_bind perform bind run handle mret Prog_ret
         after_statement record_event after_clock_read after_http_call
         w_env w_clock_reads w_http_calls w_statements w_db].
    unfold statement.
    cbn [after_statement record_event after_clock_read after_http_call
         w_env w_clock_reads w_http_calls w_statements w_db].
    rewrite Hsave.
    set (s' := refreshed s tokenResp _).
    destruct (first_after_save s s' serverName (oauth_upstream_sessions (w_db w)) Hs
                eq_refl) as (table' & Hsaved & Hfirst).
    { cbn [refreshed us_McpServerName]. exact (first_key _ _ _ _ Hs). }
    rewrite Hsaved. cbn. split; [reflexivity | exact Hfirst].
Qed.

(** C10. A session with no recorded expiry is never expired and never needs
    refresh, whatever its refresh token; once the lookup has found it, the
    supplier returns the stored access token, performs no other event (no
    clock read, no HTTP call, no save) and leaves the tables alone. *)
Theorem C10_no_expiry_returns_stored_token
    (serverName : string) (w : World) (s : OAuthUpstreamSession) :
  us_ExpiresAt s = None ->
  (forall now, IsAccessTokenExpired now s = false /\ NeedsRefresh now s = false)
  /\ (db_fault (w_env w) (w_statements w) = None ->
      first us_McpServerName serverName (oauth_upstream_sessions (w_db w)) = Found s ->
      let out := run (GetOrRefreshUpstreamToken serverName) w in
      fst out = Ok (us_AccessToken s)
      /\ w_db (snd out) = w_db w
      /\ w_http_calls (snd out) = w_http_calls w
      /\ w_trace (snd out) = (w_trace w ++ [FirstUpstreamSession serverName])%list).
Proof.
  intros Hnil. split.
  - intros now. unfold NeedsRefresh, IsAccessTokenExpired. rewrite Hnil.
    split; [reflexivity | apply andb_false_r].
  - intros Hok Hs out. subst out. rewrite (supplier_found serverName w s Hok Hs).
    unfold NeedsRefresh_now. rewrite Hnil.
    destruct (String.eqb (us_RefreshToken s) ""); cbn; done.
Qed.
End supplier.

Section supplier_examples.
Import model sys oauth_client examples.

Lemma C4_get_or_refresh_contract_witness :
  fst (run (GetOrRefreshUpstreamToken (H:=toy_lib) "up") world_due) = Ok "new-access"
  /\ first us_McpServerName "up"
       (oauth_upstream_sessions
          (w_db (snd (run (GetOrRefreshUpstreamToken (H:=toy_lib) "up") world_due))))
     = Found (refreshed (session "rt" (Some (minutes 1000))) fresh_tokens
                (time.Add (minutes 996) (time.Seconds 3600))).
Proof.
  destruct (C4_get_or_refresh_contract (H:=toy_lib) "up" world_due) as [executed _].
  destruct (executed eq_refl) as (_ & _ & refreshes).
  apply (refreshes (session "rt" (Some (minutes 1000))) "" fresh_tokens); reflexivity.
Defined.

(** The claim as written puts the threshold at [expires_at - now <= 5 min];
    exactly five minutes before expiry the code does not refresh. *)
Lemma C4_counterexample_exactly_five_minutes :
  ~ (forall (now : time.Time) (s : OAuthUpstreamSession) (expiresAt : time.Time),
       us_ExpiresAt s = Some expiresAt ->
       (NeedsRefresh now s = true
        <-> us_RefreshToken s <> "" /\ expiresAt - now <= 5 * time.Minute)).
Proof.
  intros claim.
  destruct (claim (minutes 995) (session "rt" (Some (minutes 1000))) (minutes 1000) eq_refl)
    as [_ due].
  assert (Hdue : NeedsRefresh (minutes 995) (session "rt" (Some (minutes 1000))) = true).
  { apply due. split; [discriminate|]. vm_compute. discriminate. }
  vm_compute in Hdue. discriminate.
Qed.

(** At that instant the supplier hands out the stored token. *)
Example supplier_exactly_five_minutes :
  get_token (minutes 995) (one_session (session "rt" (Some (minutes 1000))))
  = Ok "old-access".
Proof. vm_compute. reflexivity. Qed.

Lemma C10_no_expiry_returns_stored_token_witness :
  let w := initial (calm (minutes 2000)) (one_session (session "rt" None)) in
  let out := run (GetOrRefreshUpstreamToken (H:=toy_lib) "up") w in
  (forall now, IsAccessTokenExpired now (session "rt" None) = false
               /\ NeedsRefresh now (session "rt" None) = false)
  /\ fst out = Ok "old-access"
  /\ w_db (snd out) = w_db w
  /\ w_http_calls (snd out) = w_http_calls w
  /\ w_trace (snd out) = (w_trace w ++ [FirstUpstreamSession "up"])%list.
Proof.
  intros w out.
  destruct (C10_no_expiry_returns_stored_token (H:=toy_lib) "up" w (session "rt" None)
              eq_refl) as [never found].
  split; [exact never|]. apply found; reflexivity.
Defined.
End supplier_examples.

(* ===================================================================== *)
(** ** Revocation endpoint                                                *)
(* ===================================================================== *)

Section revocation.
Import model sys api.
Context `{GoLib}.

Lemma handle_trace (e : Event) (w : World) :
  w_trace (snd (handle e w)) = (w_trace w ++ [e])%list.
Proof.
  destruct e; cbn; try reflexivity; unfold statement; cbn;
    destruct (db_fault _ _); try reflexivity;
    repeat match goal with |- context [let '(_, _) := ?x in _] => destruct x end;
    reflexivity.
Qed.

(** C2 (as the code has it by design).  For a request that carries a token:
    when it carries no client id at all, neither in an HTTP Basic header nor
    in the form body, the answer is 400 [invalid_client] and nothing is
    looked up; with Basic credentials that do not validate it is 401
    [invalid_client] and no revocation is attempted; with Basic credentials
    that validate it is 200 whether or not the token exists, the first
    statement after the validation is the access-token revocation, and a
    refresh-token revocation, when there is one, comes right after it.
    Nothing is said of a request whose credentials are in the form body
    only. *)
Theorem C2_revoke_needs_client_then_200 (c : RevokeRequest) (w : World) :
  r_Token c <> "" ->
  let creds := extractClientCredentials (r_Authorization c) "" "" in
  let validated := run (oauth.ValidateClientCredentials (fst creds) (snd creds)) w in
  let out := run (OAuthRevokeHandler c) w in
  (fst creds = "" -> r_client_id c = "" ->
     out = (JSON 400 (oauth_error "invalid_client" "Client authentication required"), w))
  /\ (fst creds <> "" -> forall msg, fst validated = Err msg ->
        out = (JSON 401 (oauth_error "invalid_client" "Invalid client credentials"),
               snd validated))
  /\ (fst creds <> "" -> forall client, fst validated = Ok client ->
        fst out = Status 200
        /\ exists rest,
             w_trace (snd out)
             = (w_trace (snd validated) ++ UpdateAccessTokenRevoked (r_Token c) :: rest)%list
             /\ (rest = []
                 \/ rest = [UpdateRefreshTokenRevoked (r_Token c)]
                 \/ rest = [UpdateRefreshTokenRevoked (r_Token c);
                            Log "debug" "Token revocation attempted for non-existent token"])).
Proof.
  intros Htok creds validated out. subst out. unfold OAuthRevokeHandler.
  apply String.eqb_neq in Htok. rewrite Htok.
  fold creds. destruct creds as [clientID clientSecret] eqn:Hcreds. cbn [fst snd] in *.
  split; [|split].
  - intros -> _. reflexivity.
  - intros Hid msg Hv. apply String.eqb_neq in Hid. rewrite Hid.
    rewrite run_mbind. fold validated. destruct validated as [v w1]. cbn [fst snd] in *.
    subst v. reflexivity.
  - intros Hid client Hv. apply String.eqb_neq in Hid. rewrite Hid.
    rewrite run_mbind. fold validated. destruct validated as [v w1]. cbn [fst snd] in *.
    subst v.
    cbn [oauth.RevokeAccessToken oauth.RevokeRefreshToken
         mbind Prog_bind perform bind run mret Prog_ret].
    pose proof (handle_trace (UpdateAccessTokenRevoked (r_Token c)) w1) as Ht1.
    destruct (handle (UpdateAccessTokenRevoked (r_Token c)) w1) as [[msg|] w2];
      cbn [fst snd] in *.
    + cbn [mbind Prog_bind perform bind run mret Prog_ret].
      pose proof (handle_trace (UpdateRefreshTokenRevoked (r_Token c)) w2) as Ht2.
      destruct (handle (UpdateRefreshTokenRevoked (r_Token c)) w2) as [[msg2|] w3];
        cbn [fst snd] in *.
      * cbn. split; [reflexivity|]. eexists. split.
        -- rewrite Ht2, Ht1, <- !app_assoc. reflexivity.
        -- right. right. reflexivity.
      * cbn. split; [reflexivity|]. eexists. split.
        -- rewrite Ht2, Ht1, <- !app_assoc. reflexivity.
        -- right. left. reflexivity.
    + cbn. split; [reflexivity|]. exists []. split; [exact Ht1 | left; reflexivity].
Qed.
End revocation.

Section revocation_examples.
Import model sys api examples.

Lemma C2_revoke_needs_client_then_200_witness :
  let c := revoke "bogus" "Basic A:s3cret" in
  let out := run (OAuthRevokeHandler (H:=toy_lib) c) world0 in
  fst out = Status 200
  /\ exists rest,
       w_trace (snd out)
       = (w_trace (snd (run (oauth.ValidateClientCredentials (H:=toy_lib) "A" "s3cret")
                          world0))
          ++ UpdateAccessTokenRevoked "bogus" :: rest)%list
       /\ (rest = []
           \/ rest = [UpdateRefreshTokenRevoked "bogus"]
           \/ rest = [UpdateRefreshTokenRevoked "bogus";
                      Log "debug" "Token revocation attempted for non-existent token"]).
Proof.
  intros c out.
  destruct (C2_revoke_needs_client_then_200 (H:=toy_lib) c world0) as (_ & _ & valid).
  - discriminate.
  - apply (valid ltac:(discriminate) client_A). reflexivity.
Defined.

(** The claim as written promises 200 to every request that carries a token;
    a request without client credentials gets 400. *)
Lemma C2_counterexample_no_client_credentials :
  ~ (forall (c : RevokeRequest) (w : World),
       r_Token c <> "" ->
       fst (run (OAuthRevokeHandler (H:=toy_lib) c) w) = Status 200).
Proof.
  intros claim.
  specialize (claim (revoke "bogus" "") world0 ltac:(discriminate)).
  vm_compute in claim. discriminate.
Qed.

(** No credentials at all get 400, wrong Basic credentials get 401. *)
Example revoke_without_valid_basic_header :
  fst (run (OAuthRevokeHandler (H:=toy_lib) (revoke "bogus" "")) world0)
  = JSON 400 (oauth_error "invalid_client" "Client authentication required")
  /\ fst (run (OAuthRevokeHandler (H:=toy_lib) (revoke "bogus" "Basic A:wrong")) world0)
     = JSON 401 (oauth_error "invalid_client" "Invalid client credentials").
Proof. split; vm_compute; reflexivity. Qed.

(** The request of the repository's OAuth test script, which sends the
    client's credentials in the form body as the token and introspection
    endpoints accept them: this handler passes empty body values to
    [extractClientCredentials] and answers 400.  C2 leaves this request
    out. *)
Example revoke_with_body_credentials :
  fst (run (OAuthRevokeHandler (H:=toy_lib) (revoke_post "bogus" "A" "s3cret")) world0)
  = JSON 400 (oauth_error "invalid_client" "Client authentication required").
Proof. vm_compute. reflexivity. Qed.

(** With statements that execute, the access-token update reports no error
    for a value that is not an access token, so the refresh-token update is
    not reached: a presented refresh token stays unrevoked. *)
Example revoke_refresh_token_not_reached :
  let w := initial (calm 0) (set_refresh_tokens registered [refresh_R]) in
  let out := run (OAuthRevokeHandler (H:=toy_lib) (revoke "R" "Basic A:s3cret")) w in
  fst out = Status 200
  /\ w_trace (snd out) = [FirstOAuthClient "A"; UpdateAccessTokenRevoked "R"]
  /\ oauth_refresh_tokens (w_db (snd out)) = [refresh_R].
Proof. repeat split; vm_compute; reflexivity. Qed.
End revocation_examples.

(* ===================================================================== *)
(** ** Authorization endpoint                                             *)
(* ===================================================================== *)

Section authorize.
Import model sys api.
Context `{GoLib}.

Lemma validate_each_error (allowed requested validated : list string) (msg : string) :
  oauth.validate_each allowed requested validated = Err msg -> msg <> "".
Proof.
  revert validated. induction requested as [|scope rest IH]; intros validated; cbn.
  - discriminate.
  - destruct (String.eqb (strings_TrimSpace scope) ""); [apply IH|].
    destruct (contains allowed (strings_TrimSpace scope)); [apply IH|].
    intros [= <-]. discriminate.
Qed.

Lemma ValidateScopes_error (client : OAuthClient) (scope msg : string) :
  oauth.ValidateScopes client scope = Err msg -> msg <> "".
Proof.
  unfold oauth.ValidateScopes, wrap.
  destruct (json_Unmarshal (oc_Scopes client)) as [allowed|m].
  - destruct (length allowed =? 0)%nat; [discriminate|].
    destruct (oauth.validate_each allowed _ []) as [v|m] eqn:Hv; [discriminate|].
    intros [= <-]. apply validate_each_error in Hv. exact Hv.
  - intros [= <-]. discriminate.
Qed.

(** What an error redirect carries. *)
Lemma redirectError_shape (uri state code description : string) :
  description <> "" ->
  redirectError uri state code description
  = if url_Parse_ok uri then
      Redirect 302 uri
        ([("error", code); ("error_description", description)]
         ++ if String.eqb state "" then [] else [("state", state)])%list
    else JSON 400 (oauth_error "invalid_request" "Invalid redirect_uri").
Proof.
  intros Hd. apply String.eqb_neq in Hd. unfold redirectError.
  destruct (url_Parse_ok uri); cbn [negb]; [|reflexivity].
  rewrite Hd. cbn [negb]. destruct (String.eqb state ""); reflexivity.
Qed.

(** C6 (as the code has it).  At the authorization endpoint the JSON 400
    answers are: a missing [client_id], [redirect_uri] or [response_type]; a
    [redirect_uri] that is not registered for the client; and any error whose
    [redirect_uri] does not parse.  Every other error goes through
    [redirectError]: a bad [response_type], missing PKCE, a method other than
    S256 and an unknown client (all before the redirect URI is validated), and
    scope, authentication and code-issuance failures (after it).  For a
    [redirect_uri] that parses, [redirectError] answers 302 to that URI with
    [error], the non-empty [error_description], and [state] when it is not
    empty. *)
Theorem C6_authorize_error_delivery (c : AuthorizeRequest) (w : World) :
  let out := fst (run (OAuthAuthorizeHandler c) w) in
  let to_client := redirectError (q_redirect_uri c) (q_state c) in
  let looked_up := run (oauth.GetClient (q_client_id c)) w in
  (missing_parameters c = true ->
     out = JSON 400 (oauth_error "invalid_request" "Missing required parameters"))
  /\ (missing_parameters c = false -> q_response_type c <> "code" ->
        out = to_client "unsupported_response_type"
                "Only authorization_code flow is supported")
  /\ (missing_parameters c = false -> q_response_type c = "code" ->
        q_code_challenge c = "" \/ q_code_challenge_method c = "" ->
        out = to_client "invalid_request"
                "PKCE is required: code_challenge and code_challenge_method must be provided")
  /\ (missing_parameters c = false -> q_response_type c = "code" ->
        q_code_challenge c <> "" -> q_code_challenge_method c <> "" ->
        q_code_challenge_method c <> "S256" ->
        out = to_client "invalid_request" "Only S256 code_challenge_method is supported")
  /\ (parameters_ok c = true ->
        (forall client, fst looked_up <> Ok (Some client)) ->
        out = to_client "invalid_client" "Client not found")
  /\ (parameters_ok c = true ->
        forall client, fst looked_up = Ok (Some client) ->
          (oauth.ValidateRedirectURI client (q_redirect_uri c) = false ->
             out = JSON 400 (oauth_error "invalid_request" "Invalid redirect_uri"))
          /\ (oauth.ValidateRedirectURI client (q_redirect_uri c) = true ->
              (forall msg, oauth.ValidateScopes client (q_scope c) = Err msg ->
                 msg <> "" /\ out = to_client "invalid_scope" msg)
              /\ (forall scope, oauth.ValidateScopes client (q_scope c) = Ok scope ->
                    (ctx_user_id c = Absent ->
                       out = to_client "access_denied" "User authentication required")
                    /\ (ctx_user_id c = NotUint ->
                          out = to_client "server_error" "Invalid user session")
                    /\ (forall userID msg, ctx_user_id c = Uint userID ->
                          fst (run (oauth.CreateAuthorizationCode (q_client_id c) userID
                                      (q_redirect_uri c) scope (q_code_challenge c)
                                      (q_code_challenge_method c)) (snd looked_up))
                          = Err msg ->
                          out = to_client "server_error"
                                  "Failed to generate authorization code"))))
  /\ (forall uri state code description,
        url_Parse_ok uri = true -> description <> "" ->
        redirectError uri state code description
        = Redirect 302 uri
            ([("error", code); ("error_description", description)]
             ++ if String.eqb state "" then [] else [("state", state)])%list).
Proof.
  intros out to_client looked_up. subst out to_client.
  unfold OAuthAuthorizeHandler, parameters_ok, missing_parameters.
  repeat match goal with |- _ /\ _ => split end.
  - intros ->. reflexivity.
  - intros -> Hrt. apply String.eqb_neq in Hrt. rewrite Hrt. reflexivity.
  - intros -> ->. cbn [String.eqb Ascii.eqb Bool.eqb negb].
    intros [-> | ->]; cbn [String.eqb orb]; [|rewrite orb_true_r]; reflexivity.
  - intros -> -> Hc Hm Hs. cbn [String.eqb Ascii.eqb Bool.eqb negb].
    apply String.eqb_neq in Hc, Hm, Hs. rewrite Hc, Hm, Hs. reflexivity.
  - intros Hok Hnot. apply andb_true_iff in Hok as [Hok Hm].
    apply andb_true_iff in Hok as [Hok Hc]. apply andb_true_iff in Hok as [Hmiss Hrt].
    apply negb_true_iff in Hmiss, Hc. apply String.eqb_eq in Hm.
    rewrite Hmiss, Hrt, Hc, Hm.
    change (String.eqb "S256" "") with false.
    change (String.eqb "S256" "S256") with true. cbn [negb orb].
    rewrite run_mbind. fold looked_up.
    destruct looked_up as [[[client|]|msg] w1]; cbn [fst] in *; try reflexivity.
    exfalso. by apply (Hnot client).
  - intros Hok client Hfound. apply andb_true_iff in Hok as [Hok Hm].
    apply andb_true_iff in Hok as [Hok Hc]. apply andb_true_iff in Hok as [Hmiss Hrt].
    apply negb_true_iff in Hmiss, Hc. apply String.eqb_eq in Hm.
    rewrite Hmiss, Hrt, Hc, Hm.
    change (String.eqb "S256" "") with false.
    change (String.eqb "S256" "S256") with true. cbn [negb orb].
    rewrite run_mbind. fold looked_up.
    destruct looked_up as [found w1]. cbn [fst snd] in *. subst found.
    split.
    + intros ->. reflexivity.
    + intros ->. cbn [negb]. split.
      * intros msg Hs. rewrite Hs. split; [by eapply ValidateScopes_error|reflexivity].
      * intros scope Hs. rewrite Hs. split; [|split].
        -- intros ->. reflexivity.
        -- intros ->. reflexivity.
        -- intros userID msg -> Hcode. rewrite run_mbind.
           destruct (run (oauth.CreateAuthorizationCode _ _ _ _ _ _) w1) as [code w2].
           cbn [fst] in Hcode. subst code. reflexivity.
  - intros uri state code description Hp Hd.
    rewrite (redirectError_shape uri state code description Hd), Hp. reflexivity.
Qed.
End authorize.

Section authorize_examples.
Import model sys api examples.

Lemma C6_authorize_error_delivery_witness :
  fst (run (OAuthAuthorizeHandler (H:=toy_lib)
              (authorize "token" "" "" "" "xyz" Absent)) world0)
  = redirectError (H:=toy_lib) "http://x/cb" "xyz" "unsupported_response_type"
      "Only authorization_code flow is supported"
  /\ fst (run (OAuthAuthorizeHandler (H:=toy_lib)
                 (authorize "code" "V" "S256" "mcp:read" "xyz" Absent)) world0)
     = redirectError (H:=toy_lib) "http://x/cb" "xyz" "access_denied"
         "User authentication required"
  /\ redirectError (H:=toy_lib) "http://x/cb" "xyz" "access_denied"
       "User authentication required"
     = Redirect 302 "http://x/cb"
         [("error", "access_denied");
          ("error_description", "User authentication required");
          ("state", "xyz")].
Proof.
  split; [|split].
  - destruct (C6_authorize_error_delivery (H:=toy_lib)
                (authorize "token" "" "" "" "xyz" Absent) world0)
      as (_ & bad_type & _).
    apply bad_type; [reflexivity | discriminate].
  - destruct (C6_authorize_error_delivery (H:=toy_lib)
                (authorize "code" "V" "S256" "mcp:read" "xyz" Absent) world0)
      as (_ & _ & _ & _ & _ & validated & _).
    destruct (validated eq_refl client_A eq_refl) as [_ registered_uri].
    destruct (registered_uri eq_refl) as [_ scope_ok].
    destruct (scope_ok "mcp:read" eq_refl) as [unauthenticated _].
    apply unauthenticated. reflexivity.
  - destruct (C6_authorize_error_delivery (H:=toy_lib)
                (authorize "token" "" "" "" "xyz" Absent) world0)
      as (_ & _ & _ & _ & _ & _ & shape).
    apply (shape "http://x/cb" "xyz" "access_denied" "User authentication required");
      [reflexivity | discriminate].
Defined.

(** The claim as written sends every error found before the client and the
    redirect URI are validated back as JSON 400; a bad [response_type] is
    answered with a redirect to the URI of the request, which nothing has
    checked yet. *)
Lemma C6_counterexample_bad_response_type_redirects :
  ~ (forall (c : AuthorizeRequest) (w : World),
       missing_parameters c = true
       \/ q_response_type c <> "code"
       \/ q_code_challenge c = "" \/ q_code_challenge_method c <> "S256" ->
       exists body, fst (run (OAuthAuthorizeHandler (H:=toy_lib) c) w) = JSON 400 body).
Proof.
  intros claim.
  destruct (claim {| q_client_id := "nobody"; q_redirect_uri := "http://elsewhere/cb";
                     q_response_type := "token"; q_scope := ""; q_state := "xyz";
                     q_code_challenge := ""; q_code_challenge_method := "";
                     ctx_user_id := Absent |} world0) as [body Hbody].
  - right. left. discriminate.
  - vm_compute in Hbody. discriminate.
Qed.

Example authorize_unchecked_redirects :
  fst (run (OAuthAuthorizeHandler (H:=toy_lib)
              {| q_client_id := "nobody"; q_redirect_uri := "http://elsewhere/cb";
                 q_response_type := "code"; q_scope := ""; q_state := "";
                 q_code_challenge := "V"; q_code_challenge_method := "plain";
                 ctx_user_id := Absent |}) world0)
  = Redirect 302 "http://elsewhere/cb"
      [("error", "invalid_request");
       ("error_description", "Only S256 code_challenge_method is supported")]
  /\ fst (run (OAuthAuthorizeHandler (H:=toy_lib)
                 {| q_client_id := "nobody"; q_redirect_uri := "http://elsewhere/cb";
                    q_response_type := "code"; q_scope := ""; q_state := "";
                    q_code_challenge := "V"; q_code_challenge_method := "S256";
                    ctx_user_id := Absent |}) world0)
     = Redirect 302 "http://elsewhere/cb"
         [("error", "invalid_client"); ("error_description", "Client not found")]
  /\ fst (run (OAuthAuthorizeHandler (H:=toy_lib)
                 {| q_client_id := "A"; q_redirect_uri := "http://elsewhere/cb";
                    q_response_type := "code"; q_scope := ""; q_state := "";
                    q_code_challenge := "V"; q_code_challenge_method := "S256";
                    ctx_user_id := Absent |}) world0)
     = JSON 400 (oauth_error "invalid_request" "Invalid redirect_uri").
Proof. repeat split; vm_compute; reflexivity. Qed.
End authorize_examples.

(* ===================================================================== *)
(** ** Authorization codes are exchanged once                             *)
(* ===================================================================== *)

Section single_use.
Import model sys api.

(** Once a stored code is used it stays used: no event rewrites a used row. *)
Lemma used_code_stays_used (e : Event) (w : World) (r : OAuthAuthorizationCode) :
  In r (oauth_authorization_codes (w_db w)) -> ac_Used r = true ->
  In r (oauth_authorization_codes (w_db (snd (handle e w)))).
Proof.
  intros Hin Hused.
  destruct e; cbn; try exact Hin; unfold statement; cbn;
    destruct (db_fault _ _); cbn; try exact Hin.
  - (* CreateAuthorizationCode *)
    unfold create. destruct (existsb _ _); cbn; [exact Hin|].
    apply in_or_app. by left.
  - (* UpdateAuthorizationCodeUsed *)
    unfold update_where. apply in_map_iff. exists r. split; [|exact Hin].
    destruct (String.eqb (ac_Code r) code); [|reflexivity].
    destruct r; cbn in *. by subst.
  - destruct (create _ _ _ _); exact Hin.
  - destruct (create _ _ _ _); exact Hin.
  - destruct (save_session _ _); exact Hin.
Qed.

(** A code that is found used is refused, and nothing is written. *)
Lemma used_code_is_refused `{GoLib} (client : OAuthClient) (req : OAuthTokenRequest)
    (w : World) (authCode : OAuthAuthorizationCode) :
  f_Code req <> "" -> f_RedirectURI req <> "" -> f_CodeVerifier req <> "" ->
  db_fault (w_env w) (w_statements w) = None ->
  first ac_Code (f_Code req) (oauth_authorization_codes (w_db w)) = Found authCode ->
  ac_Used authCode = true ->
  let out := run (handleAuthorizationCodeGrant client req) w in
  fst out = JSON 400 (oauth_error "invalid_grant"
                        "Authorization code expired or already used")
  /\ w_db (snd out) = w_db w.
Proof.
  intros Hc Hr Hv Hok Hfound Hused out. subst out.
  apply String.eqb_neq in Hc, Hr, Hv.
  unfold handleAuthorizationCodeGrant. rewrite Hc, Hr, Hv. cbn [orb].
  unfold oauth.GetAuthorizationCode.
  cbn [mbind Prog_bind perform bind run handle mret Prog_ret]. unfold statement.
  cbn [record_event w_env w_statements w_db]. rewrite Hok, Hfound.
  cbn [mbind Prog_bind perform bind run handle mret Prog_ret].
  rewrite Hused.
  cbn [mbind Prog_bind perform bind run handle mret Prog_ret].
  unfold OAuthAuthorizationCode_IsValid. rewrite Hused. cbn. split; reflexivity.
Qed.
End single_use.

Section single_use_examples.
Import model sys api examples concurrent.

(** C3, where the code departs from it.  (1) Two exchanges of the same code
    served in parallel, each reading the code before the other marks it, both
    end with 200 and a token pair.  (2) Served one after the other, when the
    update that marks the code fails, the failure is logged, tokens are
    issued, and the replay is answered with tokens again. *)
Theorem C3_code_exchanged_twice :
  (let '((first, second), w) :=
     interleave [true; false] exchange_K exchange_K (authorized_then (calm 0)) in
   first = tokens "random-2" "random-1"
   /\ second = tokens "random-4" "random-3"
   /\ length (oauth_access_tokens (w_db w)) = 2%nat)
  /\ (let '(first, w1) := run exchange_K (authorized_then mark_fails) in
      let '(second, w2) := run exchange_K w1 in
      first = tokens "random-2" "random-1"
      /\ second = tokens "random-4" "random-3"
      /\ In (Log "error" "Failed to mark authorization code as used: database is locked")
            (w_trace w1)).
Proof.
  split.
  - vm_compute. repeat split; reflexivity.
  - vm_compute. repeat split; try reflexivity. tauto.
Qed.
End single_use_examples.

(* ===================================================================== *)
(** ** Audit redaction                                                    *)
(* ===================================================================== *)

Section redaction.
Import audit.

(** Induction over payload values, with the hypothesis available for every
    element of a slice and every entry of a map or object. *)
Lemma Value_nested_ind (P : Value -> Prop) :
  P VNil -> (forall b, P (VBool b)) -> (forall n, P (VNumber n)) ->
  (forall s, P (VString s)) ->
  (forall xs, Forall P xs -> P (VSlice xs)) ->
  (forall entries, Forall (fun kv => P (snd kv)) entries -> P (VMap entries)) ->
  (forall fields, Forall (fun kv => P (snd kv)) fields -> P (VObject fields)) ->
  P VUnsupported ->
  forall v, P v.
Proof.
  intros Hnil Hbool Hnum Hstr Hslice Hmap Hobj Huns.
  fix IH 1. intros [ |b|n|s|xs|entries|fields| ].
  - exact Hnil.
  - apply Hbool.
  - apply Hnum.
  - apply Hstr.
  - apply Hslice. induction xs as [|x xs IHxs]; constructor; [apply IH | exact IHxs].
  - apply Hmap. induction entries as [|[k x] rest IHrest]; constructor;
      [apply IH | exact IHrest].
  - apply Hobj. induction fields as [|[k x] rest IHrest]; constructor;
      [apply IH | exact IHrest].
  - exact Huns.
Qed.

Lemma all_some_Forall2 {A B} (g : A -> option B) (l : list A) (l' : list B) :
  all_some (List.map g l) = Some l' -> Forall2 (fun x y => g x = Some y) l l'.
Proof.
  revert l'. induction l as [|x l IH]; intros l'; cbn.
  - intros [= <-]. constructor.
  - destruct (g x) as [y|] eqn:Hg; [|discriminate].
    destruct (all_some (List.map g l)) as [ys|]; [|discriminate].
    intros [= <-]. constructor; [exact Hg | by apply IH].
Qed.

Lemma filter_value_redacted (v : Value) : redacted_in_maps (filter_value v) = true.
Proof.
  induction v as [ | | | | |entries IH| | ] using Value_nested_ind; try reflexivity.
  cbn. induction entries as [|[k x] rest IHrest]; [reflexivity|].
  inversion IH as [|? ? Hx Hrest]; subst. cbn.
  destruct (sensitiveFields k) eqn:Hk; cbn; rewrite Hk.
  - by apply IHrest.
  - cbn in Hx. rewrite Hx. by apply IHrest.
Qed.

Lemma filter_value_clean (v : Value) :
  elsewhere_clean v = true ->
  forall d, json_Marshal (filter_value v) = Some d -> clean d = true.
Proof.
  induction v as [ | | | |xs _|entries IH|fields _| ] using Value_nested_ind;
    intros Hv d; try (cbn; intros [= <-]; reflexivity).
  - cbn [filter_value]. intros Hd. cbn [elsewhere_clean] in Hv. by rewrite Hd in Hv.
  - cbn [filter_value json_Marshal].
    destruct (all_some _) as [members|] eqn:Hm; [|discriminate]. intros [= <-].
    rewrite List.map_map in Hm. apply all_some_Forall2 in Hm.
    cbn [elsewhere_clean] in Hv. cbn [clean].
    induction Hm as [|[k x] [k' d'] rest members Hkx _ IHm]; [reflexivity|].
    inversion IH as [|? ? Hx Hrest]; subst.
    cbn [forallb] in Hv |- *. apply andb_true_iff in Hv as [Hhead Htail].
    rewrite (IHm Hrest Htail), andb_true_r.
    destruct (sensitiveFields k) eqn:Hk.
    + cbn in Hkx. injection Hkx as <- <-. rewrite Hk. reflexivity.
    + cbn [json_Marshal option_map] in Hkx. cbn in Hhead, Hx.
      destruct (json_Marshal (filter_value x)) as [dx|] eqn:Hdx; [|discriminate].
      cbn in Hkx. injection Hkx as <- <-. rewrite Hk. cbn. by apply Hx.
  - cbn [filter_value]. intros Hd. cbn [elsewhere_clean] in Hv. by rewrite Hd in Hv.
Qed.

Lemma marshalChanges_clean (changes : list (string * Value)) :
  elsewhere_clean (VMap changes) = true -> clean (marshalChanges changes) = true.
Proof.
  intros Hc. unfold marshalChanges.
  destruct (json_Marshal (VMap (filterSensitiveData changes))) as [d|] eqn:Hd;
    [|reflexivity].
  exact (filter_value_clean (VMap changes) Hc d Hd).
Qed.

Lemma logAsync_changes ctx entityType entityID entityName operation changes success err :
  al_Changes (logAsync ctx entityType entityID entityName operation changes success err)
  = changes.
Proof. destruct ctx; reflexivity. Qed.

(** C9 (as the code has it).  The changes stored by [LogCreate], [LogUpdate],
    [LogEnable] and [LogDisable] are the payload after [filterSensitiveData]
    ([LogCreate] wraps its payload under "created").  The filter replaces the
    value under each of the five keys by "[REDACTED]" at the top level and
    inside nested [map[string]interface{}] values, and stores slices as given.
    So the stored document has nothing but "[REDACTED]" under those keys
    whenever the slices and the values of other types held in the payload do
    not carry such keys themselves. *)
Theorem C9_redaction_follows_maps_only
    (ctx : option AuditContext) (entityType entityID entityName : string)
    (data : Value) (payload : list (string * Value)) :
  let created := al_Changes (LogCreate ctx entityType entityID entityName data) in
  let updated := al_Changes (LogUpdate ctx entityType entityID entityName payload) in
  let enabled := al_Changes (LogEnable ctx entityType entityID entityName payload) in
  let disabled := al_Changes (LogDisable ctx entityType entityID entityName payload) in
  (created = marshalChanges [("created", data)]
   /\ updated = marshalChanges payload
   /\ enabled = marshalChanges payload
   /\ disabled = marshalChanges payload)
  /\ redacted_in_maps (VMap (filterSensitiveData [("created", data)])) = true
  /\ redacted_in_maps (VMap (filterSensitiveData payload)) = true
  /\ (forall key xs, sensitiveFields key = false ->
        filterSensitiveData [(key, VSlice xs)] = [(key, VSlice xs)])
  /\ (elsewhere_clean data = true -> clean created = true)
  /\ (elsewhere_clean (VMap payload) = true ->
        clean updated = true /\ clean enabled = true /\ clean disabled = true).
Proof.
  intros created updated enabled disabled.
  subst created updated enabled disabled.
  unfold LogCreate, LogUpdate, LogEnable, LogDisable. rewrite !logAsync_changes.
  split; [repeat split|]. split; [|split; [|split; [|split]]].
  - exact (filter_value_redacted (VMap [("created", data)])).
  - exact (filter_value_redacted (VMap payload)).
  - intros key xs Hk. cbn. rewrite Hk. reflexivity.
  - intros Hd. apply marshalChanges_clean. cbn. by rewrite Hd.
  - intros Hp. repeat split; by apply marshalChanges_clean.
Qed.

Example TestFilterSensitiveDataNested :
  filterSensitiveData nested_payload
  = [ ("config", VMap [("name", VString "test");
                       ("access_token", VString "[REDACTED]")]);
      ("description", VString "test") ].
Proof. reflexivity. Qed.

Example TestFilterSensitiveData :
  filterSensitiveData
    [ ("name", VString "test"); ("access_token", VString "secret123");
      ("bearer_token", VString "bearer456"); ("password", VString "pass789");
      ("description", VString "safe data") ]
  = [ ("name", VString "test"); ("access_token", VString "[REDACTED]");
      ("bearer_token", VString "[REDACTED]"); ("password", VString "[REDACTED]");
      ("description", VString "safe data") ].
Proof. reflexivity. Qed.

Lemma C9_redaction_follows_maps_only_witness :
  clean (al_Changes (LogCreate None "mcp_server" "s" "s" (VMap nested_payload))) = true
  /\ clean (al_Changes (LogUpdate None "mcp_server" "s" "s" nested_payload)) = true.
Proof.
  destruct (C9_redaction_follows_maps_only None "mcp_server" "s" "s"
              (VMap nested_payload) nested_payload)
    as (_ & _ & _ & _ & create & update).
  split.
  - apply create. reflexivity.
  - apply update. reflexivity.
Defined.

(** The claim as written covers the whole stored document; a password inside
    an element of a list is stored as it came. *)
Lemma C9_counterexample_password_inside_list :
  ~ (forall (ctx : option AuditContext) (entityType entityID entityName : string)
            (payload : list (string * Value)),
       clean (al_Changes (LogUpdate ctx entityType entityID entityName payload)) = true).
Proof.
  intros claim.
  specialize (claim None "mcp_server" "s" "s" listed_payload).
  vm_compute in claim. discriminate.
Qed.

Example list_elements_stored_as_given :
  al_Changes (LogUpdate None "mcp_server" "s" "s" listed_payload)
  = DObject [ ("servers",
               DArray [DObject [("name", DString "s1");
                                ("password", DString "hunter2")]]) ].
Proof. reflexivity. Qed.
End redaction.


(* ===================================================================== *)
(** * Further properties                                                  *)
(* ===================================================================== *)

(** ** Tool names *)

Section tool_names.
Import model.

Lemma append_cons (c : ascii) (s x : string) : String c s ++ x = String c (s ++ x).
Proof. reflexivity. Qed.

Lemma split_some_decompose (name s t : string) :
  splitServerToolName name = Some (s, t) -> name = s ++ "__" ++ t.
Proof.
  revert s. induction name as [|a rest IH]; intros s; cbn; [discriminate|].
  destruct rest as [|b rest']; [discriminate|].
  destruct (Ascii.eqb_spec a "_") as [->|_]; cbn [andb];
    [destruct (Ascii.eqb_spec b "_") as [->|_]; [intros [= <- <-]; reflexivity|]|];
    (destruct (splitServerToolName (String b rest')) as [[s0 t0]|]; [|discriminate];
     intros [= <- <-]; rewrite append_cons; f_equal; by apply IH).
Qed.

Lemma split_some_shortest (name s t : string) :
  splitServerToolName name = Some (s, t) ->
  forall s' t', name = s' ++ "__" ++ t' -> (String.length s <= String.length s')%nat.
Proof.
  revert s. induction name as [|a rest IH]; intros s; cbn [splitServerToolName];
    [discriminate|].
  destruct rest as [|b rest']; [discriminate|].
  destruct (Ascii.eqb a "_" && Ascii.eqb b "_") eqn:Hsep.
  - intros [= <- <-] s' t' _. cbn. lia.
  - destruct (splitServerToolName (String b rest')) as [[s0 t0]|] eqn:Hrest;
      [|discriminate].
    intros [= <- <-] s' t' Hname. destruct s' as [|a' s''].
    + cbv in Hname. injection Hname as -> -> _. cbn in Hsep. discriminate.
    + rewrite append_cons in Hname. injection Hname as _ Hname.
      cbn [String.length]. apply le_n_S. by eapply IH.
Qed.

Lemma split_none_no_separator (name : string) :
  splitServerToolName name = None -> forall s t, name <> s ++ "__" ++ t.
Proof.
  induction name as [|a rest IH]; cbn [splitServerToolName].
  - intros _ [|c s] t; cbv; discriminate.
  - destruct rest as [|b rest'].
    + intros _ [|c [|d s]] t; cbv; discriminate.
    + destruct (Ascii.eqb a "_" && Ascii.eqb b "_") eqn:Hsep; [discriminate|].
      destruct (splitServerToolName (String b rest')) as [[s0 t0]|] eqn:Hrest;
        [discriminate|].
      intros _ s t Hname. destruct s as [|a' s'].
      * cbv in Hname. injection Hname as -> -> _. cbn in Hsep. discriminate.
      * rewrite append_cons in Hname. injection Hname as _ Hname.
        by apply (IH eq_refl s' t).
Qed.

(** X1. [splitServerToolName] cuts a name at the first ["__"]: when it
    answers [(s, t)] the name is [s ++ "__" ++ t] and no shorter prefix is
    followed by ["__"]; it answers nothing exactly when the name holds no
    ["__"] at all. *)
Theorem splitServerToolName_first_separator (name : string) :
  (forall s t, splitServerToolName name = Some (s, t) ->
     name = s ++ "__" ++ t
     /\ forall s' t', name = s' ++ "__" ++ t' ->
          (String.length s <= String.length s')%nat)
  /\ (splitServerToolName name = None <-> forall s t, name <> s ++ "__" ++ t).
Proof.
  split.
  - intros s t Hsplit. split; [by apply split_some_decompose|].
    by apply (split_some_shortest name s t).
  - split; [apply split_none_no_separator|].
    intros Hno. destruct (splitServerToolName name) as [[s t]|] eqn:Hsplit; [|done].
    exfalso. apply (Hno s t). by apply split_some_decompose.
Qed.

Lemma splitServerToolName_first_separator_witness :
  "server__tool__extra" = "server" ++ "__" ++ "tool__extra"
  /\ forall s' t', "server__tool__extra" = s' ++ "__" ++ t' ->
       (String.length "server" <= String.length s')%nat.
Proof.
  destruct (splitServerToolName_first_separator "server__tool__extra") as [cut _].
  apply (cut "server" "tool__extra"). reflexivity.
Defined.
End tool_names.

(** ** Access control: defaults and failures *)

Section acl_defaults.
Import model.

Lemma contains_In (xs : list string) (y : string) : contains xs y = true <-> In y xs.
Proof.
  induction xs as [|x xs IH]; cbn; [split; [discriminate | contradiction]|].
  destruct (String.eqb_spec x y) as [->|Hne]; [split; [by left | done]|].
  rewrite IH. split; [by right | intros [->|]; [contradiction | done]].
Qed.

(** X2. A client whose tool-group column is nil or an empty array and whose
    allow list is nil, an empty array or undecodable is granted no tool: the
    answer is [false] for a name with a ["__"] and the error "invalid tool
    name format" otherwise, whatever groups and servers exist. *)
Theorem CheckHasToolAccess_denies_without_lists
    (c : McpClient) (toolName : string)
    (checker : ToolGroupToolChecker) (resolver : ToolGroupResolver) :
  mc_AllowedToolGroups c = JSON_nil \/ mc_AllowedToolGroups c = JSON_bytes (Ok []) ->
  (mc_AllowList c = JSON_nil \/ mc_AllowList c = JSON_bytes (Ok [])
   \/ exists msg, mc_AllowList c = JSON_bytes (Err msg)) ->
  CheckHasToolAccess c toolName checker resolver
  = match splitServerToolName toolName with
    | Some _ => Ok false
    | None => Err ("invalid tool name format: " ++ toolName)
    end
  /\ CheckHasToolAccess c toolName checker resolver <> Ok true.
Proof.
  intros Hgroups Hallow.
  assert (Hcheck : CheckHasToolAccess c toolName checker resolver
                   = match splitServerToolName toolName with
                     | Some _ => Ok false
                     | None => Err ("invalid tool name format: " ++ toolName)
                     end).
  { unfold CheckHasToolAccess, GetAllowedToolGroups, CheckHasServerAccess.
    destruct Hgroups as [-> | ->]; cbn;
      (destruct (splitServerToolName toolName) as [[s t]|]; [|reflexivity]);
      destruct Hallow as [-> | [-> | [msg ->]]]; reflexivity. }
  split; [exact Hcheck|]. rewrite Hcheck.
  destruct (splitServerToolName toolName) as [[s t]|]; discriminate.
Qed.

Lemma CheckHasToolAccess_denies_without_lists_witness :
  CheckHasToolAccess (model_tests.client [] []) "server1__tool1"
    model_tests.checker model_tests.resolver <> Ok true.
Proof.
  apply (CheckHasToolAccess_denies_without_lists (model_tests.client [] [])
           "server1__tool1" model_tests.checker model_tests.resolver).
  - right. reflexivity.
  - right. left. reflexivity.
Defined.

Lemma add_server_tools_first_failure (r : ToolResolver) (before after : list string)
    (s msg : string) (tls : list (list Tool)) :
  Forall2 (fun s l => ListToolsByServer r s = Ok l) before tls ->
  ListToolsByServer r s = Err msg ->
  forall m, add_server_tools r (before ++ s :: after)%list m
            = Err (("failed to get tools for server " ++ s ++ ": ") ++ msg).
Proof.
  intros Hbefore Hs. induction Hbefore as [|s0 l before tls Hs0 _ IH]; intros m; cbn.
  - rewrite Hs. reflexivity.
  - rewrite Hs0. cbn. apply IH.
Qed.

(** X3. How [ResolveEffectiveTools] fails, in the order the source checks:
    an undecodable [included_tools] column; then an undecodable
    [included_servers] column; then the first included server, in list
    order, whose tools cannot be listed, named in the error; then an
    undecodable [excluded_tools] column.  A later problem never hides an
    earlier one. *)
Theorem ResolveEffectiveTools_failure_order (g : ToolGroup) (r : ToolResolver) :
  (forall msg, GetTools g = Err msg ->
     ResolveEffectiveTools g r = Err ("failed to get included tools: " ++ msg))
  /\ (forall inc msg, GetTools g = Ok inc -> GetServers g = Err msg ->
        ResolveEffectiveTools g r = Err ("failed to get included servers: " ++ msg))
  /\ (forall inc before s after tls msg,
        GetTools g = Ok inc -> GetServers g = Ok (before ++ s :: after)%list ->
        Forall2 (fun s l => ListToolsByServer r s = Ok l) before tls ->
        ListToolsByServer r s = Err msg ->
        ResolveEffectiveTools g r
        = Err (("failed to get tools for server " ++ s ++ ": ") ++ msg))
  /\ (forall inc srv tls msg,
        GetTools g = Ok inc -> GetServers g = Ok srv ->
        Forall2 (fun s l => ListToolsByServer r s = Ok l) srv tls ->
        GetExcludedTools g = Err msg ->
        ResolveEffectiveTools g r = Err ("failed to get excluded tools: " ++ msg)).
Proof.
  unfold ResolveEffectiveTools. repeat split.
  - intros msg ->. reflexivity.
  - intros inc msg -> ->. reflexivity.
  - intros inc before s after tls msg -> -> Hbefore Hs. cbn.
    by rewrite (add_server_tools_first_failure r before after s msg tls Hbefore Hs).
  - intros inc srv tls msg -> -> Hall ->. cbn.
    destruct (add_server_tools_ok r srv tls Hall (set_all inc ∅)) as (m' & -> & _).
    reflexivity.
Qed.

Lemma ResolveEffectiveTools_failure_order_witness :
  ResolveEffectiveTools
    (model_tests.mk_group (model_tests.arr ["a__x"]) (model_tests.arr ["server2"; "down"; "x"]))
    model_tests.resolver_down
  = Err "failed to get tools for server down: server not found".
Proof.
  destruct (ResolveEffectiveTools_failure_order
              (model_tests.mk_group (model_tests.arr ["a__x"])
                 (model_tests.arr ["server2"; "down"; "x"]))
              model_tests.resolver_down) as (_ & _ & server & _).
  apply (server ["a__x"] ["server2"] "down" ["x"] [[]] "server not found");
    try reflexivity.
  repeat constructor.
Defined.
End acl_defaults.

(** ** Scopes *)

Section scopes.
Import model.
Context `{GoLib}.

Lemma validate_each_all_allowed (allowed requested validated : list string) :
  Forall (fun s => In s allowed)
    (List.filter (fun s => negb (String.eqb s "")) (List.map strings_TrimSpace requested)) ->
  oauth.validate_each allowed requested validated
  = Ok (validated
        ++ List.filter (fun s => negb (String.eqb s ""))
             (List.map strings_TrimSpace requested))%list.
Proof.
  revert validated. induction requested as [|scope rest IH]; intros validated Hall; cbn.
  - by rewrite app_nil_r.
  - cbn in Hall. destruct (String.eqb (strings_TrimSpace scope) "") eqn:Hblank;
      cbn in Hall |- *.
    + by apply IH.
    + inversion Hall as [|? ? Hin Hrest]; subst.
      apply contains_In in Hin. rewrite Hin, IH by done.
      by rewrite <- app_assoc.
Qed.

Lemma validate_each_first_refused (allowed requested validated before after : list string)
    (refused : string) :
  List.filter (fun s => negb (String.eqb s "")) (List.map strings_TrimSpace requested)
  = (before ++ refused :: after)%list ->
  Forall (fun s => In s allowed) before -> ~ In refused allowed ->
  oauth.validate_each allowed requested validated
  = Err ("scope not allowed: " ++ refused).
Proof.
  revert validated before. induction requested as [|scope rest IH];
    intros validated before Hpieces Hbefore Hrefused; cbn in *.
  - destruct before; discriminate.
  - destruct (String.eqb (strings_TrimSpace scope) "") eqn:Hblank; cbn in Hpieces.
    + by eapply IH.
    + destruct before as [|b before]; cbn in Hpieces; injection Hpieces as Hhead Htail.
      * rewrite Hhead.
        destruct (contains allowed refused) eqn:Hc; [|reflexivity].
        apply contains_In in Hc. contradiction.
      * inversion Hbefore as [|? ? Hin Hrest]; subst.
        apply contains_In in Hin. rewrite Hin. by eapply IH.
Qed.

(** X4. [ValidateScopes] against the client's configured scopes.  With an
    empty configured set the request is returned as it came.  With a
    non-empty set, the request is read as its space-separated pieces, trimmed,
    empty ones dropped: if all of them are configured the answer is these
    pieces joined by single spaces, each of them a configured scope; otherwise
    the answer is "scope not allowed: s" for the first piece [s] that is not
    configured.  A scopes column that does not decode is an error. *)
Theorem ValidateScopes_contract (client : OAuthClient) (requestedScopes : string) :
  (json_Unmarshal (oc_Scopes client) = Ok [] ->
     oauth.ValidateScopes client requestedScopes = Ok requestedScopes)
  /\ (forall allowed, json_Unmarshal (oc_Scopes client) = Ok allowed -> allowed <> [] ->
        (Forall (fun s => In s allowed) (requested_scopes requestedScopes) ->
           oauth.ValidateScopes client requestedScopes
           = Ok (strings.Join (requested_scopes requestedScopes) " "))
        /\ (forall before refused after,
              requested_scopes requestedScopes = (before ++ refused :: after)%list ->
              Forall (fun s => In s allowed) before -> ~ In refused allowed ->
              oauth.ValidateScopes client requestedScopes
              = Err ("scope not allowed: " ++ refused)))
  /\ (forall msg, json_Unmarshal (oc_Scopes client) = Err msg ->
        oauth.ValidateScopes client requestedScopes
        = Err ("failed to parse client scopes: " ++ msg)).
Proof.
  unfold oauth.ValidateScopes. split; [|split].
  - intros ->. reflexivity.
  - intros allowed -> Hne. destruct allowed as [|a allowed]; [contradiction|].
    cbn [wrap length Nat.eqb]. split.
    + intros Hall. unfold requested_scopes in *.
      rewrite (validate_each_all_allowed _ _ [] Hall). reflexivity.
    + intros before refused after Hpieces Hbefore Hrefused. unfold requested_scopes in *.
      rewrite (validate_each_first_refused _ _ [] before after refused Hpieces Hbefore
                 Hrefused).
      reflexivity.
  - intros msg ->. reflexivity.
Qed.
End scopes.

Section scopes_examples.
Import model examples.

Lemma ValidateScopes_contract_witness :
  oauth.ValidateScopes (H:=toy_lib) client_A "mcp:write  mcp:read" = Ok "mcp:write mcp:read"
  /\ oauth.ValidateScopes (H:=toy_lib) client_A "mcp:read admin mcp:write"
     = Err "scope not allowed: admin".
Proof.
  destruct (ValidateScopes_contract (H:=toy_lib) client_A "mcp:write  mcp:read")
    as (_ & configured & _).
  destruct (ValidateScopes_contract (H:=toy_lib) client_A "mcp:read admin mcp:write")
    as (_ & configured' & _).
  split.
  - apply (configured ["mcp:read"; "mcp:write"] eq_refl); [discriminate|].
    repeat constructor; cbn; tauto.
  - apply (configured' ["mcp:read"; "mcp:write"] eq_refl ltac:(discriminate))
      with (before := ["mcp:read"]) (after := ["mcp:write"]).
    + reflexivity.
    + repeat constructor.
    + cbn. intros [[=]|[[=]|[]]].
Defined.
End scopes_examples.

Lemma string_app_nil_r (s : string) : s ++ "" = s.
Proof. induction s as [|a s IH]; [reflexivity|]. by rewrite append_cons, IH. Qed.

Lemma string_app_assoc (s t u : string) : (s ++ t) ++ u = s ++ t ++ u.
Proof. induction s as [|a s IH]; [reflexivity|]. by rewrite !append_cons, IH. Qed.

Section join_split.
Import api_upstream.

Lemma joinScopes_from_later (i : nat) (scopes : list string) (result : string) :
  joinScopes_from (S i) scopes result
  = result ++ match scopes with [] => "" | _ => " " ++ strings.Join scopes " " end.
Proof.
  revert i result. induction scopes as [|scope rest IH]; intros i result; cbn.
  - by rewrite string_app_nil_r.
  - rewrite IH. destruct rest as [|next rest].
    + by rewrite string_app_nil_r, !string_app_assoc.
    + by rewrite !string_app_assoc.
Qed.

Lemma joinScopes_Join (scopes : list string) :
  joinScopes scopes = strings.Join scopes " ".
Proof.
  unfold joinScopes. destruct scopes as [|scope rest]; [reflexivity|].
  cbn [length Nat.eqb joinScopes_from Nat.ltb Nat.leb]. rewrite joinScopes_from_later.
  destruct rest; cbn; [apply string_app_nil_r | reflexivity].
Qed.

Lemma Split_free (scope : string) :
  free_of " " scope = true -> strings.Split " " scope = [scope].
Proof.
  induction scope as [|a rest IH]; [reflexivity|]. cbn.
  destruct (Ascii.eqb a " "); [discriminate|]. cbn. intros Hrest.
  by rewrite (IH Hrest).
Qed.

Lemma Split_free_space (scope rest : string) :
  free_of " " scope = true ->
  strings.Split " " (scope ++ " " ++ rest) = scope :: strings.Split " " rest.
Proof.
  induction scope as [|a scope IH]; [reflexivity|].
  rewrite append_cons. cbn [strings.Split free_of].
  destruct (Ascii.eqb a " "); [discriminate|]. cbn [negb andb]. intros Hfree.
  by rewrite (IH Hfree).
Qed.

(** X5. [joinScopes] puts single spaces between the scopes, and nothing is
    lost on the way back: for a non-empty list of scopes none of which
    contains a space, splitting the joined string at spaces gives the list
    again.  The empty list joins to the empty string. *)
Theorem joinScopes_Split_roundtrip (scopes : list string) :
  joinScopes [] = ""
  /\ joinScopes scopes = strings.Join scopes " "
  /\ (scopes <> [] -> Forall (fun s => free_of " " s = true) scopes ->
      strings.Split " " (joinScopes scopes) = scopes).
Proof.
  split; [reflexivity|]. split; [apply joinScopes_Join|].
  intros Hne Hfree. rewrite joinScopes_Join.
  induction Hfree as [|scope rest Hscope Hrest IH]; [contradiction|].
  destruct rest as [|next rest]; [by apply Split_free|].
  change (strings.Join (scope :: next :: rest) " ")
    with (scope ++ " " ++ strings.Join (next :: rest) " ").
  rewrite (Split_free_space _ _ Hscope). f_equal. by apply IH.
Qed.

Lemma joinScopes_Split_roundtrip_witness :
  strings.Split " " (joinScopes ["mcp:read"; "mcp:write"; "admin"])
  = ["mcp:read"; "mcp:write"; "admin"].
Proof.
  destruct (joinScopes_Split_roundtrip ["mcp:read"; "mcp:write"; "admin"])
    as (_ & _ & back).
  apply back; [discriminate|]. repeat constructor.
Defined.
End join_split.

(** ** Client credentials of a request *)

Section credentials.
Import api.
Context `{GoLib}.

Lemma SplitN2_first (id secret : string) :
  free_of ":" id = true -> strings.SplitN2 ":" (id ++ ":" ++ secret) = Some (id, secret).
Proof.
  induction id as [|a id IH]; [reflexivity|].
  rewrite append_cons. cbn [strings.SplitN2 free_of].
  destruct (Ascii.eqb a ":"); [discriminate|]. cbn [negb andb]. intros Hfree.
  by rewrite (IH Hfree).
Qed.

Lemma SplitN2_none (s : string) : free_of ":" s = true -> strings.SplitN2 ":" s = None.
Proof.
  induction s as [|a s IH]; [reflexivity|]. cbn.
  destruct (Ascii.eqb a ":"); [discriminate|]. cbn. intros Hfree. by rewrite (IH Hfree).
Qed.

(** X6. [extractClientCredentials] prefers HTTP Basic: when the header is
    "Basic " followed by text that decodes to [id:secret], the answer is
    [(id, secret)], split at the first colon, whatever the body carries.  It
    falls back on the body values when the header does not start with
    "Basic ", does not decode, or decodes to text without a colon. *)
Theorem extractClientCredentials_basic_first
    (authorization bodyClientID bodyClientSecret : string) :
  (String.prefix "Basic " authorization = false ->
     extractClientCredentials authorization bodyClientID bodyClientSecret
     = (bodyClientID, bodyClientSecret))
  /\ (forall id secret,
        String.prefix "Basic " authorization = true ->
        base64_StdEncoding_DecodeString (strings.TrimPrefix authorization "Basic ")
        = Some (id ++ ":" ++ secret) ->
        free_of ":" id = true ->
        extractClientCredentials authorization bodyClientID bodyClientSecret
        = (id, secret))
  /\ (String.prefix "Basic " authorization = true ->
      base64_StdEncoding_DecodeString (strings.TrimPrefix authorization "Basic ") = None ->
      extractClientCredentials authorization bodyClientID bodyClientSecret
      = (bodyClientID, bodyClientSecret))
  /\ (forall decoded,
        String.prefix "Basic " authorization = true ->
        base64_StdEncoding_DecodeString (strings.TrimPrefix authorization "Basic ")
        = Some decoded ->
        free_of ":" decoded = true ->
        extractClientCredentials authorization bodyClientID bodyClientSecret
        = (bodyClientID, bodyClientSecret)).
Proof.
  unfold extractClientCredentials. repeat split.
  - intros ->. reflexivity.
  - intros id secret -> -> Hid. by rewrite (SplitN2_first id secret Hid).
  - intros -> ->. reflexivity.
  - intros decoded -> -> Hfree. by rewrite (SplitN2_none decoded Hfree).
Qed.
End credentials.

Lemma extractClientCredentials_basic_first_witness :
  api.extractClientCredentials (H:=examples.toy_lib) "Basic A:s3:cret" "B" "other"
  = ("A", "s3:cret").
Proof.
  destruct (extractClientCredentials_basic_first (H:=examples.toy_lib)
              "Basic A:s3:cret" "B" "other") as (_ & basic & _).
  apply basic; reflexivity.
Defined.

(** ** Audit redaction, again *)

Section redaction_shape.
Import audit.

Lemma filter_value_idempotent (v : Value) : filter_value (filter_value v) = filter_value v.
Proof.
  induction v as [ | | | | |entries IH| | ] using Value_nested_ind; try reflexivity.
  cbn. f_equal. rewrite List.map_map.
  induction entries as [|[k x] rest IHrest]; [reflexivity|].
  inversion IH as [|? ? Hx Hrest]; subst. cbn.
  rewrite (IHrest Hrest). f_equal.
  destruct (sensitiveFields k) eqn:Hk; rewrite Hk; [reflexivity|].
  cbn in Hx. by rewrite Hx.
Qed.

(** X7. [filterSensitiveData] keeps the shape of a payload and can be applied
    again without effect: the result has the same keys in the same places,
    filtering a filtered payload changes nothing, an entry under a key that
    is not sensitive whose value is not a [map[string]interface{}] is kept as
    it is, and an entry under a sensitive key becomes "[REDACTED]" whatever
    its value was. *)
Theorem filterSensitiveData_shape (data : list (string * Value)) :
  List.map fst (filterSensitiveData data) = List.map fst data
  /\ filterSensitiveData (filterSensitiveData data) = filterSensitiveData data
  /\ (forall key value,
        In (key, value) data -> sensitiveFields key = false ->
        (forall nested, value <> VMap nested) ->
        In (key, value) (filterSensitiveData data))
  /\ (forall key value,
        In (key, value) data -> sensitiveFields key = true ->
        In (key, VString "[REDACTED]") (filterSensitiveData data)).
Proof.
  split; [|split; [|split]].
  - unfold filterSensitiveData. rewrite List.map_map.
    apply List.map_ext. intros [k x]. by destruct (sensitiveFields k).
  - pose proof (filter_value_idempotent (VMap data)) as Hidem.
    cbn in Hidem. injection Hidem as Hidem. exact Hidem.
  - intros key value Hin Hkey Hplain. unfold filterSensitiveData.
    apply in_map_iff. exists (key, value). split; [|exact Hin].
    rewrite Hkey. f_equal. destruct value; try reflexivity.
    exfalso. by eapply Hplain.
  - intros key value Hin Hkey. unfold filterSensitiveData.
    apply in_map_iff. exists (key, value). split; [|exact Hin]. by rewrite Hkey.
Qed.

Lemma filterSensitiveData_shape_witness :
  In ("description", VString "test") (filterSensitiveData nested_payload)
  /\ In ("token", VString "[REDACTED]")
       (filterSensitiveData [("token", VSlice [VString "a"; VString "b"])]).
Proof.
  split.
  - destruct (filterSensitiveData_shape nested_payload) as (_ & _ & kept & _).
    apply kept; [right; left; reflexivity | reflexivity | discriminate].
  - destruct (filterSensitiveData_shape [("token", VSlice [VString "a"; VString "b"])])
      as (_ & _ & _ & redacted).
    apply (redacted "token" (VSlice [VString "a"; VString "b"]));
      [left; reflexivity | reflexivity].
Defined.
End redaction_shape.

(** ** Authorization codes and tokens of the issuer *)

Section tables.
Import model sys.

Lemma first_missing_existsb {A} (key : A -> string) (v : string) (table : list A) :
  first key v table = ErrRecordNotFound ->
  existsb (fun r => String.eqb (key r) v) table = false.
Proof.
  unfold first. destruct (find _ table) as [r|] eqn:Hf; [discriminate|]. intros _.
  destruct (existsb _ table) eqn:He; [|reflexivity].
  apply existsb_exists in He as (r & Hin & Hr).
  by rewrite (find_none _ _ Hf r Hin) in Hr.
Qed.

Lemma first_after_insert {A} (key : A -> string) (v : string) (table : list A) (row : A) :
  first key v table = ErrRecordNotFound -> key row = v ->
  first key v (table ++ [row])%list = Found row.
Proof.
  unfold first. intros Hmiss Hkey.
  destruct (find _ table) as [r|] eqn:Hf; [discriminate|].
  induction table as [|r table IH]; cbn in *.
  - by rewrite Hkey, String.eqb_refl.
  - destruct (String.eqb (key r) v); [discriminate|]. by apply IH.
Qed.

Lemma first_found_In {A} (key : A -> string) (v : string) (table : list A) (r : A) :
  first key v table = Found r -> In r table.
Proof.
  unfold first. destruct (find _ table) as [r'|] eqn:Hf; [|discriminate].
  intros [= ->]. by apply find_some in Hf as [Hin _].
Qed.
End tables.

Ltac step_prog :=
  cbn [mbind sys.Prog_bind sys.perform sys.bind sys.run sys.handle mret sys.Prog_ret];
  unfold sys.statement;
  cbn [sys.record_event sys.after_statement sys.after_clock_read sys.after_random_draw
       sys.after_http_call
       sys.w_env sys.w_db sys.w_statements sys.w_clock_reads sys.w_random_draws
       sys.w_http_calls fst snd].

Section issuer.
Import model sys.
Context `{GoLib}.

(** X8. A code that [CreateAuthorizationCode] returns is the code that
    [GetAuthorizationCode] finds: when the random source delivers, the two
    statements execute and the code is not stored yet, the call returns the
    encoded random bytes, and looking that code up gives a row bound to the
    client, user, redirect URI, scope and challenge of the call, unused, that
    expires ten minutes after the clock reading and is valid up to and
    including that instant. *)
Theorem CreateAuthorizationCode_then_GetAuthorizationCode
    (clientID : string) (userID : N) (redirectURI scope codeChallenge : string)
    (w : World) (bytes : string) :
  let code := base64_RawURLEncoding_EncodeToString bytes in
  let now := clock (w_env w) (w_clock_reads w) in
  let out := run (oauth.CreateAuthorizationCode clientID userID redirectURI scope
                    codeChallenge "S256") w in
  random (w_env w) (w_random_draws w) 32 = Ok bytes ->
  db_fault (w_env w) (w_statements w) = None ->
  db_fault (w_env w) (S (w_statements w)) = None ->
  first ac_Code code (oauth_authorization_codes (w_db w)) = ErrRecordNotFound ->
  fst out = Ok code
  /\ exists stored,
       fst (run (oauth.GetAuthorizationCode code) (snd out)) = Ok (Some stored)
       /\ ac_Code stored = code
       /\ ac_ClientID stored = clientID /\ ac_UserID stored = userID
       /\ ac_RedirectURI stored = redirectURI /\ ac_Scope stored = scope
       /\ ac_CodeChallenge stored = codeChallenge
       /\ ac_CodeChallengeMethod stored = "S256"
       /\ ac_Used stored = false
       /\ ac_ExpiresAt stored = now + 10 * time.Minute
       /\ (forall t, t <= now + 10 * time.Minute ->
             OAuthAuthorizationCode_IsValid t stored = true).
Proof.
  intros code now out Hrand Hok1 Hok2 Hfresh. subst out.
  unfold oauth.CreateAuthorizationCode, oauth.GenerateAuthorizationCode,
    oauth.GenerateOAuthToken, oauth.GetAuthorizationCode.
  change (negb (String.eqb "S256" "S256")) with false. cbv iota.
  step_prog. rewrite Hrand. step_prog. rewrite Hok1.
  unfold create. fold code. cbn [ac_Code].
  rewrite (first_missing_existsb _ _ _ Hfresh).
  step_prog. split; [reflexivity|].
  rewrite Hok2. cbn [set_codes oauth_authorization_codes].
  erewrite first_after_insert; [|exact Hfresh|reflexivity].
  eexists. split; [reflexivity|]. cbn.
  repeat (split; [reflexivity|]).
  intros t Ht. unfold OAuthAuthorizationCode_IsValid, OAuthAuthorizationCode_IsExpired,
    time.After, time.Add. cbn. fold now.
  apply negb_true_iff, Z.ltb_ge. exact Ht.
Qed.

(** X9. [CreateAuthorizationCode] stores nothing when it fails: whatever
    the arguments and whatever the environment does, a call that returns an
    error leaves every table as it was; and a challenge method other than
    "S256" is refused before anything is drawn, read or written. *)
Theorem CreateAuthorizationCode_failure_stores_nothing
    (clientID : string) (userID : N)
    (redirectURI scope codeChallenge codeChallengeMethod : string) (w : World) :
  let out := run (oauth.CreateAuthorizationCode clientID userID redirectURI scope
                    codeChallenge codeChallengeMethod) w in
  (forall msg, fst out = Err msg -> w_db (snd out) = w_db w)
  /\ (codeChallengeMethod <> "S256" ->
      out = (Err "invalid code_challenge_method: only S256 is supported", w)).
Proof.
  intros out. subst out. unfold oauth.CreateAuthorizationCode.
  destruct (String.eqb_spec codeChallengeMethod "S256") as [->|Hne]; cbn [negb].
  2: { split; [intros msg _; reflexivity | intros _; reflexivity]. }
  split; [|intros Habs; by destruct Habs].
  unfold oauth.GenerateAuthorizationCode, oauth.GenerateOAuthToken.
  step_prog. destruct (random _ _ _) as [bytes|e]; step_prog; [|reflexivity].
  destruct (db_fault _ _) as [fault|]; step_prog; [reflexivity|].
  unfold create. destruct (existsb _ _); step_prog; [|discriminate].
  intros msg _. by destruct (w_db w).
Qed.

Lemma run_IssueAccessToken
    (clientID : string) (userID : option N) (scope audience : string)
    (refreshTokenID : option N) (w : World) (bytes : string) :
  let token := base64_RawURLEncoding_EncodeToString bytes in
  let table := oauth_access_tokens (w_db w) in
  let issued := access_token_row (next_id table) token clientID userID scope audience
                  refreshTokenID (clock (w_env w) (w_clock_reads w)) in
  let out := run (oauth.IssueAccessToken clientID userID scope audience refreshTokenID) w in
  random (w_env w) (w_random_draws w) 32 = Ok bytes ->
  db_fault (w_env w) (w_statements w) = None ->
  first at_AccessToken token table = ErrRecordNotFound ->
  fst out = Ok issued
  /\ follows w (set_access_tokens (w_db w) (table ++ [issued])%list) 1 1 1 0 (snd out).
Proof.
  intros token table issued out Hrand Hok Hfresh. subst out.
  unfold oauth.IssueAccessToken, oauth.GenerateOAuthToken.
  step_prog. rewrite Hrand. step_prog. rewrite Hok.
  unfold create. fold token. cbn [at_AccessToken]. fold table.
  rewrite (first_missing_existsb _ _ _ Hfresh). step_prog.
  split; [reflexivity|]. unfold follows. cbn.
  repeat split; try reflexivity; lia.
Qed.

Lemma run_IssueRefreshToken
    (clientID : string) (userID : N) (scope : string) (w : World) (bytes : string) :
  let token := base64_RawURLEncoding_EncodeToString bytes in
  let table := oauth_refresh_tokens (w_db w) in
  let issued := refresh_token_row (next_id table) token clientID userID scope
                  (clock (w_env w) (w_clock_reads w)) in
  let out := run (oauth.IssueRefreshToken clientID userID scope) w in
  random (w_env w) (w_random_draws w) 32 = Ok bytes ->
  db_fault (w_env w) (w_statements w) = None ->
  first rt_RefreshToken token table = ErrRecordNotFound ->
  fst out = Ok issued
  /\ follows w (set_refresh_tokens (w_db w) (table ++ [issued])%list) 1 1 1 0 (snd out).
Proof.
  intros token table issued out Hrand Hok Hfresh. subst out.
  unfold oauth.IssueRefreshToken, oauth.GenerateOAuthToken.
  step_prog. rewrite Hrand. step_prog. rewrite Hok.
  unfold create. fold token. cbn [rt_RefreshToken]. fold table.
  rewrite (first_missing_existsb _ _ _ Hfresh). step_prog.
  split; [reflexivity|]. unfold follows. cbn.
  repeat split; try reflexivity; lia.
Qed.

(** X10. What [IssueAccessToken] issues: when the random source delivers,
    the insert executes and the token string is new, the returned token is
    the row appended to the table, carries the arguments of the call, is not
    revoked, expires one hour after the clock reading, and is valid at every
    instant up to and including its expiry. *)
Theorem IssueAccessToken_issues_valid_token
    (clientID : string) (userID : option N) (scope audience : string)
    (refreshTokenID : option N) (w : World) (bytes : string) :
  let token := base64_RawURLEncoding_EncodeToString bytes in
  let now := clock (w_env w) (w_clock_reads w) in
  let out := run (oauth.IssueAccessToken clientID userID scope audience refreshTokenID) w in
  random (w_env w) (w_random_draws w) 32 = Ok bytes ->
  db_fault (w_env w) (w_statements w) = None ->
  first at_AccessToken token (oauth_access_tokens (w_db w)) = ErrRecordNotFound ->
  exists issued,
    fst out = Ok issued
    /\ oauth_access_tokens (w_db (snd out))
       = (oauth_access_tokens (w_db w) ++ [issued])%list
    /\ first at_AccessToken token (oauth_access_tokens (w_db (snd out))) = Found issued
    /\ at_AccessToken issued = token
    /\ at_ClientID issued = clientID /\ at_UserID issued = userID
    /\ at_Scope issued = scope /\ at_Audience issued = audience
    /\ at_RefreshTokenID issued = refreshTokenID
    /\ at_Revoked issued = false
    /\ at_ExpiresAt issued = now + time.Hour
    /\ (forall t, t <= now + time.Hour -> OAuthAccessToken_IsValid t issued = true).
Proof.
  intros token now out Hrand Hok Hfresh.
  destruct (run_IssueAccessToken clientID userID scope audience refreshTokenID w bytes
              Hrand Hok Hfresh) as (Hout & _ & Hdb & _).
  eexists. split; [exact Hout|]. fold out in Hdb. rewrite Hdb.
  cbn [set_access_tokens oauth_access_tokens].
  split; [reflexivity|].
  split; [by apply first_after_insert|].
  cbn. repeat (split; [reflexivity|]). fold now.
  intros t Ht. unfold OAuthAccessToken_IsValid, OAuthAccessToken_IsExpired,
    time.After, time.Add. cbn. fold now. apply negb_true_iff, Z.ltb_ge.
  unfold time.Add, time.Hour, time.Minute, time.Second in *. lia.
Qed.

(** X11. What [IssueRefreshToken] issues: under the same conditions the
    returned refresh token is the row appended to the table, belongs to the
    client and user of the call, has rotation count 0, is not revoked,
    expires thirty days after the clock reading and is valid up to and
    including that instant. *)
Theorem IssueRefreshToken_issues_valid_token
    (clientID : string) (userID : N) (scope : string) (w : World) (bytes : string) :
  let token := base64_RawURLEncoding_EncodeToString bytes in
  let now := clock (w_env w) (w_clock_reads w) in
  let out := run (oauth.IssueRefreshToken clientID userID scope) w in
  random (w_env w) (w_random_draws w) 32 = Ok bytes ->
  db_fault (w_env w) (w_statements w) = None ->
  first rt_RefreshToken token (oauth_refresh_tokens (w_db w)) = ErrRecordNotFound ->
  exists issued,
    fst out = Ok issued
    /\ oauth_refresh_tokens (w_db (snd out))
       = (oauth_refresh_tokens (w_db w) ++ [issued])%list
    /\ rt_RefreshToken issued = token
    /\ rt_ClientID issued = clientID /\ rt_UserID issued = userID
    /\ rt_Scope issued = scope
    /\ rt_RotationCount issued = 0
    /\ rt_Revoked issued = false
    /\ rt_ExpiresAt issued = now + 30 * 24 * time.Hour
    /\ (forall t, t <= now + 30 * 24 * time.Hour ->
          OAuthRefreshToken_IsValid t issued = true).
Proof.
  intros token now out Hrand Hok Hfresh.
  destruct (run_IssueRefreshToken clientID userID scope w bytes Hrand Hok Hfresh)
    as (Hout & _ & Hdb & _).
  eexists. split; [exact Hout|]. fold out in Hdb. rewrite Hdb.
  cbn [set_refresh_tokens oauth_refresh_tokens].
  split; [reflexivity|].
  cbn. repeat (split; [reflexivity|]). fold now.
  intros t Ht. unfold OAuthRefreshToken_IsValid, OAuthRefreshToken_IsExpired,
    time.After, time.Add. cbn. fold now. apply negb_true_iff, Z.ltb_ge.
  unfold time.Add, time.Hour, time.Minute, time.Second in *. lia.
Qed.
End issuer.

Lemma always_run {A} (P : A -> Prop) (p : sys.Prog A) :
  always P p -> forall w, P (fst (sys.run p w)).
Proof.
  induction p as [a|e k IH]; cbn; intros Hp w; [exact Hp|].
  destruct (sys.handle e w) as [x w']. by apply IH.
Qed.

Ltac answer_cases :=
  repeat (cbn [always always_x mbind mret
               sys.Prog_bind sys.Prog_ret sys.bind sys.perform
               sysx.Prog_bind sysx.Prog_ret sysx.bind sysx.perform sysx.lift];
          match goal with
          | |- _ <> _ => try discriminate; congruence
          | |- forall x, _ =>
              let x := fresh x in
              intros x; cbn in x;
              lazymatch type of x with
              | result _ => destruct x
              | option _ => destruct x
              | sys.error => destruct x
              | sys.first_result _ => destruct x
              | _ => idtac
              end
          end).

Section token_endpoint.
Import model sys api.
Context `{GoLib}.

(** A refusal of the authorization-code grant writes nothing: once the code
    has been marked, the only answers left are 200 and 500. *)
Lemma code_grant_refusal_writes_nothing
    (client : OAuthClient) (req : OAuthTokenRequest) (w : World)
    (status : Z) (body : list (string * string)) :
  status <> StatusInternalServerError ->
  let out := run (handleAuthorizationCodeGrant client req) w in
  fst out = JSON status body -> w_db (snd out) = w_db w.
Proof.
  intros Hstatus out. subst out. unfold handleAuthorizationCodeGrant.
  destruct (_ || _); [reflexivity|].
  unfold oauth.GetAuthorizationCode. step_prog.
  destruct (db_fault _ _) as [fault|]; step_prog; [reflexivity|].
  destruct (first _ _ _) as [authCode| |msg]; step_prog; try reflexivity.
  assert (Hreads : forall (p : time.Time -> Prog Response) w1,
             (forall now w2, w_db w2 = w_db w1 ->
                fst (run (p now) w2) = JSON status body ->
                w_db (snd (run (p now) w2)) = w_db w1) ->
             fst (run ((if ac_Used authCode then mret 0 else perform TimeNow) ≫= p) w1)
             = JSON status body ->
             w_db (snd (run ((if ac_Used authCode then mret 0 else perform TimeNow) ≫= p)
                          w1)) = w_db w1).
  { intros p w1 Hp. destruct (ac_Used authCode); step_prog; by apply Hp. }
  match goal with
  | |- fst (run (_ ≫= ?p) ?w1) = _ -> _ =>
      intros Hanswer; change (w_db w) with (w_db w1);
      apply (Hreads p w1); [clear Hanswer|exact Hanswer]
  end.
  intros now w2 Hdb. cbv beta.
  destruct (negb (OAuthAuthorizationCode_IsValid now authCode)); [intros _; exact Hdb|].
  destruct (negb (String.eqb (ac_ClientID authCode) (oc_ClientID client)));
    [intros _; exact Hdb|].
  destruct (negb (String.eqb (ac_RedirectURI authCode) (f_RedirectURI req)));
    [intros _; exact Hdb|].
  destruct (negb (util.VerifyPKCE _ _ _)); [intros _; exact Hdb|].
  intros Hanswer. exfalso. revert Hanswer.
  match goal with
  | |- fst (run ?p ?w1) = _ -> False =>
      apply (always_run (fun r => forall s b, s <> StatusInternalServerError ->
                                   r <> JSON s b) p)
  end; [|exact Hstatus].
  unfold oauth.MarkAuthorizationCodeUsed, oauth.IssueRefreshToken, oauth.IssueAccessToken,
    oauth.GenerateOAuthToken.
  answer_cases.
Qed.
End token_endpoint.

(** ** Programs over the further statements *)

Section sysx_basics.
Import model sys.

Lemma runx_lift {A} (p : sys.Prog A) (w : sysx.World) :
  sysx.run (sysx.lift p) w = sysx.on_base w (sys.run p (sysx.base w)).
Proof.
  revert w. induction p as [a|e k IH]; intros w.
  - by destruct w.
  - cbn [sysx.lift sysx.run sysx.handle sys.run]. unfold sysx.on_base at 1.
    destruct (sys.handle e (sysx.base w)) as [x b]. cbn [fst snd].
    rewrite IH. reflexivity.
Qed.

Lemma runx_bind {A B} (p : sysx.Prog A) (f : A -> sysx.Prog B) (w : sysx.World) :
  sysx.run (sysx.bind p f) w = let '(a, w') := sysx.run p w in sysx.run (f a) w'.
Proof.
  revert w. induction p as [a|e k IH]; intros w; cbn; [reflexivity|].
  destruct (sysx.handle e w) as [x w']. apply IH.
Qed.

Lemma runx_mbind {A B} (p : sysx.Prog A) (f : A -> sysx.Prog B) (w : sysx.World) :
  sysx.run (p ≫= f) w = let '(a, w') := sysx.run p w in sysx.run (f a) w'.
Proof. apply runx_bind. Qed.

Lemma first_map_key {A} (key : A -> string) (v : string) (f : A -> A) (table : list A) :
  (forall r, key (f r) = key r) ->
  first key v (List.map f table)
  = match first key v table with
    | Found r => Found (f r)
    | ErrRecordNotFound => ErrRecordNotFound
    | FirstError msg => FirstError msg
    end.
Proof.
  intros Hkey. unfold first. induction table as [|r table IH]; cbn; [reflexivity|].
  rewrite Hkey. destruct (String.eqb (key r) v); [reflexivity|]. exact IH.
Qed.

Lemma first_app_found {A} (key : A -> string) (v : string) (table more : list A) (r : A) :
  first key v table = Found r -> first key v (table ++ more)%list = Found r.
Proof.
  unfold first. induction table as [|r' table IH]; cbn; [discriminate|].
  destruct (String.eqb (key r') v); [done|]. exact IH.
Qed.
End sysx_basics.

Ltac step_progx :=
  cbn [mbind sysx.Prog_bind sysx.perform sysx.bind sysx.run sysx.handle sysx.lift
       mret sysx.Prog_ret sysx.on_base
       sys.Prog_bind sys.perform sys.bind sys.run sys.handle sys.Prog_ret];
  unfold sys.statement;
  cbn [sys.record_event sys.after_statement sys.after_clock_read sys.after_random_draw
       sys.after_http_call
       sys.w_env sys.w_db sys.w_statements sys.w_clock_reads sys.w_random_draws
       sys.w_http_calls sysx.base sysx.mcp_clients fst snd].

Section validation.
Import model sys.
Context `{GoLib}.

(** What [ValidateAccessToken] answers for a stored token. *)
Lemma run_ValidateAccessToken_found (token : string) (w : sysx.World)
    (stored : OAuthAccessToken) :
  let b := sysx.base w in
  db_fault (w_env b) (w_statements b) = None ->
  first at_AccessToken token (oauth_access_tokens (w_db b)) = Found stored ->
  fst (sysx.run (oauth_tokens.ValidateAccessToken token) w)
  = if OAuthAccessToken_IsValid (clock (w_env b) (w_clock_reads b)) stored
    then Ok stored else Err "token is invalid or expired".
Proof.
  intros b Hok Hfound. subst b. unfold oauth_tokens.ValidateAccessToken.
  step_progx. rewrite Hok, Hfound. step_progx.
  unfold OAuthAccessToken_IsValid.
  destruct (at_Revoked stored) eqn:Hrev; step_progx; [reflexivity|].
  cbn [negb andb]. by destruct (OAuthAccessToken_IsExpired _ stored).
Qed.

(** Validation reads: tables, environment and MCP clients stay as they are,
    one statement is counted. *)
Lemma run_ValidateAccessToken_reads (token : string) (w : sysx.World) :
  let out := sysx.run (oauth_tokens.ValidateAccessToken token) w in
  w_db (sysx.base (snd out)) = w_db (sysx.base w)
  /\ w_env (sysx.base (snd out)) = w_env (sysx.base w)
  /\ w_statements (sysx.base (snd out)) = S (w_statements (sysx.base w))
  /\ sysx.mcp_clients (snd out) = sysx.mcp_clients w.
Proof.
  intros out. subst out. unfold oauth_tokens.ValidateAccessToken. step_progx.
  destruct (db_fault _ _); step_progx; [done|].
  destruct (first _ _ _) as [stored| |]; step_progx; try done.
  destruct (at_Revoked stored); step_progx;
    destruct (negb _); done.
Qed.

(** X12. A token that [IssueAccessToken] has just issued validates for one
    hour and not longer: when the issuing succeeds as in X10 and the lookup
    executes, [ValidateAccessToken] returns the issued row if its clock
    reading is at most one hour after the issuing one, and the error "token
    is invalid or expired" otherwise. *)
Theorem IssueAccessToken_then_ValidateAccessToken
    (clientID : string) (userID : option N) (scope audience : string)
    (refreshTokenID : option N) (w : sysx.World) (bytes : string) :
  let b := sysx.base w in
  let token := base64_RawURLEncoding_EncodeToString bytes in
  let issuedAt := clock (w_env b) (w_clock_reads b) in
  let validatedAt := clock (w_env b) (w_clock_reads b + 1) in
  let out := sysx.run (sysx.lift (oauth.IssueAccessToken clientID userID scope audience
                                    refreshTokenID)) w in
  random (w_env b) (w_random_draws b) 32 = Ok bytes ->
  db_fault (w_env b) (w_statements b) = None ->
  db_fault (w_env b) (w_statements b + 1) = None ->
  first at_AccessToken token (oauth_access_tokens (w_db b)) = ErrRecordNotFound ->
  exists issued,
    fst out = Ok issued
    /\ fst (sysx.run (oauth_tokens.ValidateAccessToken token) (snd out))
       = if validatedAt <=? issuedAt + time.Hour then Ok issued
         else Err "token is invalid or expired".
Proof.
  intros b token issuedAt validatedAt out Hrand Hok1 Hok2 Hfresh. subst out.
  rewrite runx_lift. fold b.
  destruct (run_IssueAccessToken clientID userID scope audience refreshTokenID b bytes
              Hrand Hok1 Hfresh) as (Hout & Henv & Hdb & Hclock & _ & Hstmt & _).
  destruct (run _ b) as [r b1]. cbn [fst snd sysx.on_base] in *.
  eexists. split; [exact Hout|].
  erewrite run_ValidateAccessToken_found; cbn [sysx.base].
  3: { rewrite Hdb. cbn [set_access_tokens oauth_access_tokens].
       by apply first_after_insert. }
  2: { by rewrite Henv, Hstmt. }
  rewrite Henv, Hclock. fold validatedAt.
  unfold OAuthAccessToken_IsValid, OAuthAccessToken_IsExpired, time.After,
    access_token_row.
  cbn [at_Revoked at_ExpiresAt negb andb]. fold b issuedAt.
  destruct (Z.leb_spec validatedAt (issuedAt + time.Hour)) as [Hle|Hgt];
    destruct (Z.ltb_spec (time.Add issuedAt (1 * time.Hour)) validatedAt) as [Hlt|Hge];
    try reflexivity; exfalso;
    unfold time.Add, time.Hour, time.Minute, time.Second in *; lia.
Qed.

Lemma found_revoked_handle (token : string) (e : sysx.Event) (w : sysx.World) :
  found_revoked token (oauth_access_tokens (w_db (sysx.base w))) ->
  found_revoked token (oauth_access_tokens (w_db (sysx.base (snd (sysx.handle e w))))).
Proof.
  intros Hinv.
  destruct e as [e| | | | |]; cbn [sysx.handle sysx.on_base snd sysx.base];
    [destruct e as [| | | | | | | | |revoked| | | |]|..]; cbn [sys.handle];
    unfold statement;
    cbn [record_event w_env w_statements w_db sysx.base];
    try exact Hinv;
    destruct (db_fault _ _); cbn; try exact Hinv;
    try (destruct (create _ _ _ _); exact Hinv);
    try (destruct (save_session _ _); exact Hinv);
    try (destruct (sysx.create_session _ _); exact Hinv).
  - (* CreateAccessToken *)
    unfold create. destruct (existsb _ _); cbn; [exact Hinv|].
    destruct Hinv as (r & Hr & Hrev). exists r. split; [|exact Hrev].
    by apply first_app_found.
  - (* UpdateAccessTokenRevoked *)
    destruct Hinv as (r & Hr & Hrev). unfold update_where, found_revoked.
    rewrite first_map_key, Hr.
    + eexists. split; [reflexivity|].
      destruct (String.eqb (at_AccessToken r) revoked); [reflexivity|exact Hrev].
    + intros r0. by destruct (String.eqb (at_AccessToken r0) revoked).
Qed.

Lemma found_revoked_run {B} (token : string) (p : sysx.Prog B) (w : sysx.World) :
  found_revoked token (oauth_access_tokens (w_db (sysx.base w))) ->
  found_revoked token (oauth_access_tokens (w_db (sysx.base (snd (sysx.run p w))))).
Proof.
  revert w. induction p as [a|e k IH]; intros w Hinv; cbn; [exact Hinv|].
  pose proof (found_revoked_handle token e w Hinv) as Hnext.
  destruct (sysx.handle e w) as [x w']. by apply IH.
Qed.

(** X13. Revocation is final.  Once [RevokeAccessToken] has returned nil for
    a token that is stored, no later sequence of statements of the issuer,
    the proxy gate or the upstream client brings it back:
    [ValidateAccessToken] refuses the token after any program whatever has
    run in between, at any clock reading. *)
Theorem revoked_access_token_stays_refused
    (token : string) (w : sysx.World) (stored : OAuthAccessToken)
    {B} (later : sysx.Prog B) :
  first at_AccessToken token (oauth_access_tokens (w_db (sysx.base w))) = Found stored ->
  let revoked := sysx.run (sysx.lift (oauth.RevokeAccessToken token)) w in
  fst revoked = None ->
  forall accepted,
    fst (sysx.run (oauth_tokens.ValidateAccessToken token)
           (snd (sysx.run later (snd revoked))))
    <> Ok accepted.
Proof.
  intros Hstored revoked Hnil accepted.
  assert (Hinv : found_revoked token
                   (oauth_access_tokens (w_db (sysx.base (snd revoked))))).
  { subst revoked. revert Hnil. unfold oauth.RevokeAccessToken. step_progx.
    destruct (db_fault _ _); step_progx; [discriminate|]. intros _.
    unfold update_where, found_revoked.
    cbn [set_access_tokens oauth_access_tokens w_db sysx.base snd].
    rewrite first_map_key, Hstored.
    - eexists. split; [reflexivity|].
      by rewrite (first_key _ _ _ _ Hstored), String.eqb_refl.
    - intros r. by destruct (String.eqb (at_AccessToken r) token). }
  apply (found_revoked_run token later) in Hinv.
  destruct Hinv as (r & Hr & Hrev).
  set (w' := snd (sysx.run later (snd revoked))) in *.
  unfold oauth_tokens.ValidateAccessToken. step_progx.
  destruct (db_fault _ _); step_progx; [discriminate|].
  rewrite Hr. step_progx. rewrite Hrev. step_progx.
  unfold OAuthAccessToken_IsValid. rewrite Hrev. cbn. discriminate.
Qed.
End validation.

(** ** The token endpoint *)

Lemma always_x_run {A} (P : A -> Prop) (p : sysx.Prog A) :
  always_x P p -> forall w, P (fst (sysx.run p w)).
Proof.
  induction p as [a|e k IH]; cbn; intros Hp w; [exact Hp|].
  destruct (sysx.handle e w) as [x w']. by apply IH.
Qed.

Section token_endpoint_x.
Import model sys api api_token.
Context `{GoLib}.

Lemma run_GetClient_reads (clientID : string) (b : World) :
  w_db (snd (run (oauth.GetClient clientID) b)) = w_db b.
Proof.
  unfold oauth.GetClient. step_prog.
  destruct (db_fault _ _); step_prog; [reflexivity|].
  by destruct (first _ _ _).
Qed.

Lemma run_ValidateClientCredentials_reads (clientID clientSecret : string) (b : World) :
  w_db (snd (run (oauth.ValidateClientCredentials clientID clientSecret) b)) = w_db b.
Proof.
  unfold oauth.ValidateClientCredentials, oauth.GetClient. step_prog.
  destruct (db_fault _ _); step_prog; [reflexivity|].
  destruct (first _ _ _) as [client| |]; step_prog; try reflexivity.
  by destruct (_ && _).
Qed.

Lemma run_ValidateRefreshToken_reads (token : string) (w : sysx.World) :
  w_db (sysx.base (snd (sysx.run (oauth_tokens.ValidateRefreshToken token) w)))
  = w_db (sysx.base w).
Proof.
  unfold oauth_tokens.ValidateRefreshToken. step_progx.
  destruct (db_fault _ _); step_progx; [done|].
  destruct (first _ _ _) as [stored| |]; step_progx; try done.
  destruct (rt_Revoked stored); step_progx; destruct (negb _); done.
Qed.

Ltac never_refused :=
  intros Hanswer; exfalso; revert Hanswer;
  match goal with
  | Hstatus : ?status <> StatusInternalServerError
    |- fst (sysx.run ?p ?w1) = JSON ?status ?body -> False =>
      apply (always_x_run (fun r => forall s b, s <> StatusInternalServerError ->
                                     r <> JSON s b) p); [|exact Hstatus]
  end;
  unfold oauth.IssueAccessToken, oauth.GenerateOAuthToken,
    oauth_tokens.IncrementRefreshTokenRotation;
  answer_cases.

Lemma refresh_grant_refusal_writes_nothing
    (client : OAuthClient) (req : OAuthTokenRequest) (w : sysx.World)
    (status : Z) (body : list (string * string)) :
  status <> StatusInternalServerError ->
  let out := sysx.run (handleRefreshTokenGrant client req) w in
  fst out = JSON status body -> w_db (sysx.base (snd out)) = w_db (sysx.base w).
Proof.
  intros Hstatus out. subst out. unfold handleRefreshTokenGrant.
  destruct (String.eqb (f_RefreshToken req) ""); [reflexivity|].
  rewrite runx_mbind.
  pose proof (run_ValidateRefreshToken_reads (f_RefreshToken req) w) as Hreads.
  destruct (sysx.run (oauth_tokens.ValidateRefreshToken _) w) as [[refreshToken|e] w1];
    cbn [fst snd] in *; [|intros _; exact Hreads].
  destruct (negb (String.eqb (rt_ClientID refreshToken) (oc_ClientID client)));
    [intros _; exact Hreads|].
  cbv zeta.
  destruct (negb (String.eqb (f_Scope req) "")).
  - destruct (oauth.ValidateScopes client (f_Scope req)) as [validated|e];
      [|intros _; exact Hreads].
    never_refused.
  - never_refused.
Qed.

Lemma client_credentials_refusal_writes_nothing
    (client : OAuthClient) (req : OAuthTokenRequest) (w : sysx.World)
    (status : Z) (body : list (string * string)) :
  status <> StatusInternalServerError ->
  let out := sysx.run (handleClientCredentialsGrant client req) w in
  fst out = JSON status body -> w_db (sysx.base (snd out)) = w_db (sysx.base w).
Proof.
  intros Hstatus out. subst out. unfold handleClientCredentialsGrant. cbv zeta.
  destruct (String.eqb (f_Scope req) "").
  - destruct (json_Unmarshal (oc_Scopes client)) as [scopes|e]; [|never_refused].
    destruct (0 <? length scopes)%nat; never_refused.
  - destruct (oauth.ValidateScopes client (f_Scope req)) as [validated|e];
      [never_refused | reflexivity].
Qed.

(** X14. A refused token request writes nothing.  Whatever the request, the
    stored rows and the environment, when [OAuthTokenHandler] answers with a
    JSON error of status 400 or 401 (missing or unknown client, wrong
    secret, unsupported grant type, or a refusal by one of the three grant
    handlers), every table is as it was before the call. *)
Theorem OAuthTokenHandler_refusal_writes_nothing
    (c : TokenCall) (w : sysx.World) (status : Z) (body : list (string * string)) :
  status = StatusBadRequest \/ status = StatusUnauthorized ->
  let out := sysx.run (OAuthTokenHandler c) w in
  fst out = JSON status body -> w_db (sysx.base (snd out)) = w_db (sysx.base w).
Proof.
  intros Hrefusal out. subst out.
  assert (Hstatus : status <> StatusInternalServerError)
    by (destruct Hrefusal as [-> | ->]; discriminate).
  clear Hrefusal. unfold OAuthTokenHandler. cbv zeta.
  destruct (String.eqb (f_GrantType (tc_Form c)) ""); [reflexivity|].
  destruct (extractClientCredentials _ _ _) as [clientID clientSecret].
  destruct (String.eqb clientID ""); [reflexivity|].
  rewrite runx_mbind, runx_lift.
  pose proof (run_GetClient_reads clientID (sysx.base w)) as Hclient.
  destruct (run (oauth.GetClient clientID) (sysx.base w)) as [[[client|]|e] b1];
    cbn [fst snd sysx.on_base sysx.run sysx.base] in *;
    try (intros _; exact Hclient).
  assert (Hdispatch : forall w2 : sysx.World,
             w_db (sysx.base w2) = w_db (sysx.base w) ->
             let out := sysx.run
                 (if String.eqb (f_GrantType (tc_Form c)) "authorization_code" then
                    sysx.lift (handleAuthorizationCodeGrant client (tc_Form c))
                  else if String.eqb (f_GrantType (tc_Form c)) "refresh_token" then
                    handleRefreshTokenGrant client (tc_Form c)
                  else if String.eqb (f_GrantType (tc_Form c)) "client_credentials" then
                    handleClientCredentialsGrant client (tc_Form c)
                  else
                    mret (JSON StatusBadRequest
                            (oauth_error "unsupported_grant_type"
                               "Grant type not supported"))) w2 in
             fst out = JSON status body ->
             w_db (sysx.base (snd out)) = w_db (sysx.base w)).
  { intros w2 Hw2.
    destruct (String.eqb (f_GrantType (tc_Form c)) "authorization_code").
    - cbv zeta. rewrite runx_lift. cbn [fst snd sysx.on_base sysx.base].
      intros Hanswer. rewrite <- Hw2.
      by apply (code_grant_refusal_writes_nothing client (tc_Form c) (sysx.base w2)
                  status body).
    - destruct (String.eqb (f_GrantType (tc_Form c)) "refresh_token").
      + cbv zeta. intros Hanswer. rewrite <- Hw2.
        by apply (refresh_grant_refusal_writes_nothing client (tc_Form c) w2 status body).
      + destruct (String.eqb (f_GrantType (tc_Form c)) "client_credentials").
        * cbv zeta. intros Hanswer. rewrite <- Hw2.
          by apply (client_credentials_refusal_writes_nothing client (tc_Form c) w2
                      status body).
        * cbv zeta. intros _. exact Hw2. }
  destruct (oc_IsConfidential client).
  - rewrite runx_mbind, runx_lift.
    pose proof (run_ValidateClientCredentials_reads clientID clientSecret b1) as Hvalid.
    cbn [sysx.base].
    destruct (run (oauth.ValidateClientCredentials clientID clientSecret) b1)
      as [[valid|e] b2]; cbn [fst snd sysx.on_base sysx.run sysx.base] in *.
    + apply Hdispatch. cbn [sysx.base]. by rewrite Hvalid.
    + intros _. cbn. by rewrite Hvalid.
  - apply Hdispatch. exact Hclient.
Qed.
End token_endpoint_x.

Section refresh_grant.
Import model sys api api_token.
Context `{GoLib}.

(** X15. The refresh grant issues an access token and keeps the refresh
    token.  For a stored refresh token that is valid at the clock reading
    and belongs to the calling client, when the statements execute and the
    random token is new, [handleRefreshTokenGrant] answers 200 with the new
    access token and the refresh token that was presented; the access token
    row is bound to the user and the primary key of the refresh token and
    carries the refresh token's scope, or, when the request names a scope,
    what [ValidateScopes] makes of it for the client; the refresh token row
    is still found under the same string, unrevoked, with the same expiry
    and its rotation count raised by one.  (The count is taken below the
    largest value of its column.) *)
Theorem handleRefreshTokenGrant_issues_and_keeps
    (client : OAuthClient) (req : OAuthTokenRequest) (w : sysx.World)
    (presented : OAuthRefreshToken) (scope bytes : string) :
  let b := sysx.base w in
  let token := base64_RawURLEncoding_EncodeToString bytes in
  let audience := if String.eqb (f_Resource req) "" then f_ServerURL req
                  else f_Resource req in
  let out := sysx.run (handleRefreshTokenGrant client req) w in
  f_RefreshToken req <> "" ->
  db_fault (w_env b) (w_statements b) = None ->
  db_fault (w_env b) (S (w_statements b)) = None ->
  db_fault (w_env b) (S (S (w_statements b))) = None ->
  first rt_RefreshToken (f_RefreshToken req) (oauth_refresh_tokens (w_db b))
  = Found presented ->
  OAuthRefreshToken_IsValid (clock (w_env b) (w_clock_reads b)) presented = true ->
  rt_ClientID presented = oc_ClientID client ->
  (if String.eqb (f_Scope req) "" then Ok (rt_Scope presented)
   else oauth.ValidateScopes client (f_Scope req)) = Ok scope ->
  random (w_env b) (w_random_draws b) 32 = Ok bytes ->
  first at_AccessToken token (oauth_access_tokens (w_db b)) = ErrRecordNotFound ->
  rt_RotationCount presented < 2^63 - 1 ->
  let issued :=
    access_token_row (next_id (oauth_access_tokens (w_db b))) token (oc_ClientID client)
      (Some (rt_UserID presented)) scope audience (Some (rt_ID presented))
      (clock (w_env b) (S (w_clock_reads b))) in
  let kept := sysx.set_rt_RotationCount (rt_RotationCount presented + 1) presented in
  fst out
  = TokenJSON StatusOK
      {| otr_AccessToken := token; otr_TokenType := "Bearer";
         otr_ExpiresIn :=
           time.whole_seconds
             (time.Until (clock (w_env b) (S (S (w_clock_reads b))))
                (at_ExpiresAt issued));
         otr_RefreshToken := f_RefreshToken req;
         otr_Scope := scope |}
  /\ oauth_access_tokens (w_db (sysx.base (snd out)))
     = (oauth_access_tokens (w_db b) ++ [issued])%list
  /\ first rt_RefreshToken (f_RefreshToken req)
       (oauth_refresh_tokens (w_db (sysx.base (snd out)))) = Found kept
  /\ rt_Revoked kept = false
  /\ rt_ExpiresAt kept = rt_ExpiresAt presented.
Proof.
  intros b token audience out Hpresented Hok1 Hok2 Hok3 Hfound Hvalid Hclient Hscope
    Hrand Hfresh _ issued kept.
  assert (Hrevoked : rt_Revoked presented = false).
  { unfold OAuthRefreshToken_IsValid in Hvalid.
    by destruct (rt_Revoked presented). }
  subst out. unfold handleRefreshTokenGrant.
  apply String.eqb_neq in Hpresented. rewrite Hpresented.
  unfold oauth_tokens.ValidateRefreshToken. step_progx. fold b.
  rewrite Hok1, Hfound. step_progx. rewrite Hrevoked. step_progx. fold b.
  rewrite Hvalid. cbn [negb]. step_progx.
  rewrite Hclient, String.eqb_refl. cbn [negb]. cbv zeta.
  assert (Hgranted :
            (if negb (String.eqb (f_Scope req) "") then
               oauth.ValidateScopes client (f_Scope req)
             else Ok (rt_Scope presented)) = Ok scope)
    by (by destruct (String.eqb (f_Scope req) "")).
  clear Hscope.
  destruct (negb (String.eqb (f_Scope req) ""));
    [rewrite Hgranted | injection Hgranted as <-];
    (rewrite runx_mbind, runx_lift; cbn [sysx.base];
     match goal with
     | |- context [run (oauth.IssueAccessToken ?c ?u ?s ?a ?r) ?b1] =>
         destruct (run_IssueAccessToken c u s a r b1 bytes)
           as (Hout & Henv & Hdb & Hclock & Hdraws & Hstmt & _);
         [cbn; assumption ..|];
         destruct (run (oauth.IssueAccessToken c u s a r) b1) as [r1 b2]
     end;
     cbn [fst snd sysx.on_base] in *; subst r1).
  all: cbn [w_env w_db w_clock_reads w_random_draws w_statements w_http_calls
            after_clock_read after_statement record_event] in *.
  all: rewrite Nat.add_1_r in Hclock, Hdraws, Hstmt.
  all: unfold oauth_tokens.IncrementRefreshTokenRotation; step_progx.
  all: rewrite Henv, Hstmt, Hok3; do 2 step_progx.
  all: rewrite Henv, Hclock, Hdb.
  all: cbn [set_refresh_tokens set_access_tokens oauth_access_tokens oauth_refresh_tokens
            access_token_row at_AccessToken at_Scope at_ExpiresAt].
  all: fold b token audience.
  all: rewrite (first_key _ _ _ _ Hfound).
  all: split; [reflexivity|]; split; [reflexivity|];
       split; [|split; [exact Hrevoked | reflexivity]].
  all: unfold sysx.increment_rotation; rewrite first_map_key, Hfound;
       [by rewrite N.eqb_refl | intros r; by destruct (N.eqb _ _)].
Qed.

(** X16. The client-credentials grant involves no user and no refresh
    token.  When the scope is settled (the client's configured scopes joined
    by spaces for a request without scope, what [ValidateScopes] returns
    otherwise), the insert executes and the random token is new,
    [handleClientCredentialsGrant] answers 200 without a refresh token, and
    the one row it adds is an access token of the client with no user and no
    refresh token, expiring an hour after the clock reading; no other table
    is touched. *)
Theorem handleClientCredentialsGrant_issues_bare_token
    (client : OAuthClient) (req : OAuthTokenRequest) (w : sysx.World)
    (scope bytes : string) :
  let b := sysx.base w in
  let token := base64_RawURLEncoding_EncodeToString bytes in
  let audience := if String.eqb (f_Resource req) "" then f_ServerURL req
                  else f_Resource req in
  let out := sysx.run (handleClientCredentialsGrant client req) w in
  (if String.eqb (f_Scope req) "" then
     match json_Unmarshal (oc_Scopes client) with
     | Ok (first :: more) => Ok (strings.Join (first :: more) " ")
     | _ => Ok ""
     end
   else oauth.ValidateScopes client (f_Scope req)) = Ok scope ->
  random (w_env b) (w_random_draws b) 32 = Ok bytes ->
  db_fault (w_env b) (w_statements b) = None ->
  first at_AccessToken token (oauth_access_tokens (w_db b)) = ErrRecordNotFound ->
  let issued :=
    access_token_row (next_id (oauth_access_tokens (w_db b))) token (oc_ClientID client)
      None scope audience None (clock (w_env b) (w_clock_reads b)) in
  fst out
  = TokenJSON StatusOK
      {| otr_AccessToken := token; otr_TokenType := "Bearer";
         otr_ExpiresIn :=
           time.whole_seconds
             (time.Until (clock (w_env b) (S (w_clock_reads b))) (at_ExpiresAt issued));
         otr_RefreshToken := "";
         otr_Scope := scope |}
  /\ w_db (sysx.base (snd out))
     = set_access_tokens (w_db b) (oauth_access_tokens (w_db b) ++ [issued])%list
  /\ at_UserID issued = None /\ at_RefreshTokenID issued = None.
Proof.
  intros b token audience out Hscope Hrand Hok Hfresh issued.
  subst out. unfold handleClientCredentialsGrant. cbv zeta.
  assert (Hrun : forall scope', scope' = scope ->
    let out :=
      sysx.run
        (sysx.lift (oauth.IssueAccessToken (oc_ClientID client) None scope' audience None)
         ≫= λ accessToken,
              match accessToken with
              | Ok accessToken0 =>
                  sysx.lift (sys.perform TimeNow)
                  ≫= λ now,
                       mret (TokenJSON StatusOK
                               {| otr_AccessToken := at_AccessToken accessToken0;
                                  otr_TokenType := "Bearer";
                                  otr_ExpiresIn :=
                                    time.whole_seconds
                                      (time.Until now (at_ExpiresAt accessToken0));
                                  otr_RefreshToken := "";
                                  otr_Scope := at_Scope accessToken0 |})
              | Err msg =>
                  sysx.lift (sys.perform
                               (Log "error" ("Failed to issue access token: " ++ msg)))
                  ≫= λ _, mret (JSON StatusInternalServerError
                                  (oauth_error "server_error" "Failed to issue token"))
              end) w in
    fst out
    = TokenJSON StatusOK
        {| otr_AccessToken := token; otr_TokenType := "Bearer";
           otr_ExpiresIn :=
             time.whole_seconds
               (time.Until (clock (w_env b) (S (w_clock_reads b)))
                  (at_ExpiresAt issued));
           otr_RefreshToken := "";
           otr_Scope := scope |}
    /\ w_db (sysx.base (snd out))
       = set_access_tokens (w_db b) (oauth_access_tokens (w_db b) ++ [issued])%list
    /\ at_UserID issued = None /\ at_RefreshTokenID issued = None).
  { intros scope' ->. cbv zeta. rewrite runx_mbind, runx_lift. fold b.
    destruct (run_IssueAccessToken (oc_ClientID client) None scope audience None b bytes
                Hrand Hok Hfresh) as (Hout & Henv & Hdb & Hclock & _).
    destruct (run _ b) as [r1 b1]. cbn [fst snd sysx.on_base] in *. subst r1.
    rewrite Nat.add_1_r in Hclock.
    step_progx. rewrite Henv, Hclock, Hdb. fold b token.
    repeat split; reflexivity. }
  destruct (String.eqb_spec (f_Scope req) "") as [Hempty|Hnamed].
  - destruct (json_Unmarshal (oc_Scopes client)) as [[|first more]|e];
      cbn [length Nat.ltb Nat.leb]; apply Hrun; rewrite ?Hempty; congruence.
  - rewrite Hscope. by apply Hrun.
Qed.
End refresh_grant.

(** ** Introspection and the proxy gate *)

Section introspection.
Import model sys api api_token.
Context `{GoLib}.

Lemma run_ValidateAccessToken_ok (token : string) (w : sysx.World)
    (accepted : OAuthAccessToken) :
  fst (sysx.run (oauth_tokens.ValidateAccessToken token) w) = Ok accepted ->
  first at_AccessToken token (oauth_access_tokens (w_db (sysx.base w))) = Found accepted
  /\ at_Revoked accepted = false.
Proof.
  unfold oauth_tokens.ValidateAccessToken. step_progx.
  destruct (db_fault _ _); step_progx; [discriminate|].
  destruct (first _ _ _) as [stored| |] eqn:Hfound; step_progx; try discriminate.
  destruct (at_Revoked stored) eqn:Hrevoked; step_progx.
  - unfold OAuthAccessToken_IsValid. rewrite Hrevoked. discriminate.
  - destruct (negb _); [discriminate|]. intros [= <-]. by split.
Qed.

(** X17. Introspection only reads, and reports on any stored token to any
    authenticated client.  Whatever the call, [OAuthIntrospectHandler]
    leaves every table as it was.  For a caller whose credentials validate,
    when the lookup executes: a token that is not stored is reported as
    inactive; a stored token is reported with its client, scope, expiry,
    audience and user if it is valid at the clock reading, and as inactive
    otherwise, whether or not it was issued to the caller. *)
Theorem OAuthIntrospectHandler_reads_and_reports (c : IntrospectCall) (w : sysx.World) :
  let out := sysx.run (OAuthIntrospectHandler c) w in
  let creds := extractClientCredentials (ic_Authorization c) (ic_client_id c)
                 (ic_client_secret c) in
  let inactive := {| in_status := StatusOK; in_body := [("active", audit.VBool false)] |} in
  w_db (sysx.base (snd out)) = w_db (sysx.base w)
  /\ (forall caller b1,
        ic_token c <> "" -> fst creds <> "" ->
        run (oauth.ValidateClientCredentials (fst creds) (snd creds)) (sysx.base w)
        = (Ok caller, b1) ->
        db_fault (w_env b1) (w_statements b1) = None ->
        match first at_AccessToken (ic_token c) (oauth_access_tokens (w_db b1)) with
        | Found stored =>
            fst out
            = if OAuthAccessToken_IsValid (clock (w_env b1) (w_clock_reads b1)) stored
              then {| in_status := StatusOK; in_body := token_info stored |}
              else inactive
        | ErrRecordNotFound => fst out = inactive
        | FirstError _ => False
        end).
Proof.
  intros out creds inactive. subst out. unfold OAuthIntrospectHandler. cbv zeta.
  fold creds. destruct creds as [clientID clientSecret] eqn:Hcreds. cbn [fst snd].
  split.
  - destruct (String.eqb (ic_token c) ""); [reflexivity|].
    destruct (String.eqb clientID ""); [reflexivity|].
    rewrite runx_mbind, runx_lift.
    pose proof (run_ValidateClientCredentials_reads clientID clientSecret (sysx.base w))
      as Hvalid.
    destruct (run (oauth.ValidateClientCredentials clientID clientSecret) (sysx.base w))
      as [[caller|e] b1]; cbn [fst snd sysx.on_base sysx.run sysx.base] in *;
      [|exact Hvalid].
    rewrite runx_mbind.
    match goal with
    | |- context [sysx.run (oauth_tokens.ValidateAccessToken ?t) ?w1] =>
        destruct (run_ValidateAccessToken_reads t w1) as (Hreads & _);
        destruct (sysx.run (oauth_tokens.ValidateAccessToken t) w1) as [[accepted|e] w2]
    end; cbn [fst snd sysx.run sysx.base mret sysx.Prog_ret] in *; by rewrite Hreads.
  - intros caller b1 Htoken Hclient Hvalid Hok.
    apply String.eqb_neq in Htoken, Hclient. rewrite Htoken, Hclient.
    rewrite runx_mbind, runx_lift, Hvalid. cbn [fst snd sysx.on_base].
    rewrite runx_mbind.
    destruct (first _ _ _) as [stored| |msg] eqn:Hfound.
    + match goal with
      | |- context [sysx.run (oauth_tokens.ValidateAccessToken ?t) ?w1] =>
          pose proof (run_ValidateAccessToken_found t w1 stored Hok Hfound) as Hanswer;
          destruct (sysx.run (oauth_tokens.ValidateAccessToken t) w1) as [r w2]
      end.
      cbn [fst snd sysx.base] in *. subst r.
      by destruct (OAuthAccessToken_IsValid _ stored).
    + unfold oauth_tokens.ValidateAccessToken. step_progx.
      rewrite Hok, Hfound. reflexivity.
    + unfold first in Hfound. by destruct (find _ _).
Qed.
End introspection.

Section proxy_gate.
Import model sys middleware.
Context `{GoLib}.
Variable ModeDev : string.

(** X18. The gate of the MCP proxy.  In development mode the request passes
    with nothing read.  In every case the gate only reads.  When it lets a
    request through in another mode, the client put into the context carries
    the presented token (the Authorization header without a leading
    "Bearer "), which is not empty; for an OAuth token, that token is a
    stored, unrevoked row found under the presented string, and the client
    is a stand-in without an allow list and without tool groups, to which
    [CheckHasServerAccess] grants no server and [CheckHasToolAccess] no
    tool; otherwise the client is a stored MCP client. *)
Theorem checkAuthForMcpProxyAccess_outcomes (c : ProxyCall) (w : sysx.World) :
  let out := sysx.run (checkAuthForMcpProxyAccess ModeDev c) w in
  let token := TrimPrefix (pc_Authorization c) "Bearer " in
  (pc_mode c = Mode ModeDev ->
   out = (Next {| px_mode := ModeDev; px_client := None; px_oauth_scopes := None;
                  px_oauth_token := None; px_toolGroupChecker := false;
                  px_audit := None |}, w))
  /\ w_db (sysx.base (snd out)) = w_db (sysx.base w)
  /\ sysx.mcp_clients (snd out) = sysx.mcp_clients w
  /\ (forall ctx, fst out = Next ctx -> px_mode ctx <> ModeDev ->
        exists client,
          px_client ctx = Some client
          /\ mc_AccessToken client = token /\ token <> ""
          /\ match px_oauth_token ctx with
             | Some oauthToken =>
                 first at_AccessToken token (oauth_access_tokens (w_db (sysx.base w)))
                 = Found oauthToken
                 /\ at_Revoked oauthToken = false
                 /\ (forall serverName, CheckHasServerAccess client serverName = false)
                 /\ (forall toolName checker resolver,
                       CheckHasToolAccess client toolName checker resolver <> Ok true)
             | None => In client (sysx.mcp_clients w)
             end).
Proof.
  intros out token. subst out. unfold checkAuthForMcpProxyAccess.
  destruct (pc_mode c) as [| |m].
  1, 2: by repeat split.
  destruct (String.eqb_spec m ModeDev) as [->|Hmode].
  { repeat split. intros ctx [= <-] Hdev. by destruct Hdev. }
  split; [intros [= ->]; by destruct Hmode|].
  cbv zeta. fold token.
  destruct (String.eqb_spec token "") as [Hempty|Htoken]; [by repeat split|].
  rewrite runx_mbind.
  destruct (run_ValidateAccessToken_reads token w) as (Hdb & _ & _ & Hclients).
  pose proof (run_ValidateAccessToken_ok token w) as Haccepted.
  destruct (sysx.run (oauth_tokens.ValidateAccessToken token) w) as [[oauthToken|e] w1].
  - cbn [fst snd] in *. destruct (Haccepted oauthToken eq_refl) as [Hfound Hrevoked].
    rewrite runx_mbind, runx_lift.
    pose proof (run_GetClient_reads (at_ClientID oauthToken) (sysx.base w1)) as Hreads.
    destruct (run (oauth.GetClient (at_ClientID oauthToken)) (sysx.base w1))
      as [[[oauthClient|]|e] b2]; cbn [fst snd sysx.on_base sysx.run sysx.base
                                          sysx.mcp_clients mret sysx.Prog_ret] in *.
    2, 3: split; [congruence|]; split; [exact Hclients|]; intros ctx; discriminate.
    split; [congruence|]. split; [exact Hclients|].
    intros ctx [= <-] _. cbn. eexists. split; [reflexivity|].
    split; [reflexivity|]. split; [exact Htoken|].
    split; [exact Hfound|]. split; [exact Hrevoked|]. split; [reflexivity|].
    intros toolName checker resolver. unfold CheckHasToolAccess. cbn.
    destruct (splitServerToolName toolName) as [[s t]|]; discriminate.
  - cbn [fst snd] in *. unfold mcpclient.GetClientByToken. step_progx.
    destruct (db_fault _ _); step_progx.
    + split; [exact Hdb|]. split; [exact Hclients|]. intros ctx; discriminate.
    + destruct (first mc_AccessToken token (sysx.mcp_clients w1)) as [client| |msg]
        eqn:Hfound; step_progx.
      2, 3: split; [exact Hdb|]; split; [exact Hclients|]; intros ctx; discriminate.
      split; [exact Hdb|]. split; [exact Hclients|].
      intros ctx [= <-] _. cbn. exists client. split; [reflexivity|].
      split; [by apply first_key in Hfound|]. split; [exact Htoken|].
      rewrite <- Hclients. by apply first_found_In in Hfound.
Qed.
End proxy_gate.

(** ** The upstream callback *)

Section upstream_session.
Import model sys oauth_client upstream.
Context `{GoLib}.

Lemma supplier_without_refresh (serverName : string) (w : World)
    (s : OAuthUpstreamSession) :
  db_fault (w_env w) (w_statements w) = None ->
  first us_McpServerName serverName (oauth_upstream_sessions (w_db w)) = Found s ->
  NeedsRefresh (clock (w_env w) (w_clock_reads w)) s = false ->
  fst (run (GetOrRefreshUpstreamToken serverName) w) = Ok (us_AccessToken s).
Proof.
  intros Hok Hfound Hfresh. rewrite (supplier_found serverName w s Hok Hfound).
  rewrite run_mbind.
  match goal with
  | |- context [run (NeedsRefresh_now s) ?w1] =>
      destruct (run_NeedsRefresh_now s w1) as (Hneeds & _);
      destruct (run (NeedsRefresh_now s) w1) as [needs w2]
  end.
  cbn [fst snd w_env w_clock_reads after_statement record_event] in Hneeds.
  rewrite Hfresh in Hneeds. subst needs. reflexivity.
Qed.

(** X19. [StoreUpstreamSession] is an upsert by server name.  Whenever it
    returns nil, a lookup by the session's server name finds the session as
    it was passed, up to the primary key; and when a session of that name
    was stored before, the key is the one that session had. *)
Theorem StoreUpstreamSession_then_found (session : OAuthUpstreamSession) (w : sysx.World) :
  let name := us_McpServerName session in
  let before := oauth_upstream_sessions (w_db (sysx.base w)) in
  let out := sysx.run (StoreUpstreamSession session) w in
  fst out = None ->
  exists stored,
    first us_McpServerName name (oauth_upstream_sessions (w_db (sysx.base (snd out))))
    = Found stored
    /\ stored = set_us_ID (us_ID stored) session
    /\ (forall existing, first us_McpServerName name before = Found existing ->
          us_ID stored = us_ID existing).
Proof.
  intros name before out. subst out name. unfold StoreUpstreamSession. step_progx.
  destruct (db_fault _ _); step_progx; [discriminate|].
  fold before.
  destruct (first us_McpServerName (us_McpServerName session) before)
    as [existing| |msg] eqn:Hfound; step_progx; [| |discriminate].
  - destruct (db_fault _ _); step_progx; [discriminate|].
    destruct (first_after_save existing (set_us_ID (us_ID existing) session)
                (us_McpServerName session) before Hfound eq_refl eq_refl)
      as (table' & Hsave & Hfirst).
    fold before. rewrite Hsave. cbn. intros _.
    eexists. split; [exact Hfirst|]. split; [reflexivity|].
    by intros ? [= <-].
  - destruct (db_fault _ _); step_progx; [discriminate|].
    fold before. unfold sysx.create_session, create.
    rewrite (first_missing_existsb _ _ _ Hfound).
    destruct (N.eqb (us_ID session) 0) eqn:Hzero; cbn.
    + intros _. eexists. split; [by apply first_after_insert|].
      split; [reflexivity|]. intros ? [=].
    + destruct (existsb _ before); cbn; [discriminate|]. intros _.
      exists session. split; [by apply first_after_insert|].
      split; [by destruct session|]. intros ? [=].
Qed.

(** X20. What a completed callback leaves behind.  For a stored session,
    when the three statements execute and the upstream answers the exchange
    request with 200 and a token response, [OAuthClientCallbackHandler]
    answers 200, whatever the (non-empty) [state] parameter is, and the
    session found
    under the server name afterwards has the tokens, type and scope of the
    response, an empty code verifier, and an expiry computed from the clock
    if [expires_in] is positive and left as it was otherwise.  From then on
    [GetOrRefreshUpstreamToken] hands out the access token of the response
    as long as no refresh is due. *)
Theorem OAuthClientCallbackHandler_stores_exchange
    (req : OAuthClientCallbackRequest) (w : sysx.World)
    (session : OAuthUpstreamSession) (body : string) (tokenResp : TokenResponse) :
  let b := sysx.base w in
  let name := cb_ServerName req in
  let out := sysx.run (OAuthClientCallbackHandler req) w in
  let after := sysx.base (snd out) in
  let expiresAt :=
    if 0 <? tr_ExpiresIn tokenResp
    then Some (time.Add (clock (w_env b) (w_clock_reads b))
                 (time.Seconds (tr_ExpiresIn tokenResp)))
    else us_ExpiresAt session in
  name <> "" -> cb_Code req <> "" -> cb_State req <> "" ->
  db_fault (w_env b) (w_statements b) = None ->
  db_fault (w_env b) (S (w_statements b)) = None ->
  db_fault (w_env b) (S (S (w_statements b))) = None ->
  first us_McpServerName name (oauth_upstream_sessions (w_db b)) = Found session ->
  url_Parse_ok (us_TokenEndpoint session) = true ->
  http (w_env b) (w_http_calls b)
    (exchange_request (us_TokenEndpoint session) (us_ClientID session)
       (us_ClientSecret session) (cb_Code req) (us_CodeVerifier session)
       (us_RedirectURI session) (us_ResourceURI session))
  = HTTPResponse 200 body (Ok tokenResp) ->
  fst out = CallbackResponse StatusOK true ("Successfully authenticated with " ++ name)
  /\ first us_McpServerName name (oauth_upstream_sessions (w_db after))
     = Found (exchanged session tokenResp expiresAt)
  /\ (db_fault (w_env after) (w_statements after) = None ->
      NeedsRefresh (clock (w_env after) (w_clock_reads after))
        (exchanged session tokenResp expiresAt) = false ->
      fst (run (GetOrRefreshUpstreamToken name) after) = Ok (tr_AccessToken tokenResp)).
Proof.
  intros b name out after expiresAt Hname Hcode Hstate Hok1 Hok2 Hok3 Hfound Hurl Hhttp.
  assert (Hstored : fst out = CallbackResponse StatusOK true
                                ("Successfully authenticated with " ++ name)
                    /\ first us_McpServerName name (oauth_upstream_sessions (w_db after))
                       = Found (exchanged session tokenResp expiresAt)).
  { subst after out. unfold OAuthClientCallbackHandler.
    apply String.eqb_neq in Hname, Hcode, Hstate. fold name.
    rewrite Hname, Hcode, Hstate. cbn [orb]. cbv zeta.
    step_progx. fold b. rewrite Hok1, Hfound. step_progx.
    unfold ExchangeAuthorizationCode. rewrite Hurl. cbn [negb].
    step_progx. fold b. rewrite Hhttp.
    change (negb (200 =? 200)) with false. step_progx.
    pose proof (first_key _ _ _ _ Hfound) as Hsession.
    destruct (0 <? tr_ExpiresIn tokenResp); step_progx.
    all: unfold StoreUpstreamSession; step_progx; fold b.
    all: cbn [exchanged us_McpServerName].
    all: rewrite Hsession, Hok2, Hfound.
    all: do 2 step_progx; fold b.
    all: rewrite Hok3.
    all: match goal with
         | |- context [save_session ?s' _] =>
             destruct (first_after_save session s' name
                         (oauth_upstream_sessions (w_db b)) Hfound eq_refl Hsession)
               as (table' & Hsave & Hfirst);
             rewrite Hsave
         end.
    all: step_progx; split; [reflexivity|exact Hfirst]. }
  destruct Hstored as [Hanswer Hstored]. split; [exact Hanswer|]. split; [exact Hstored|].
  intros Hok Hfresh.
  exact (supplier_without_refresh name after _ Hok Hstored Hfresh).
Qed.
End upstream_session.

(** ** The properties above, on the example inputs *)

Section further_examples.
Import model sys api examples examples_x.

Lemma CreateAuthorizationCode_then_GetAuthorizationCode_witness :
  fst (run (oauth.CreateAuthorizationCode (H:=toy_lib) "A" 7 "http://x/cb" "mcp:read"
              "V" "S256") world0) = Ok "random-0".
Proof.
  destruct (CreateAuthorizationCode_then_GetAuthorizationCode (H:=toy_lib)
              "A" 7 "http://x/cb" "mcp:read" "V" world0 "random-0"
              eq_refl eq_refl eq_refl eq_refl) as [Hcode _].
  exact Hcode.
Defined.

Lemma CreateAuthorizationCode_failure_stores_nothing_witness :
  run (oauth.CreateAuthorizationCode (H:=toy_lib) "A" 7 "http://x/cb" "mcp:read" "V"
         "plain") world0
  = (Err "invalid code_challenge_method: only S256 is supported", world0).
Proof.
  destruct (CreateAuthorizationCode_failure_stores_nothing (H:=toy_lib)
              "A" 7 "http://x/cb" "mcp:read" "V" "plain" world0) as [_ Hrefused].
  apply Hrefused. discriminate.
Defined.

Lemma IssueAccessToken_issues_valid_token_witness :
  exists issued,
    fst (run (oauth.IssueAccessToken (H:=toy_lib) "A" (Some 7%N) "mcp:read"
                "http://jungle" None) world0) = Ok issued
    /\ OAuthAccessToken_IsValid time.Hour issued = true.
Proof.
  destruct (IssueAccessToken_issues_valid_token (H:=toy_lib) "A" (Some 7%N) "mcp:read"
              "http://jungle" None world0 "random-0" eq_refl eq_refl eq_refl)
    as (issued & Hout & _ & _ & _ & _ & _ & _ & _ & _ & _ & _ & Hvalid).
  exists issued. split; [exact Hout|]. apply Hvalid. reflexivity.
Defined.

Lemma IssueRefreshToken_issues_valid_token_witness :
  exists issued,
    fst (run (oauth.IssueRefreshToken (H:=toy_lib) "A" 7 "mcp:read") world0) = Ok issued
    /\ rt_RotationCount issued = 0.
Proof.
  destruct (IssueRefreshToken_issues_valid_token (H:=toy_lib) "A" 7 "mcp:read"
              world0 "random-0" eq_refl eq_refl eq_refl)
    as (issued & Hout & _ & _ & _ & _ & _ & Hcount & _).
  exists issued. split; [exact Hout | exact Hcount].
Defined.

Lemma IssueAccessToken_then_ValidateAccessToken_witness :
  exists issued,
    fst (sysx.run (oauth_tokens.ValidateAccessToken "random-0")
           (snd (sysx.run (sysx.lift (oauth.IssueAccessToken (H:=toy_lib) "A" None
                                        "mcp:read" "http://jungle" None)) gate0)))
    = Ok issued.
Proof.
  destruct (IssueAccessToken_then_ValidateAccessToken (H:=toy_lib) "A" None "mcp:read"
              "http://jungle" None gate0 "random-0" eq_refl eq_refl eq_refl eq_refl)
    as (issued & _ & Hvalidated).
  exists issued. exact Hvalidated.
Defined.

Lemma revoked_access_token_stays_refused_witness :
  is_ok (fst (sysx.run (oauth_tokens.ValidateAccessToken "T")
                (snd (sysx.run (sysx.lift (oauth.IssueAccessToken (H:=toy_lib) "A" None
                                             "mcp:read" "http://jungle" None))
                        (snd (sysx.run (sysx.lift (oauth.RevokeAccessToken "T"))
                                with_token_T))))))
  = false.
Proof.
  pose proof (revoked_access_token_stays_refused "T" with_token_T token_T
                (sysx.lift (oauth.IssueAccessToken (H:=toy_lib) "A" None "mcp:read"
                              "http://jungle" None)) eq_refl eq_refl) as Hrefused.
  destruct (fst (sysx.run (oauth_tokens.ValidateAccessToken "T") _)) as [accepted|e].
  - by destruct (Hrefused accepted).
  - reflexivity.
Defined.

Lemma OAuthTokenHandler_refusal_writes_nothing_witness :
  w_db (sysx.base (snd (sysx.run (api_token.OAuthTokenHandler (H:=toy_lib)
                                    (token_call "password")) gate0)))
  = w_db (sysx.base gate0).
Proof.
  apply (OAuthTokenHandler_refusal_writes_nothing (H:=toy_lib) (token_call "password")
           gate0 StatusBadRequest
           (oauth_error "unsupported_grant_type" "Grant type not supported")).
  - left. reflexivity.
  - reflexivity.
Defined.

Lemma handleRefreshTokenGrant_issues_and_keeps_witness :
  exists kept,
    first rt_RefreshToken "R"
      (oauth_refresh_tokens
         (w_db (sysx.base (snd (sysx.run (api_token.handleRefreshTokenGrant (H:=toy_lib)
                                            client_A (token_request "refresh_token" "R" ""))
                                  with_token_R)))))
    = Found kept
    /\ rt_Revoked kept = false.
Proof.
  destruct (handleRefreshTokenGrant_issues_and_keeps (H:=toy_lib) client_A
              (token_request "refresh_token" "R" "") with_token_R token_R "mcp:read"
              "random-0" ltac:(discriminate)
              eq_refl eq_refl eq_refl eq_refl eq_refl eq_refl eq_refl eq_refl eq_refl
              eq_refl)
    as (_ & _ & Hkept & Hrevoked & _).
  eexists. split; [exact Hkept | exact Hrevoked].
Defined.

Lemma handleClientCredentialsGrant_issues_bare_token_witness :
  exists response,
    fst (sysx.run (api_token.handleClientCredentialsGrant (H:=toy_lib) client_A
                     (token_request "client_credentials" "" "")) gate0)
    = TokenJSON StatusOK response
    /\ otr_RefreshToken response = ""
    /\ otr_Scope response = "mcp:read mcp:write".
Proof.
  destruct (handleClientCredentialsGrant_issues_bare_token (H:=toy_lib) client_A
              (token_request "client_credentials" "" "") gate0 "mcp:read mcp:write"
              "random-0" eq_refl eq_refl eq_refl eq_refl)
    as (Hanswer & _).
  eexists. split; [exact Hanswer|]. split; reflexivity.
Defined.

Lemma OAuthIntrospectHandler_reads_and_reports_witness :
  fst (sysx.run (api_token.OAuthIntrospectHandler (H:=toy_lib) introspect_T) with_token_T)
  = {| api_token.in_status := StatusOK;
       api_token.in_body := api_token.token_info token_T |}.
Proof.
  destruct (OAuthIntrospectHandler_reads_and_reports (H:=toy_lib) introspect_T
              with_token_T) as [_ Hreport].
  exact (Hreport client_A
           (snd (run (oauth.ValidateClientCredentials (H:=toy_lib) "A" "s3cret")
                   (sysx.base with_token_T)))
           ltac:(discriminate) ltac:(discriminate) eq_refl eq_refl).
Defined.

Lemma checkAuthForMcpProxyAccess_outcomes_witness :
  exists client,
    mc_AccessToken client = "T"
    /\ forall serverName, CheckHasServerAccess client serverName = false.
Proof.
  destruct (checkAuthForMcpProxyAccess_outcomes "development"
              (proxy_call "Bearer T") with_token_T) as (_ & _ & _ & Hnext).
  destruct (Hnext _ eq_refl ltac:(discriminate))
    as (client & _ & Htoken & _ & _ & _ & Hservers & _).
  exists client. split; [exact Htoken | exact Hservers].
Defined.

Lemma StoreUpstreamSession_then_found_witness :
  exists stored,
    first us_McpServerName "up"
      (oauth_upstream_sessions
         (w_db (sysx.base (snd (sysx.run (upstream.StoreUpstreamSession
                                            (session "rt" None)) gate0)))))
    = Found stored
    /\ stored = set_us_ID (us_ID stored) (session "rt" None).
Proof.
  destruct (StoreUpstreamSession_then_found (session "rt" None) gate0 eq_refl)
    as (stored & Hfound & Hsame & _).
  exists stored. split; [exact Hfound | exact Hsame].
Defined.

Lemma OAuthClientCallbackHandler_stores_exchange_witness :
  fst (run (oauth_client.GetOrRefreshUpstreamToken (H:=toy_lib) "up")
         (sysx.base (snd (sysx.run (upstream.OAuthClientCallbackHandler (H:=toy_lib)
                                      callback) with_pending))))
  = Ok "new-access".
Proof.
  destruct (OAuthClientCallbackHandler_stores_exchange (H:=toy_lib) callback with_pending
              pending "" fresh_tokens
              ltac:(discriminate) ltac:(discriminate) ltac:(discriminate)
              eq_refl eq_refl eq_refl eq_refl eq_refl eq_refl)
    as (_ & _ & Hsupply).
  apply Hsupply; reflexivity.
Defined.
End further_examples.

(** ** Ranking of search results *)

Section ranking.
Import search.
Context {float64 : Type} (float64_lt : float64 -> float64 -> bool).

(** The laws of [<] on float64 values that are numbers. *)
Hypothesis lt_irreflexive : forall x, float64_lt x x = false.
Hypothesis lt_transitive :
  forall x y z, float64_lt x y = true -> float64_lt y z = true -> float64_lt x z = true.
Hypothesis not_lt_transitive :
  forall x y z, float64_lt x y = false -> float64_lt y z = false -> float64_lt x z = false.

Lemma inner_loop_permutation (bound : nat) (results : list (SearchResult float64)) :
  inner_loop float64_lt bound results ≡ₚ results.
Proof.
  revert results. induction bound as [|bound IH]; intros [|a [|b rest]];
    cbn; try reflexivity.
  destruct (float64_lt (sr_Score a) (sr_Score b)).
  - rewrite IH. apply Permutation_swap.
  - by rewrite IH.
Qed.

Lemma inner_loop_app (bound : nat) (front back : list (SearchResult float64)) :
  length front = S bound ->
  inner_loop float64_lt bound (front ++ back)%list
  = (inner_loop float64_lt bound front ++ back)%list.
Proof.
  revert front. induction bound as [|bound IH]; intros [|a [|b rest]] Hlen;
    cbn in *; try lia; try reflexivity.
  destruct (float64_lt (sr_Score a) (sr_Score b)); cbn; f_equal.
  - apply (IH (a :: rest)). cbn. lia.
  - apply (IH (b :: rest)). cbn. lia.
Qed.

(** One round carries a lowest result to the end. *)
Lemma inner_loop_lowest (bound : nat) (front : list (SearchResult float64)) :
  length front = S bound ->
  exists front' lowest,
    inner_loop float64_lt bound front = (front' ++ [lowest])%list
    /\ forall x, In x front -> not_below float64_lt x lowest.
Proof.
  revert front. induction bound as [|bound IH]; intros [|a [|b rest]] Hlen;
    cbn in *; try lia.
  - exists [], a. split; [reflexivity|]. intros x [<-|[]]. apply lt_irreflexive.
  - destruct (float64_lt (sr_Score a) (sr_Score b)) eqn:Hab.
    + destruct (IH (a :: rest)) as (front' & lowest & Hrun & Hlow); [cbn; lia|].
      exists (b :: front'), lowest. split; [by rewrite Hrun|].
      intros x [<-|[<-|Hx]].
      * apply Hlow. by left.
      * unfold not_below.
        destruct (float64_lt (sr_Score b) (sr_Score lowest)) eqn:Hbl; [|reflexivity].
        rewrite <- (Hlow a (or_introl eq_refl)). symmetry.
        by apply (lt_transitive _ (sr_Score b)).
      * apply Hlow. by right.
    + destruct (IH (b :: rest)) as (front' & lowest & Hrun & Hlow); [cbn; lia|].
      exists (a :: front'), lowest. split; [by rewrite Hrun|].
      intros x [<-|[<-|Hx]].
      * apply (not_lt_transitive _ (sr_Score b)); [exact Hab|].
        apply Hlow. by left.
      * apply Hlow. by left.
      * apply Hlow. by right.
Qed.

Lemma outer_loop_descending (rounds : nat) :
  forall front back : list (SearchResult float64),
    length front = S rounds ->
    descending float64_lt back ->
    (forall x y, In x front -> In y back -> not_below float64_lt x y) ->
    descending float64_lt
      (outer_loop float64_lt rounds (length back) (length front + length back)
         (front ++ back)%list).
Proof.
  induction rounds as [|rounds IH]; intros front back Hlen Hback Hcross; cbn.
  - destruct front as [|x [|? ?]]; try discriminate. cbn. split; [|exact Hback].
    apply Forall_forall. intros y Hy. apply Hcross; [by left|].
    by apply list_elem_of_In.
  - replace (length front + length back - length back - 1)%nat with (S rounds) by lia.
    rewrite inner_loop_app by exact Hlen.
    destruct (inner_loop_lowest (S rounds) front Hlen) as (front' & lowest & Hrun & Hlow).
    pose proof (inner_loop_permutation (S rounds) front) as Hperm. rewrite Hrun in Hperm.
    assert (Hlen' : length front' = S rounds).
    { apply Permutation_length in Hperm. rewrite length_app in Hperm. cbn in Hperm. lia. }
    assert (Hin : forall x, In x (front' ++ [lowest])%list -> In x front).
    { intros x Hx. apply list_elem_of_In. rewrite <- Hperm. by apply list_elem_of_In. }
    rewrite Hrun, <- app_assoc. cbn [app].
    replace (length front + length back)%nat
      with (length front' + length (lowest :: back))%nat by (cbn; lia).
    change (S (length back)) with (length (lowest :: back)).
    apply IH; [exact Hlen'| |].
    + cbn. split; [|exact Hback]. apply Forall_forall. intros y Hy.
      apply Hcross; [|by apply list_elem_of_In].
      apply Hin, in_or_app. right. by left.
    + intros x y Hx [<-|Hy].
      * apply Hlow, Hin, in_or_app. by left.
      * apply Hcross; [|exact Hy]. apply Hin, in_or_app. by left.
Qed.

Lemma outer_loop_permutation (rounds i n : nat) (results : list (SearchResult float64)) :
  outer_loop float64_lt rounds i n results ≡ₚ results.
Proof.
  revert i results. induction rounds as [|rounds IH]; intros i results; cbn;
    [reflexivity|].
  by rewrite IH, inner_loop_permutation.
Qed.

Lemma inner_loop_stable (x : SearchResult float64) (bound : nat)
    (results : list (SearchResult float64)) :
  List.filter (same_rank float64_lt x) (inner_loop float64_lt bound results)
  = List.filter (same_rank float64_lt x) results.
Proof.
  revert results. induction bound as [|bound IH]; intros [|a [|b rest]];
    cbn [inner_loop]; try reflexivity.
  destruct (float64_lt (sr_Score a) (sr_Score b)) eqn:Hab.
  - cbn [List.filter]. rewrite IH. cbn [List.filter].
    destruct (same_rank float64_lt x a) eqn:Ha, (same_rank float64_lt x b) eqn:Hb;
      try reflexivity.
    exfalso. unfold same_rank in Ha, Hb.
    apply andb_true_iff in Ha as [_ Hax], Hb as [Hxb _].
    apply negb_true_iff in Hax, Hxb.
    by rewrite (not_lt_transitive _ _ _ Hax Hxb) in Hab.
  - cbn [List.filter]. by rewrite IH.
Qed.

Lemma outer_loop_stable (x : SearchResult float64) (rounds i n : nat)
    (results : list (SearchResult float64)) :
  List.filter (same_rank float64_lt x) (outer_loop float64_lt rounds i n results)
  = List.filter (same_rank float64_lt x) results.
Proof.
  revert i results. induction rounds as [|rounds IH]; intros i results; cbn;
    [reflexivity|].
  by rewrite IH, inner_loop_stable.
Qed.

(** X21. [sortByScore] sorts.  For scores on which [<] is irreflexive and
    transitive and so is its negation (float64 values that are numbers),
    the slice it leaves is a rearrangement of the one it was given, no
    result in it ranks below a later one, and results of the same rank are
    in the order they had before. *)
Theorem sortByScore_sorts (results : list (SearchResult float64)) :
  sortByScore float64_lt results ≡ₚ results
  /\ descending float64_lt (sortByScore float64_lt results)
  /\ forall x, List.filter (same_rank float64_lt x) (sortByScore float64_lt results)
               = List.filter (same_rank float64_lt x) results.
Proof.
  unfold sortByScore. split; [apply outer_loop_permutation|].
  split; [|intros x; apply outer_loop_stable].
  destruct results as [|a rest]; [exact I|].
  pose proof (outer_loop_descending (length rest) (a :: rest) [] eq_refl I) as Hsorted.
  rewrite app_nil_r in Hsorted. cbn [length] in *.
  replace (S (length rest) + 0)%nat with (S (length rest)) in Hsorted by lia.
  replace (S (length rest) - 1)%nat with (length rest) by lia.
  apply Hsorted. intros x y _ [].
Qed.
End ranking.

Section ranking_examples.
Import search examples_x.

Example TestSearchService_SortByScore :
  List.map sr_Score (sortByScore Z.ltb unsorted) = [8; 5; 3; 2; 1].
Proof. reflexivity. Qed.

Lemma sortByScore_sorts_witness :
  descending Z.ltb (sortByScore Z.ltb unsorted).
Proof.
  apply (sortByScore_sorts Z.ltb).
  - intros x. apply Z.ltb_irrefl.
  - intros x y z Hxy Hyz. apply Z.ltb_lt in Hxy, Hyz. apply Z.ltb_lt. lia.
  - intros x y z Hxy Hyz. apply Z.ltb_ge in Hxy, Hyz. apply Z.ltb_ge. lia.
Defined.
End ranking_examples.
